(** * Solcast Solar config flow: validation and option merging

    A shallow embedding of [custom_components/solcast_solar/config_flow.py]:
    the two validators [validate_api_key] and [validate_api_limit], the
    initial set-up step [async_step_user], the main options step
    [async_step_init] and the dampening sub-step [async_step_dampen].

    Conventions of the embedding.
    - A Python [str] is a Rocq [string], read as ASCII text.  The built-in
      string methods used by the module ([replace], [split], [join],
      [strip], [isnumeric], [isdigit]) are written out on that alphabet.
    - A Python [dict] with string keys is a [gmap string value].
    - A Python [int] is a [Z]; [int(str)] gives the exact value of the
      digits, whatever their number.
    - A Python [float] is an IEEE binary64 datum, carried as the standard
      library's [spec_float]; [float(str)] and the [.1f] format are written
      out with integer arithmetic (round to nearest, ties to even).
    - An exception is a constructor of [exn]; code that may raise lives in
      the error monad [res].
    - The constants imported from [.const] and [homeassistant.const] are not
      part of this file's source; they are the fields of a record [names]
      and every definition is parametrised by it. *)

From Stdlib Require Import ZArith NArith List Bool Ascii String Lia.
From Stdlib Require Import DecimalString DecimalN SpecFloat.
From stdpp Require Import base option list strings gmap fin_maps.

Local Open Scope string_scope.
Local Open Scope Z_scope.

(** ** Python strings *)

Module PyStr.

Definition comma : ascii := ","%char.
Definition space : ascii := " "%char.
Definition dot : ascii := "."%char.
Definition newline : ascii := "010"%char.

(** [s.replace(c, "")] for a one-character [c]. *)
Fixpoint remove_char (c : ascii) (s : string) : string :=
  match s with
  | EmptyString => EmptyString
  | String a r =>
      if Ascii.eqb a c then remove_char c r else String a (remove_char c r)
  end.

(** [s.replace(c, "", 1)] for a one-character [c]. *)
Fixpoint remove_first (c : ascii) (s : string) : string :=
  match s with
  | EmptyString => EmptyString
  | String a r => if Ascii.eqb a c then r else String a (remove_first c r)
  end.

(** [s.split(c)] for a one-character separator: never the empty list. *)
Fixpoint split (c : ascii) (s : string) : list string :=
  match s with
  | EmptyString => [EmptyString]
  | String a r =>
      if Ascii.eqb a c then EmptyString :: split c r
      else match split c r with
           | [] => [String a EmptyString]
           | t :: ts => String a t :: ts
           end
  end.

(** Truth value of a string: [if s]. *)
Definition nonempty (s : string) : bool :=
  match s with EmptyString => false | String _ _ => true end.

(** [sep.join(l)]. *)
Definition join (sep : string) (l : list string) : string :=
  String.concat sep l.

Definition is_digit (a : ascii) : bool :=
  let n := nat_of_ascii a in (48 <=? n)%nat && (n <=? 57)%nat.

Fixpoint all_digits (s : string) : bool :=
  match s with
  | EmptyString => true
  | String a r => is_digit a && all_digits r
  end.

(** [s.isdigit()]: at least one character, all of them digits. *)
Definition isdigit (s : string) : bool := nonempty s && all_digits s.

(** [s.isnumeric()]; on ASCII text it coincides with [isdigit]. *)
Definition isnumeric (s : string) : bool := nonempty s && all_digits s.

(** The characters [str.strip()] removes: tab, newline, vertical tab,
    form feed, carriage return, the four separators 28..31 and space. *)
Definition is_space (a : ascii) : bool :=
  let n := nat_of_ascii a in
  ((9 <=? n)%nat && (n <=? 13)%nat) || ((28 <=? n)%nat && (n <=? 32)%nat).

Fixpoint lstrip (s : string) : string :=
  match s with
  | EmptyString => EmptyString
  | String a r => if is_space a then lstrip r else s
  end.

Fixpoint rstrip (s : string) : string :=
  match s with
  | EmptyString => EmptyString
  | String a r =>
      match rstrip r with
      | EmptyString => if is_space a then EmptyString else String a EmptyString
      | r' => String a r'
      end
  end.

(** [s.strip()]. *)
Definition strip (s : string) : string := rstrip (lstrip s).

(** Value of a string of decimal digits, most significant first. *)
Fixpoint digits_value (acc : N) (s : string) : N :=
  match s with
  | EmptyString => acc
  | String a r => digits_value (10 * acc + (N_of_ascii a - 48))%N r
  end.

(** Decimal numeral of a natural number, as [str(n)] prints it. *)
Definition of_N (n : N) : string := NilZero.string_of_uint (N.to_uint n).

(** [f"{n:02d}"] for a non-negative [n]. *)
Definition fmt_02d (n : nat) : string :=
  if (n <? 10)%nat then String "0"%char (of_N (N.of_nat n))
  else of_N (N.of_nat n).

End PyStr.

(** ** The site-identifier pattern

    [LIKE_SITE_ID = r"^[a-z0-9]{4}-[a-z0-9]{4}-[a-z0-9]{4}-[a-z0-9]{4}$"],
    used through [re.match]: anchored at the start; [$] matches at the end
    of the string and also just before a newline that ends the string. *)

Module Regex.

Definition lower_alnum (a : ascii) : bool :=
  let n := nat_of_ascii a in
  ((97 <=? n)%nat && (n <=? 122)%nat) || ((48 <=? n)%nat && (n <=? 57)%nat).

(** [[a-z0-9]{n}]: consume exactly [n] characters of the class. *)
Fixpoint class_n (n : nat) (s : string) : option string :=
  match n with
  | O => Some s
  | S n' =>
      match s with
      | String a r => if lower_alnum a then class_n n' r else None
      | EmptyString => None
      end
  end.

(** A literal hyphen. *)
Definition hyphen (s : string) : option string :=
  match s with
  | String a r => if Ascii.eqb a "-"%char then Some r else None
  | EmptyString => None
  end.

(** [$] without the MULTILINE flag. *)
Definition at_end (s : string) : bool :=
  match s with
  | EmptyString => true
  | String a EmptyString => Ascii.eqb a PyStr.newline
  | _ => false
  end.

Definition group_then_hyphen (s : string) : option string :=
  r ← class_n 4 s; hyphen r.

(** [re.match(LIKE_SITE_ID, key)] as a truth value. *)
Definition like_site_id (key : string) : bool :=
  match (r1 ← group_then_hyphen key;
         r2 ← group_then_hyphen r1;
         r3 ← group_then_hyphen r2;
         class_n 4 r3) with
  | Some rest => at_end rest
  | None => false
  end.

End Regex.

(** ** Python floats (IEEE binary64) *)

Module PyFloat.

(** Quotient of [n >= 0] by [d > 0], rounded to nearest, ties to even. *)
Definition div_half_even (n d : Z) : Z :=
  let q := n / d in
  match (2 * (n mod d)) ?= d with
  | Lt => q
  | Gt => q + 1
  | Eq => if Z.even q then q else q + 1
  end.

(** [floor (log2 (n / d))] for positive [n] and [d]. *)
Definition ilog2_ratio (n d : Z) : Z :=
  let l := Z.log2 n - Z.log2 d in
  let below :=
    if 0 <=? l then n <? d * 2 ^ l else n * 2 ^ (- l) <? d in
  if below then l - 1 else l.

(** The binary64 number nearest to [n / d] ([n >= 0], [d > 0]), ties to
    even; gradual underflow down to [2^-1074], overflow to infinity. *)
Definition of_ratio (n d : Z) : spec_float :=
  if n =? 0 then S754_zero false
  else
    let e := Z.max (ilog2_ratio n d - 52) (-1074) in
    let m :=
      if 0 <=? e then div_half_even n (d * 2 ^ e)
      else div_half_even (n * 2 ^ (- e)) d in
    let '(m, e) := if m =? 2 ^ 53 then (2 ^ 52, e + 1) else (m, e) in
    if 971 <? e then S754_infinity false
    else match m with
         | Zpos p => S754_finite false p e
         | _ => S754_zero false
         end.

(** Text before and after the first decimal point. *)
Fixpoint cut_at_dot (s : string) : string * string :=
  match s with
  | EmptyString => (EmptyString, EmptyString)
  | String a r =>
      if Ascii.eqb a PyStr.dot then (EmptyString, r)
      else let '(i, f) := cut_at_dot r in (String a i, f)
  end.

(** [float(h)] on the strings the module passes to it: digits with at
    most one decimal point and at least one digit.  [None] stands for the
    [ValueError] of an empty digit sequence; other spellings that the
    built-in accepts (signs, exponents, [inf]) never reach the call. *)
Definition of_str (h : string) : option spec_float :=
  if PyStr.isdigit (PyStr.remove_first PyStr.dot h) then
    let '(i, f) := cut_at_dot h in
    Some (of_ratio (Z.of_N (PyStr.digits_value 0 (i ++ f)))
                   (10 ^ Z.of_nat (String.length f)))
  else None.

Definition sign_text (s : bool) : string := if s then "-" else "".

(** [f"{val:.1f}"]: the exact binary value rounded to one decimal, ties
    to even. *)
Definition fmt_1f (val : spec_float) : string :=
  match val with
  | S754_zero s => sign_text s ++ "0.0"
  | S754_infinity s => sign_text s ++ "inf"
  | S754_nan => "nan"
  | S754_finite s m e =>
      let t :=
        if 0 <=? e then Zpos m * 2 ^ e * 10
        else div_half_even (Zpos m * 10) (2 ^ (- e)) in
      sign_text s ++ PyStr.of_N (Z.to_N (t / 10)) ++ "."
        ++ PyStr.of_N (Z.to_N (t mod 10))
  end.

(** [val < z] and [val > z] against an integer, compared exactly;
    both are false on a NaN. *)
Definition cmp_int (val : spec_float) (z : Z) : option comparison :=
  match val with
  | S754_nan => None
  | S754_zero _ => Some (0 ?= z)
  | S754_infinity s => Some (if s then Lt else Gt)
  | S754_finite s m e =>
      let v := if s then Zneg m else Zpos m in
      Some (if 0 <=? e then (v * 2 ^ e ?= z) else (v ?= z * 2 ^ (- e)))
  end.

Definition lt_int (val : spec_float) (z : Z) : bool :=
  match cmp_int val z with Some Lt => true | _ => false end.

Definition gt_int (val : spec_float) (z : Z) : bool :=
  match cmp_int val z with Some Gt => true | _ => false end.

(** The literal [1.0]. *)
Definition one : spec_float := S754_finite false 4503599627370496 (-52).

Definition is_finite (val : spec_float) : bool :=
  match val with
  | S754_zero _ | S754_finite _ _ _ => true
  | _ => false
  end.

End PyFloat.

(** ** Values, exceptions and the error monad *)

(** The scalars an options record or a submitted form can hold. *)
Inductive value : Type :=
  | VNone
  | VBool (b : bool)
  | VInt (z : Z)
  | VFloat (f : spec_float)
  | VStr (s : string).

(** A Python [dict] keyed by strings. *)
Abbreviation dict := (gmap string value).

Inductive exn : Type :=
  | KeyError (k : string)
  | AttributeError
  | TypeError
  | ValueError
  | OverflowError.

(** Result of code that may raise. *)
Inductive res (A : Type) : Type :=
  | Ok (a : A)
  | Raise (e : exn).
Arguments Ok {A} a.
Arguments Raise {A} e.

#[global] Instance res_ret : MRet res := fun A a => Ok a.
#[global] Instance res_bind : MBind res := fun A B k m =>
  match m with
  | Ok a => k a
  | Raise e => Raise e
  end.

Module Py.

(** [d[k]]: a missing key raises [KeyError]. *)
Definition getitem (d : dict) (k : string) : res value :=
  match d !! k with
  | Some v => Ok v
  | None => Raise (KeyError k)
  end.

(** [d.get(k)]: a missing key gives [None]. *)
Definition get (d : dict) (k : string) : value :=
  match d !! k with
  | Some v => v
  | None => VNone
  end.

(** Receiver of a [str] method: anything else has no such attribute. *)
Definition as_str (v : value) : res string :=
  match v with
  | VStr s => Ok s
  | _ => Raise AttributeError
  end.

(** Truth value, as tested by [if v]. *)
Definition truthy (v : value) : bool :=
  match v with
  | VNone => false
  | VBool b => b
  | VInt z => negb (z =? 0)
  | VFloat (S754_zero _) => false
  | VFloat _ => true
  | VStr s => PyStr.nonempty s
  end.

Definition is_none (v : value) : bool :=
  match v with VNone => true | _ => false end.

(** Digits with single underscores between them, as [int] accepts. *)
Fixpoint int_literal (prev_digit : bool) (s : string) : bool :=
  match s with
  | EmptyString => prev_digit
  | String a r =>
      if PyStr.is_digit a then int_literal true r
      else if Ascii.eqb a "_"%char then prev_digit && int_literal false r
      else false
  end.

Definition int_of_digits (s : string) : res Z :=
  if int_literal false s
  then Ok (Z.of_N (PyStr.digits_value 0 (PyStr.remove_char "_"%char s)))
  else Raise ValueError.

(** [int(s)] for a string: surrounding white space, an optional sign,
    then a decimal literal. *)
Definition int_of_str (s : string) : res Z :=
  match PyStr.strip s with
  | String a r =>
      if Ascii.eqb a "+"%char then int_of_digits r
      else if Ascii.eqb a "-"%char then z ← int_of_digits r; Ok (- z)
      else int_of_digits (String a r)
  | EmptyString => int_of_digits EmptyString
  end.

(** [int(v)]. *)
Definition int (v : value) : res Z :=
  match v with
  | VNone => Raise TypeError
  | VBool b => Ok (if b then 1 else 0)
  | VInt z => Ok z
  | VStr s => int_of_str s
  | VFloat (S754_zero _) => Ok 0
  | VFloat (S754_finite s m e) =>
      let a := if 0 <=? e then Zpos m * 2 ^ e else Zpos m / 2 ^ (- e) in
      Ok (if s then - a else a)
  | VFloat (S754_infinity _) => Raise OverflowError
  | VFloat S754_nan => Raise ValueError
  end.

(** [v < z] and [v > z] for an integer literal [z]. *)
Definition lt_int (v : value) (z : Z) : res bool :=
  match v with
  | VBool b => Ok ((if b then 1 else 0) <? z)
  | VInt x => Ok (x <? z)
  | VFloat f => Ok (PyFloat.lt_int f z)
  | VNone | VStr _ => Raise TypeError
  end.

Definition gt_int (v : value) (z : Z) : res bool :=
  match v with
  | VBool b => Ok (z <? (if b then 1 else 0))
  | VInt x => Ok (z <? x)
  | VFloat f => Ok (PyFloat.gt_int f z)
  | VNone | VStr _ => Raise TypeError
  end.

End Py.

(** ** Imported constants *)

(** The option names and the title that [config_flow.py] imports; their
    values live in modules outside this file. *)
Record names : Type := {
  CONF_API_KEY : string;
  API_QUOTA : string;
  AUTO_UPDATE : string;
  BRK_ESTIMATE : string;
  BRK_ESTIMATE10 : string;
  BRK_ESTIMATE90 : string;
  BRK_HALFHOURLY : string;
  BRK_HOURLY : string;
  BRK_SITE : string;
  BRK_SITE_DETAILED : string;
  CONFIG_DAMP : string;
  CUSTOM_HOUR_SENSOR : string;
  HARD_LIMIT_API : string;
  KEY_ESTIMATE : string;
  SITE_DAMP : string;
  TITLE : string
}.

(** [f"damp{factor:02d}"]. *)
Definition damp_key (factor : nat) : string := "damp" ++ PyStr.fmt_02d factor.

(** [range(24)]. *)
Definition hours : list nat := seq 0 24.

(** ** What a step hands back to the host *)

(** [errors["base"]]: the text of a caught exception, or ["unknown"]. *)
Inductive form_error : Type :=
  | ErrorText (e : exn)
  | ErrorUnknown.

(** The validators of a form field. *)
Inductive field_type : Type :=
  | TStr
  | TInt
  | TBool
  | TSelect (choices : list string)
  | TUnitFloat.

(** One [vol.Required] / [vol.Optional] marker of a form schema. *)
Record field : Type := {
  f_key : string;
  f_required : bool;
  f_default : option value;
  f_suggested : option value;
  f_type : field_type
}.

Inductive flow_result : Type :=
  | FlowAbort (reason : string)
  | FlowForm (step_id : string) (data_schema : list field)
             (errors : option form_error)
  | FlowCreateEntry (title : string) (data : option dict)
                    (options : option dict).

(** A configuration entry as the entry store holds it. *)
Record config_entry : Type := {
  entry_title : string;
  entry_options : dict
}.

(** The attributes of [SolcastSolarOptionFlowHandler]. *)
Record options_flow : Type := {
  _entry : config_entry;
  _options : dict;
  _all_config_data : option dict
}.

(** [SolcastSolarOptionFlowHandler(config_entry)]. *)
Definition options_flow_init (config_entry : config_entry) : options_flow :=
  {| _entry := config_entry;
     _options := entry_options config_entry;
     _all_config_data := None |}.

(** [hass.config_entries.async_update_entry(entry, title=t, options=o)]. *)
Definition async_update_entry (t : string) (o : dict) : config_entry :=
  {| entry_title := t; entry_options := o |}.

Module Reason.
Definition site_id : string := "API key looks like a site ID".
Definition duplicate : string := "Duplicate API key specified".
Definition quota_nan : string := "API limit is not a number".
Definition quota_min : string := "API limit must be one or greater".
Definition quota_many : string :=
  "There are more API limit counts entered than keys".
Definition hour_range : string := "Custom sensor not between 1 and 144".
Definition limit_nan : string := "Hard limit is not a positive number".
Definition limit_many : string :=
  "There are more hard limits entered than keys".
Definition single_instance : string := "single_instance_allowed".
End Reason.

(** A dict display [{k1: v1, ..., kn: vn}]: a repeated key keeps the last
    value. *)
Definition mkdict (l : list (string * value)) : dict :=
  fold_left (fun d kv => <[kv.1 := kv.2]> d) l ∅.

(** ** The validators *)

Section Validators.

Variable c : names.

(** [[s for s in raw.replace(" ", "").split(",") if s]]. *)
Definition tokens (raw : string) : list string :=
  List.filter PyStr.nonempty
    (PyStr.split PyStr.comma (PyStr.remove_char PyStr.space raw)).

(** The inner loop of [validate_api_key]:
    [for i, k in enumerate(api_key): if index != i and key == k]. *)
Fixpoint duplicate_at (index : nat) (key : string) (i : nat)
    (api_key : list string) : bool :=
  match api_key with
  | [] => false
  | k :: rest =>
      if negb (index =? i)%nat && String.eqb key k then true
      else duplicate_at index key (S i) rest
  end.

(** The outer loop of [validate_api_key], from position [index] on;
    [Some reason] is the early return. *)
Fixpoint key_loop (api_key : list string) (index : nat)
    (todo : list string) : option string :=
  match todo with
  | [] => None
  | key :: rest =>
      if Regex.like_site_id key then Some Reason.site_id
      else if duplicate_at index key 0 api_key then Some Reason.duplicate
      else key_loop api_key (S index) rest
  end.

Definition validate_api_key (user_input : dict)
    : res (string * Z * option string) :=
  v ← Py.getitem user_input c.(CONF_API_KEY);
  raw ← Py.as_str v;
  let api_key := tokens raw in
  match key_loop api_key 0 api_key with
  | Some abort => Ok ("", 0, Some abort)
  | None =>
      let api_count := Z.of_nat (length api_key) in
      Ok (PyStr.join "," api_key, api_count, None)
  end.

(** The loop of [validate_api_limit]. *)
Fixpoint quota_loop (api_quota : list string) : res (option string) :=
  match api_quota with
  | [] => Ok None
  | q :: rest =>
      if negb (PyStr.isnumeric q) then Ok (Some Reason.quota_nan)
      else
        n ← Py.int_of_str q;
        if n <? 1 then Ok (Some Reason.quota_min) else quota_loop rest
  end.

Definition validate_api_limit (user_input : dict) (api_count : Z)
    : res (string * option string) :=
  v ← Py.getitem user_input c.(API_QUOTA);
  raw ← Py.as_str v;
  let api_quota := tokens raw in
  abort ← quota_loop api_quota;
  match abort with
  | Some reason => Ok ("", Some reason)
  | None =>
      if api_count <? Z.of_nat (length api_quota)
      then Ok ("", Some Reason.quota_many)
      else Ok (PyStr.join "," api_quota, None)
  end.

End Validators.

(** ** The initial set-up step *)

Section ConfigFlow.

Variable c : names.

(** The three choices of the auto-update selector. *)
Definition update_choices : list string := ["0"; "1"; "2"].

(** The three choices of the forecast selector. *)
Definition forecast_choices : list string :=
  ["estimate"; "estimate10"; "estimate90"].

(** [{f"damp{factor:02d}": 1.0 for factor in range(24)}]. *)
Definition default_damp : dict :=
  mkdict (map (fun factor => (damp_key factor, VFloat PyFloat.one)) hours).

(** The options literal built by a successful set-up. *)
Definition initial_options (api_key api_quota : string) (auto_update : Z)
    : dict :=
  mkdict [ (c.(CONF_API_KEY), VStr api_key);
           (c.(API_QUOTA), VStr api_quota);
           (c.(AUTO_UPDATE), VInt auto_update);
           (c.(CUSTOM_HOUR_SENSOR), VInt 1);
           (c.(HARD_LIMIT_API), VStr "100.0");
           (c.(KEY_ESTIMATE), VStr "estimate");
           (c.(BRK_ESTIMATE), VBool true);
           (c.(BRK_ESTIMATE10), VBool true);
           (c.(BRK_ESTIMATE90), VBool true);
           (c.(BRK_SITE), VBool true);
           (c.(BRK_HALFHOURLY), VBool true);
           (c.(BRK_HOURLY), VBool true);
           (c.(BRK_SITE_DETAILED), VBool false) ].

Definition user_form (solcast_json_exists : bool) : list field :=
  [ {| f_key := c.(CONF_API_KEY); f_required := true;
       f_default := Some (VStr ""); f_suggested := None; f_type := TStr |};
    {| f_key := c.(API_QUOTA); f_required := true;
       f_default := Some (VStr "10"); f_suggested := None; f_type := TStr |};
    {| f_key := c.(AUTO_UPDATE); f_required := true;
       f_default := Some (VStr (if solcast_json_exists then "0" else "1"));
       f_suggested := None; f_type := TSelect update_choices |} ].

(** [SolcastSolarFlowHandler.async_step_user].  [current_entries] is what
    [self._async_current_entries()] returns and [solcast_json_exists] the
    outcome of the probe for [solcast.json]. *)
Definition async_step_user (current_entries : list config_entry)
    (solcast_json_exists : bool) (user_input : option dict)
    : res flow_result :=
  match current_entries with
  | _ :: _ => Ok (FlowAbort Reason.single_instance)
  | [] =>
      match user_input with
      | Some user_input =>
          '(api_key, api_count, abort) ← validate_api_key c user_input;
          match abort with
          | Some reason => Ok (FlowAbort reason)
          | None =>
              '(api_quota, abort) ← validate_api_limit c user_input api_count;
              match abort with
              | Some reason => Ok (FlowAbort reason)
              | None =>
                  v ← Py.getitem user_input c.(AUTO_UPDATE);
                  auto_update ← Py.int v;
                  let options := initial_options api_key api_quota auto_update in
                  Ok (FlowCreateEntry c.(TITLE) (Some ∅)
                        (Some (default_damp ∪ options)))
              end
          end
      | None => Ok (FlowForm "user" (user_form solcast_json_exists) None)
      end
  end.

End ConfigFlow.

(** ** The options flow *)

Section OptionsFlow.

Variable c : names.

(** Outcome of the validation part of the main step: an abort reason, or
    the merged record [all_config_data]. *)
Inductive checked : Type :=
  | Rejected (reason : string)
  | Merged (all_config_data : dict).

(** The hard-limit loop: [inl reason] is the early return, [inr to_set]
    the list built by the appends. *)
Fixpoint hard_limit_loop (parts : list string) (to_set : list string)
    : res (string + list string) :=
  match parts with
  | [] => Ok (inr to_set)
  | h :: rest =>
      let h := PyStr.strip h in
      if negb (PyStr.isdigit (PyStr.remove_first PyStr.dot h))
      then Ok (inl Reason.limit_nan)
      else
        match PyFloat.of_str h with
        | Some val => hard_limit_loop rest (to_set ++ [PyFloat.fmt_1f val])
        | None => Raise ValueError
        end
  end.

(** The block "Validate the hard limit" of [async_step_init]. *)
Definition validate_hard_limit (hard_limit : string) (api_count : Z)
    : res (string + string) :=
  r ← hard_limit_loop (PyStr.split PyStr.comma hard_limit) [];
  match r with
  | inl reason => Ok (inl reason)
  | inr to_set =>
      if api_count <? Z.of_nat (length to_set)
      then Ok (inl Reason.limit_many)
      else Ok (inr (PyStr.join "," to_set))
  end.

(** The block "Validate the custom hours sensor": [true] when the value
    is refused. *)
Definition hour_sensor_refused (custom_hour_sensor : value) : res bool :=
  below ← Py.lt_int custom_hour_sensor 1;
  if (below : bool) then Ok true else Py.gt_int custom_hour_sensor 144.

(** The assignments that follow the validations. *)
Definition copy_fields (user_input all_config_data : dict) : res dict :=
  d ← (if negb (Py.is_none (Py.get user_input c.(SITE_DAMP)))
       then v ← Py.getitem user_input c.(SITE_DAMP);
            Ok (<[c.(SITE_DAMP) := v]> all_config_data)
       else Ok all_config_data : res dict);
  v ← Py.getitem user_input c.(AUTO_UPDATE);
  n ← Py.int v;
  let d := <[c.(AUTO_UPDATE) := VInt n]> d in
  v ← Py.getitem user_input c.(KEY_ESTIMATE);
  let d := <[c.(KEY_ESTIMATE) := v]> d in
  v ← Py.getitem user_input c.(BRK_ESTIMATE);
  let d := <[c.(BRK_ESTIMATE) := v]> d in
  v ← Py.getitem user_input c.(BRK_ESTIMATE10);
  let d := <[c.(BRK_ESTIMATE10) := v]> d in
  v ← Py.getitem user_input c.(BRK_ESTIMATE90);
  let d := <[c.(BRK_ESTIMATE90) := v]> d in
  v ← Py.getitem user_input c.(BRK_HALFHOURLY);
  let d := <[c.(BRK_HALFHOURLY) := v]> d in
  v ← Py.getitem user_input c.(BRK_HOURLY);
  let d := <[c.(BRK_HOURLY) := v]> d in
  site_breakdown ← Py.getitem user_input c.(BRK_SITE);
  let d := <[c.(BRK_SITE) := site_breakdown]> d in
  site_detailed ← Py.getitem user_input c.(BRK_SITE_DETAILED);
  Ok (<[c.(BRK_SITE_DETAILED) := site_detailed]> d).

(** The [try] block of [async_step_init] up to the assignment of
    [self._all_config_data]: validation and merge onto a copy of the
    stored options. *)
Definition check_and_merge (options user_input : dict) : res checked :=
  let all_config_data := options in
  '(api_key, api_count, abort) ← validate_api_key c user_input;
  let all_config_data := <[c.(CONF_API_KEY) := VStr api_key]> all_config_data in
  match abort with
  | Some reason => Ok (Rejected reason)
  | None =>
      '(api_quota, abort) ← validate_api_limit c user_input api_count;
      let all_config_data := <[c.(API_QUOTA) := VStr api_quota]> all_config_data in
      match abort with
      | Some reason => Ok (Rejected reason)
      | None =>
          custom_hour_sensor ← Py.getitem user_input c.(CUSTOM_HOUR_SENSOR);
          refused ← hour_sensor_refused custom_hour_sensor;
          if (refused : bool) then Ok (Rejected Reason.hour_range)
          else
            let all_config_data :=
              <[c.(CUSTOM_HOUR_SENSOR) := custom_hour_sensor]> all_config_data in
            v ← Py.getitem user_input c.(HARD_LIMIT_API);
            hard_limit ← Py.as_str v;
            r ← validate_hard_limit hard_limit api_count;
            match r with
            | inl reason => Ok (Rejected reason)
            | inr hard_limit =>
                let all_config_data :=
                  <[c.(HARD_LIMIT_API) := VStr hard_limit]> all_config_data in
                d ← copy_fields user_input all_config_data;
                Ok (Merged d)
            end
      end
  end.

(** [{key: all_config_data[key] for factor in range(24)}], in hour
    order; a missing slot raises. *)
Fixpoint extant_damp (all_config_data : dict) (factors : list nat)
    : res (list value) :=
  match factors with
  | [] => Ok []
  | factor :: rest =>
      v ← Py.getitem all_config_data (damp_key factor);
      vs ← extant_damp all_config_data rest;
      Ok (v :: vs)
  end.

(** The assignment loop of the dampening step.  The dict is updated in
    place, so a [KeyError] part-way leaves the earlier slots written:
    the result is the dict as it stands and the exception, if any. *)
Fixpoint assign_damp (user_input : dict) (factors : list nat)
    (all_config_data : dict) : dict * option exn :=
  match factors with
  | [] => (all_config_data, None)
  | factor :: rest =>
      match user_input !! damp_key factor with
      | Some v =>
          assign_damp user_input rest (<[damp_key factor := v]> all_config_data)
      | None => (all_config_data, Some (KeyError (damp_key factor)))
      end
  end.

Definition dampen_form (extant : list value) : list field :=
  map (fun '(factor, v) =>
         {| f_key := damp_key factor; f_required := true;
            f_default := None; f_suggested := Some v;
            f_type := TUnitFloat |})
      (combine hours extant).

(** When [self._all_config_data] is a dict, the local name
    [all_config_data] is that same object and every write to it shows in
    the attribute; when it is [None] the local is a fresh copy. *)
Definition write_back (self : options_flow) (all_config_data : dict)
    : options_flow :=
  match _all_config_data self with
  | Some _ =>
      {| _entry := _entry self; _options := _options self;
         _all_config_data := Some all_config_data |}
  | None => self
  end.

(** [SolcastSolarOptionFlowHandler.async_step_dampen]: the outcome and
    the handler (with its entry) afterwards. *)
Definition async_step_dampen (self : options_flow)
    (user_input : option dict) : res flow_result * options_flow :=
  let all_config_data :=
    match _all_config_data self with
    | None => _options self
    | Some d => d
    end in
  match extant_damp all_config_data hours with
  | Raise e => (Raise e, self)
  | Ok extant =>
      let form errors := FlowForm "dampen" (dampen_form extant) errors in
      match user_input with
      | None => (Ok (form None), self)
      | Some user_input =>
          match assign_damp user_input hours all_config_data with
          | (all_config_data, Some _) =>
              (Ok (form (Some ErrorUnknown)), write_back self all_config_data)
          | (all_config_data, None) =>
              let all_config_data :=
                <[c.(SITE_DAMP) := VBool false]> all_config_data in
              let self := write_back self all_config_data in
              (Ok (FlowCreateEntry c.(TITLE) None None),
               {| _entry := async_update_entry c.(TITLE) all_config_data;
                  _options := _options self;
                  _all_config_data := _all_config_data self |})
          end
      end
  end.

(** [str(n)] for an integer. *)
Definition str_of_int (n : Z) : string :=
  match n with
  | Zneg p => "-" ++ PyStr.of_N (Npos p)
  | _ => PyStr.of_N (Z.to_N n)
  end.

Definition opt_bool (k : string) (v : value) : field :=
  {| f_key := k; f_required := false; f_default := Some v;
     f_suggested := None; f_type := TBool |}.

(** The schema of the main options form, with defaults read from the
    stored options in the order the dict display evaluates them. *)
Definition init_form (options : dict) : res (list field) :=
  let api_key := Py.get options c.(CONF_API_KEY) in
  api_quota ← Py.getitem options c.(API_QUOTA);
  v ← Py.getitem options c.(AUTO_UPDATE);
  auto_update ← Py.int v;
  let key_estimate :=
    match options !! c.(KEY_ESTIMATE) with
    | Some v => v
    | None => VStr "estimate"
    end in
  custom_hour_sensor ← Py.getitem options c.(CUSTOM_HOUR_SENSOR);
  let hard_limit := Py.get options c.(HARD_LIMIT_API) in
  brk_estimate10 ← Py.getitem options c.(BRK_ESTIMATE10);
  brk_estimate ← Py.getitem options c.(BRK_ESTIMATE);
  brk_estimate90 ← Py.getitem options c.(BRK_ESTIMATE90);
  brk_site ← Py.getitem options c.(BRK_SITE);
  brk_halfhourly ← Py.getitem options c.(BRK_HALFHOURLY);
  brk_hourly ← Py.getitem options c.(BRK_HOURLY);
  brk_site_detailed ← Py.getitem options c.(BRK_SITE_DETAILED);
  site_damp ← Py.getitem options c.(SITE_DAMP);
  last ← (if negb (Py.truthy site_damp)
          then Ok (opt_bool c.(CONFIG_DAMP) (VBool false))
          else site_damp ← Py.getitem options c.(SITE_DAMP);
               Ok (opt_bool c.(SITE_DAMP) site_damp) : res field);
  Ok [ {| f_key := c.(CONF_API_KEY); f_required := true;
          f_default := Some api_key; f_suggested := None; f_type := TStr |};
       {| f_key := c.(API_QUOTA); f_required := true;
          f_default := Some api_quota; f_suggested := None; f_type := TStr |};
       {| f_key := c.(AUTO_UPDATE); f_required := true;
          f_default := Some (VStr (str_of_int auto_update));
          f_suggested := None; f_type := TSelect update_choices |};
       {| f_key := c.(KEY_ESTIMATE); f_required := true;
          f_default := Some key_estimate; f_suggested := None;
          f_type := TSelect forecast_choices |};
       {| f_key := c.(CUSTOM_HOUR_SENSOR); f_required := true;
          f_default := Some custom_hour_sensor; f_suggested := None;
          f_type := TInt |};
       {| f_key := c.(HARD_LIMIT_API); f_required := true;
          f_default := Some hard_limit; f_suggested := None; f_type := TStr |};
       opt_bool c.(BRK_ESTIMATE10) brk_estimate10;
       opt_bool c.(BRK_ESTIMATE) brk_estimate;
       opt_bool c.(BRK_ESTIMATE90) brk_estimate90;
       opt_bool c.(BRK_SITE) brk_site;
       opt_bool c.(BRK_HALFHOURLY) brk_halfhourly;
       opt_bool c.(BRK_HOURLY) brk_hourly;
       opt_bool c.(BRK_SITE_DETAILED) brk_site_detailed;
       last ].

(** The [try] block of [async_step_init] for a submitted form. *)
Definition init_try (self : options_flow) (user_input : dict)
    : res flow_result * options_flow :=
  match check_and_merge (_options self) user_input with
  | Raise e => (Raise e, self)
  | Ok (Rejected reason) => (Ok (FlowAbort reason), self)
  | Ok (Merged all_config_data) =>
      let self :=
        {| _entry := _entry self; _options := _options self;
           _all_config_data := Some all_config_data |} in
      if Py.truthy (Py.get user_input c.(CONFIG_DAMP))
      then async_step_dampen self None
      else
        (Ok (FlowCreateEntry c.(TITLE) None None),
         {| _entry := async_update_entry c.(TITLE) all_config_data;
            _options := _options self;
            _all_config_data := _all_config_data self |})
  end.

(** The form shown when nothing was submitted or the [try] block raised. *)
Definition init_show (self : options_flow) (errors : option form_error)
    : res flow_result * options_flow :=
  (schema ← init_form (_options self); Ok (FlowForm "init" schema errors),
   self).

(** [SolcastSolarOptionFlowHandler.async_step_init]. *)
Definition async_step_init (self : options_flow)
    (user_input : option dict) : res flow_result * options_flow :=
  match user_input with
  | Some user_input =>
      match init_try self user_input with
      | (Ok r, self) => (Ok r, self)
      | (Raise e, self) => init_show self (Some (ErrorText e))
      end
  | None => init_show self None
  end.

End OptionsFlow.

(** ** A concrete choice of the constants

    Used to run the definitions on examples; nothing below depends on
    these particular spellings. *)

Definition solcast_names : names :=
  {| CONF_API_KEY := "api_key";
     API_QUOTA := "api_quota";
     AUTO_UPDATE := "auto_update";
     BRK_ESTIMATE := "attr_brk_estimate";
     BRK_ESTIMATE10 := "attr_brk_estimate10";
     BRK_ESTIMATE90 := "attr_brk_estimate90";
     BRK_HALFHOURLY := "attr_brk_halfhourly";
     BRK_HOURLY := "attr_brk_hourly";
     BRK_SITE := "attr_brk_site";
     BRK_SITE_DETAILED := "attr_brk_detailed";
     CONFIG_DAMP := "config_damp";
     CUSTOM_HOUR_SENSOR := "customhoursensor";
     HARD_LIMIT_API := "hard_limit_api";
     KEY_ESTIMATE := "key_estimate";
     SITE_DAMP := "site_damp";
     TITLE := "Solcast Solar" |}.

(** ** Vocabulary of the statements *)

Module Vocabulary.

(** [a] occurs in [s]. *)
Fixpoint occurs (a : ascii) (s : string) : Prop :=
  match s with
  | EmptyString => False
  | String b r => a = b \/ occurs a r
  end.

(** What the list comprehension of the validators leaves: non-empty
    pieces free of commas and spaces. *)
Definition clean (t : string) : Prop :=
  PyStr.nonempty t = true /\ ~ occurs PyStr.comma t /\
  ~ occurs PyStr.space t.

(** The key at position [index] gets through one turn of the loop of
    [validate_api_key]. *)
Definition passes (api_key : list string) (index : nat) (key : string)
    : Prop :=
  Regex.like_site_id key = false /\
  duplicate_at index key 0 api_key = false.

(** The loop of [validate_api_key] gets as far as position [index]:
    every earlier key has another shape than a site identifier and
    stands at no other position. *)
Definition reaches (api_key : list string) (index : nat) : Prop :=
  forall j k, (j < index)%nat -> api_key !! j = Some k ->
    Regex.like_site_id k = false /\
    forall i, api_key !! i = Some k -> i = j.

(** The same text stands at a position other than [index]. *)
Definition duplicated (api_key : list string) (index : nat) (key : string)
    : Prop :=
  exists i, i <> index /\ api_key !! i = Some key.

(** A quota token the validator lets through: a numeric string that
    denotes an integer of at least one. *)
Definition valid_quota (q : string) : Prop :=
  PyStr.isnumeric q = true /\ 1 <= Z.of_N (PyStr.digits_value 0 q).

Fixpoint count_dots (s : string) : nat :=
  match s with
  | EmptyString => O
  | String a r =>
      if Ascii.eqb a PyStr.dot then S (count_dots r) else count_dots r
  end.

Fixpoint digits_and_dots (s : string) : bool :=
  match s with
  | EmptyString => true
  | String a r =>
      (PyStr.is_digit a || Ascii.eqb a PyStr.dot) && digits_and_dots r
  end.

Fixpoint has_digit (s : string) : bool :=
  match s with
  | EmptyString => false
  | String a r => PyStr.is_digit a || has_digit r
  end.

(** A non-negative decimal numeral with at most one decimal point:
    digits and points only, at most one point, at least one digit. *)
Definition decimal_numeral (t : string) : bool :=
  digits_and_dots t && (count_dots t <=? 1)%nat && has_digit t.

(** A hard-limit token the main step lets through. *)
Definition accepted_limit (t : string) : bool :=
  decimal_numeral (PyStr.strip t).


(** The binary64 value of an accepted hard-limit token. *)
Definition limit_value (t : string) : option spec_float :=
  PyFloat.of_str (PyStr.strip t).

(** The one-decimal text stored for a hard-limit token. *)
Definition limit_text (t : string) : string :=
  match limit_value t with
  | Some val => PyFloat.fmt_1f val
  | None => EmptyString
  end.

(** *** Failed checks

    Each validation check that a submission can fail, with the reason the
    flow gives for it. *)








(** The option names the main step assigns. *)
Definition written_keys (c : names) : list string :=
  [ c.(CONF_API_KEY); c.(API_QUOTA); c.(CUSTOM_HOUR_SENSOR);
    c.(HARD_LIMIT_API); c.(SITE_DAMP); c.(AUTO_UPDATE); c.(KEY_ESTIMATE);
    c.(BRK_ESTIMATE); c.(BRK_ESTIMATE10); c.(BRK_ESTIMATE90);
    c.(BRK_HALFHOURLY); c.(BRK_HOURLY); c.(BRK_SITE);
    c.(BRK_SITE_DETAILED) ].

(** [merged] differs from [existing] at most on the keys [written], and
    has every key [existing] has. *)
Definition overwrites_only (written : list string) (existing merged : dict)
    : Prop :=
  (forall k, k ∉ written -> merged !! k = existing !! k) /\
  (forall k, is_Some (existing !! k) -> is_Some (merged !! k)).

(** The names of the 24 hourly dampening slots. *)
Definition damp_keys : list string := map damp_key hours.

(** The handler after the main step has handed [merged] to the entry
    store. *)
Definition persisted (c : names) (self : options_flow) (merged : dict)
    : options_flow :=
  {| _entry := async_update_entry c.(TITLE) merged;
     _options := _options self;
     _all_config_data := Some merged |}.

(** The handler after the main step has kept [merged] as its draft and
    gone on to the dampening step. *)
Definition drafted (self : options_flow) (merged : dict) : options_flow :=
  {| _entry := _entry self;
     _options := _options self;
     _all_config_data := Some merged |}.

(** The option names the main step copies from the form unchecked. *)
Definition copied_keys (c : names) : list string :=
  [ c.(SITE_DAMP); c.(AUTO_UPDATE); c.(KEY_ESTIMATE);
    c.(BRK_ESTIMATE); c.(BRK_ESTIMATE10); c.(BRK_ESTIMATE90);
    c.(BRK_HALFHOURLY); c.(BRK_HOURLY); c.(BRK_SITE);
    c.(BRK_SITE_DETAILED) ].

(** The dict the dampening step works on: the draft of the main step, or
    the stored options when there is none. *)
Definition working_copy (self : options_flow) : dict :=
  match _all_config_data self with
  | None => _options self
  | Some d => d
  end.

End Vocabulary.

(** ** Sample inputs *)

Module Samples.

Fixpoint zeros (n : nat) : string :=
  match n with
  | O => EmptyString
  | S n' => String "0"%char (zeros n')
  end.

(** The numeral of [10^309], past the largest binary64 number. *)
Definition huge_limit : string := String "1"%char (zeros 309).

(** A stored options record: the defaults of a fresh set-up with one
    key, and site-level dampening switched off. *)
Definition stored_options : dict :=
  <["site_damp" := VBool false]>
    (default_damp ∪ initial_options solcast_names "key1" "10" 1).

(** The options flow opened on an entry that holds [stored_options]. *)
Definition opened_flow : options_flow :=
  options_flow_init
    {| entry_title := "Solcast Solar"; entry_options := stored_options |}.

(** A submission of the main form that passes every check. *)
Definition good_input : dict :=
  mkdict [ ("api_key", VStr "key1, key2");
           ("api_quota", VStr "10,20");
           ("auto_update", VStr "1");
           ("key_estimate", VStr "estimate");
           ("customhoursensor", VInt 24);
           ("hard_limit_api", VStr "5,7.25");
           ("attr_brk_estimate10", VBool true);
           ("attr_brk_estimate", VBool true);
           ("attr_brk_estimate90", VBool true);
           ("attr_brk_site", VBool true);
           ("attr_brk_halfhourly", VBool false);
           ("attr_brk_hourly", VBool true);
           ("attr_brk_detailed", VBool false);
           ("config_damp", VBool false) ].

(** A submission of the set-up form. *)
Definition setup_input (api_key api_quota : string) : dict :=
  mkdict [ ("api_key", VStr api_key);
           ("api_quota", VStr api_quota);
           ("auto_update", VStr "1") ].

(** A submission of the dampening form with every factor [1.0]. *)
Definition all_ones : dict := default_damp.

(** [good_input] with three hard limits for two keys. *)
Definition too_many_limits : dict :=
  <["hard_limit_api" := VStr "1,2,3"]> good_input.

(** [good_input] with the per-hour dampening flag ticked. *)
Definition wants_dampening : dict :=
  <["config_damp" := VBool true]> good_input.

(** The record the main step builds from [good_input]. *)
Definition good_merged : dict :=
  match check_and_merge solcast_names stored_options good_input with
  | Ok (Merged d) => d
  | _ => ∅
  end.

(** [good_input] with another value for the custom hour sensor. *)
Definition with_hour (hour : Z) : dict :=
  <["customhoursensor" := VInt hour]> good_input.

End Samples.

(** ** Further vocabulary *)

Module ExtraVocabulary.
Import Vocabulary.

(** Four characters, each a lowercase letter or a digit. *)
Definition group4 (g : string) : Prop :=
  String.length g = 4%nat /\
  forall a, occurs a g -> Regex.lower_alnum a = true.

(** The texts the site-identifier pattern matches: four groups joined by
    hyphens, optionally followed by one newline. *)
Definition site_id_text (key : string) : Prop :=
  exists g1 g2 g3 g4 tail,
    key = g1 ++ "-" ++ g2 ++ "-" ++ g3 ++ "-" ++ g4 ++ tail /\
    group4 g1 /\ group4 g2 /\ group4 g3 /\ group4 g4 /\
    (tail = "" \/ tail = String PyStr.newline "").

(** The option names of the record the set-up step builds, in the order
    of its dict display. *)
Definition setup_keys (c : names) : list string :=
  [ c.(CONF_API_KEY); c.(API_QUOTA); c.(AUTO_UPDATE);
    c.(CUSTOM_HOUR_SENSOR); c.(HARD_LIMIT_API); c.(KEY_ESTIMATE);
    c.(BRK_ESTIMATE); c.(BRK_ESTIMATE10); c.(BRK_ESTIMATE90);
    c.(BRK_SITE); c.(BRK_HALFHOURLY); c.(BRK_HOURLY);
    c.(BRK_SITE_DETAILED) ].


(** The submission of a form whose every field is left at its default. *)
Definition submit_defaults (schema : list field) : dict :=
  mkdict (omap (fun fld => v ← f_default fld; Some (f_key fld, v)) schema).

(** The names the main options form can show, in display order; the
    last field is one of the last two names. *)
Definition form_keys (c : names) : list string :=
  [ c.(CONF_API_KEY); c.(API_QUOTA); c.(AUTO_UPDATE); c.(KEY_ESTIMATE);
    c.(CUSTOM_HOUR_SENSOR); c.(HARD_LIMIT_API); c.(BRK_ESTIMATE10);
    c.(BRK_ESTIMATE); c.(BRK_ESTIMATE90); c.(BRK_SITE);
    c.(BRK_HALFHOURLY); c.(BRK_HOURLY); c.(BRK_SITE_DETAILED);
    c.(CONFIG_DAMP); c.(SITE_DAMP) ].

(** The number of tenths that [f"{val:.1f}"] prints for a finite value:
    ten times the value, rounded to an integer, ties to even. *)
Definition tenths (val : spec_float) : Z :=
  match val with
  | S754_finite _ m e =>
      if 0 <=? e then Zpos m * 2 ^ e * 10
      else PyFloat.div_half_even (Zpos m * 10) (2 ^ (- e))
  | _ => 0
  end.

(** The text of [T] tenths: the whole part, a point, one digit. *)
Definition one_decimal (T : Z) : string :=
  PyStr.of_N (Z.to_N (T / 10))
    ++ String PyStr.dot (PyStr.of_N (Z.to_N (T mod 10))).

(** The binary64 value of a hard-limit token is finite. *)
Definition finite_limit (t : string) : bool :=
  match limit_value t with
  | Some val => PyFloat.is_finite val
  | None => false
  end.

End ExtraVocabulary.

(** ** More sample inputs *)

Module ExtraSamples.


(** The record a set-up with one key creates. *)
Definition fresh_options : dict :=
  default_damp ∪ initial_options solcast_names "key1" "10" 1.

(** The options flow opened right after that set-up. *)
Definition fresh_flow : options_flow :=
  options_flow_init
    {| entry_title := "Solcast Solar"; entry_options := fresh_options |}.

(** The dampening form sent back without the factor of hour 5. *)
Definition partial_factors : dict := delete "damp05" Samples.all_ones.

(** The handler between the two steps, holding the merged draft. *)
Definition drafted_flow : options_flow :=
  Vocabulary.drafted Samples.opened_flow Samples.good_merged.

(** A stored record that lacks the slot of hour 5, and the flow opened
    on it. *)
Definition gapped_options : dict := delete "damp05" Samples.stored_options.

Definition gapped_flow : options_flow :=
  options_flow_init
    {| entry_title := "Solcast Solar"; entry_options := gapped_options |}.

(** The record the main step builds from [Samples.wants_dampening] on
    the gapped record. *)
Definition gapped_merged : dict :=
  match check_and_merge solcast_names gapped_options
          Samples.wants_dampening with
  | Ok (Merged d) => d
  | _ => ∅
  end.

(** The main form as first shown for [Samples.stored_options]. *)
Definition stored_form : list field :=
  match init_form solcast_names Samples.stored_options with
  | Ok schema => schema
  | Raise _ => []
  end.

(** [Samples.good_input] sent without the custom hour sensor. *)
Definition no_hour : dict := delete "customhoursensor" Samples.good_input.

(** The options flow opened on the record merged from
    [Samples.good_input]. *)
Definition merged_flow : options_flow :=
  options_flow_init
    {| entry_title := "Solcast Solar";
       entry_options := Samples.good_merged |}.

End ExtraSamples.

(** * Properties *)

(** ** Strings *)

Module PyStrFacts.
Import PyStr Vocabulary.

Lemma occurs_app a s t : occurs a (s ++ t) <-> occurs a s \/ occurs a t.
Proof. induction s as [|b s IH]; simpl; [tauto | rewrite IH; tauto]. Qed.

Lemma split_not_nil c s : split c s <> [].
Proof.
  destruct s as [|a r]; simpl; [discriminate|].
  destruct (Ascii.eqb a c); [discriminate|].
  destruct (split c r); discriminate.
Qed.

(** No piece of a split contains the separator, and every character of
    a piece comes from the string that was split. *)
Lemma split_pieces c s t a :
  In t (split c s) -> occurs a t -> a <> c /\ occurs a s.
Proof.
  revert t. induction s as [|b r IH]; simpl; intros t Hin Ha.
  - destruct Hin as [<-|[]]. destruct Ha.
  - destruct (Ascii.eqb_spec b c) as [->|Hbc].
    + destruct Hin as [<-|Hin]; [destruct Ha|].
      destruct (IH _ Hin Ha); auto.
    + pose proof (split_not_nil c r) as Hne.
      destruct (split c r) as [|t0 ts]; [congruence|].
      destruct Hin as [<-|Hin].
      * destruct Ha as [->|Ha]; [auto|].
        destruct (IH t0 (or_introl eq_refl) Ha); auto.
      * destruct (IH t (or_intror Hin) Ha); auto.
Qed.

Lemma remove_char_absent c s : ~ occurs c (remove_char c s).
Proof.
  induction s as [|a r IH]; simpl; [tauto|].
  destruct (Ascii.eqb_spec a c) as [->|Hac]; [exact IH|].
  simpl. intros [->|H]; [congruence | auto].
Qed.

Lemma remove_char_id c s : ~ occurs c s -> remove_char c s = s.
Proof.
  induction s as [|a r IH]; simpl; intros H; [reflexivity|].
  destruct (Ascii.eqb_spec a c) as [->|Hac]; [tauto|].
  rewrite IH; [reflexivity | tauto].
Qed.

Lemma split_clean c t : ~ occurs c t -> split c t = [t].
Proof.
  induction t as [|a r IH]; simpl; intros H; [reflexivity|].
  destruct (Ascii.eqb_spec a c) as [->|Hac]; [tauto|].
  rewrite IH; [reflexivity | tauto].
Qed.

Lemma split_app_sep c t rest :
  ~ occurs c t -> split c (t ++ String c rest) = t :: split c rest.
Proof.
  induction t as [|a r IH]; simpl; intros H.
  - now rewrite Ascii.eqb_refl.
  - destruct (Ascii.eqb_spec a c) as [->|Hac]; [tauto|].
    rewrite IH; [reflexivity | tauto].
Qed.

(** Splitting a joined list of separator-free pieces gives the pieces
    back. *)
Lemma split_join c t ts :
  Forall (fun s => ~ occurs c s) (t :: ts) ->
  split c (join (String c EmptyString) (t :: ts)) = t :: ts.
Proof.
  revert t. induction ts as [|u us IH]; intros t Hall;
    inversion_clear Hall as [|? ? Ht Hrest].
  - now apply split_clean.
  - change (join (String c "") (t :: u :: us))
      with (t ++ String c (join (String c "") (u :: us))).
    rewrite split_app_sep by assumption. now rewrite IH.
Qed.

Lemma occurs_join a sep l :
  occurs a (join sep l) -> occurs a sep \/ exists t, In t l /\ occurs a t.
Proof.
  induction l as [|t [|u us] IH]; simpl.
  - tauto.
  - intros H. right. eauto.
  - intros H. apply occurs_app in H as [H|H]; [right; eauto|].
    apply occurs_app in H as [H|H]; [tauto|].
    destruct (IH H) as [?|(t' & Hin & Ht')]; [tauto|].
    right. exists t'. simpl in Hin. tauto.
Qed.

Lemma filter_all {A} (f : A -> bool) l :
  Forall (fun x => f x = true) l -> List.filter f l = l.
Proof.
  induction 1 as [|x l Hx _ IH]; simpl; [reflexivity|].
  now rewrite Hx, IH.
Qed.

End PyStrFacts.

(** ** The key field *)

Module KeyFacts.
Import PyStr Vocabulary PyStrFacts.
Local Open Scope nat_scope.

Lemma tokens_clean raw : Forall clean (tokens raw).
Proof.
  unfold tokens. apply List.Forall_forall. intros t Hin.
  apply List.filter_In in Hin as [Hin Hne].
  repeat split; [exact Hne | |].
  - intros Ha. now destruct (split_pieces _ _ _ _ Hin Ha).
  - intros Ha. destruct (split_pieces _ _ _ _ Hin Ha) as [_ Hocc].
    exact (remove_char_absent _ _ Hocc).
Qed.

(** Tokenising a comma-joined list of clean pieces gives them back. *)
Lemma tokens_join l : Forall clean l -> tokens (join "," l) = l.
Proof.
  intros Hl. unfold tokens.
  rewrite remove_char_id.
  - destruct l as [|t ts]; [reflexivity|].
    change "," with (String comma "").
    rewrite split_join.
    + apply filter_all. eapply List.Forall_impl; [|exact Hl].
      now intros ? [? _].
    + eapply List.Forall_impl; [|exact Hl]. now intros ? (_ & ? & _).
  - intros Hocc. apply occurs_join in Hocc as [Hocc|(t & Hin & Hocc)].
    + simpl in Hocc. destruct Hocc as [Hocc|[]]. discriminate Hocc.
    + rewrite List.Forall_forall in Hl. destruct (Hl t Hin) as (_ & _ & Hs).
      auto.
Qed.

Lemma duplicate_at_spec index key n l :
  duplicate_at index key n l = true <->
  exists i, n + i <> index /\ l !! i = Some key.
Proof.
  revert n. induction l as [|k l IH]; intros n; simpl.
  - split; [discriminate|]. now intros (i & _ & Hi).
  - destruct (negb (index =? n) && String.eqb key k) eqn:E.
    + split; [intros _|reflexivity].
      apply andb_true_iff in E as [E1 E2].
      apply negb_true_iff, Nat.eqb_neq in E1.
      apply String.eqb_eq in E2. subst k.
      exists 0. split; [lia | reflexivity].
    + rewrite IH. split.
      * intros (i & Hne & Hi). exists (S i). split; [lia | exact Hi].
      * intros ([|i] & Hne & Hi).
        -- simpl in Hi. injection Hi as ->.
           rewrite String.eqb_refl, andb_true_r in E.
           apply negb_false_iff, Nat.eqb_eq in E. lia.
        -- exists i. split; [lia | exact Hi].
Qed.

Lemma duplicate_at_false index key l :
  duplicate_at index key 0 l = false <->
  forall i, l !! i = Some key -> i = index.
Proof.
  rewrite <- not_true_iff_false, duplicate_at_spec. split.
  - intros H i Hi. destruct (Nat.eq_dec i index) as [|Hne]; [assumption|].
    exfalso. apply H. now exists i.
  - intros H (i & Hne & Hi). apply Hne. simpl. now apply H.
Qed.

Section Loop.
Variable api_key : list string.

Local Abbreviation passes := (passes api_key).

Lemma key_loop_skip mid n rest :
  (forall i k, mid !! i = Some k -> passes (n + i) k) ->
  key_loop api_key n (mid ++ rest) = key_loop api_key (n + length mid) rest.
Proof.
  revert n. induction mid as [|k mid IH]; intros n H; simpl.
  - now rewrite Nat.add_0_r.
  - destruct (H 0 k eq_refl) as [H1 H2].
    rewrite Nat.add_0_r in H2. rewrite H1, H2.
    rewrite IH; [f_equal; lia|].
    intros i k' Hi. replace (S n + i) with (n + S i) by lia.
    now apply H.
Qed.

Lemma key_loop_none_passes n todo :
  key_loop api_key n todo = None ->
  forall i k, todo !! i = Some k -> passes (n + i) k.
Proof.
  revert n. induction todo as [|k0 todo IH]; intros n H i k Hi;
    [discriminate Hi|].
  simpl in H.
  destruct (Regex.like_site_id k0) eqn:E1; [discriminate|].
  destruct (duplicate_at n k0 0 api_key) eqn:E2; [discriminate|].
  destruct i as [|i]; simpl in Hi.
  - injection Hi as <-. rewrite Nat.add_0_r. now split.
  - replace (n + S i) with (S n + i) by lia. now apply (IH _ H).
Qed.

Lemma key_loop_some n todo reason :
  key_loop api_key n todo = Some reason ->
  exists i k, todo !! i = Some k /\
    (forall j k', j < i -> todo !! j = Some k' -> passes (n + j) k') /\
    ((Regex.like_site_id k = true /\ reason = Reason.site_id) \/
     (Regex.like_site_id k = false /\
      duplicate_at (n + i) k 0 api_key = true /\
      reason = Reason.duplicate)).
Proof.
  revert n. induction todo as [|k0 todo IH]; intros n H; [discriminate|].
  simpl in H.
  destruct (Regex.like_site_id k0) eqn:E1.
  { injection H as <-. exists 0, k0. split; [reflexivity|].
    split; [intros; lia | now left]. }
  destruct (duplicate_at n k0 0 api_key) eqn:E2.
  { injection H as <-. exists 0, k0. split; [reflexivity|].
    split; [intros; lia|]. right. rewrite Nat.add_0_r. now repeat split. }
  destruct (IH _ H) as (i & k & Hi & Hbefore & Hwhy).
  exists (S i), k. split; [exact Hi|]. split.
  - intros [|j] k' Hj Hk'; simpl in Hk'.
    + injection Hk' as <-. rewrite Nat.add_0_r. now split.
    + replace (n + S j) with (S n + j) by lia. apply Hbefore; [lia|easy].
  - now replace (n + S i) with (S n + i) by lia.
Qed.

End Loop.

(** The loop runs to its end exactly on duplicate-free lists without a
    site-identifier-shaped key. *)
Lemma key_loop_none api_key :
  key_loop api_key 0 api_key = None <->
  Forall (fun k => Regex.like_site_id k = false) api_key /\ NoDup api_key.
Proof.
  split.
  - intros H. pose proof (key_loop_none_passes _ _ _ H) as Hp. split.
    + apply Forall_lookup. intros i k Hi. now destruct (Hp i k Hi).
    + apply NoDup_alt. intros i j k Hi Hj.
      destruct (Hp i k Hi) as [_ Hd]. simpl in Hd.
      rewrite duplicate_at_false in Hd.
      symmetry. exact (Hd j Hj).
  - intros [Hs Hn].
    rewrite <- (app_nil_r api_key) at 2.
    rewrite key_loop_skip; [reflexivity|].
    intros i k Hi. split.
    + rewrite Forall_lookup in Hs. exact (Hs i k Hi).
    + apply duplicate_at_false. intros j Hj. simpl.
      rewrite NoDup_alt in Hn. exact (Hn _ _ _ Hj Hi).
Qed.

End KeyFacts.

Section KeyTheorems.
Import PyStr Vocabulary PyStrFacts KeyFacts.
Local Open Scope nat_scope.

Variable c : names.

Lemma validate_api_key_unfold user_input raw :
  user_input !! c.(CONF_API_KEY) = Some (VStr raw) ->
  validate_api_key c user_input =
  match key_loop (tokens raw) 0 (tokens raw) with
  | Some abort => Ok ("", 0%Z, Some abort)
  | None =>
      Ok (join "," (tokens raw), Z.of_nat (length (tokens raw)), None)
  end.
Proof.
  intros H. unfold validate_api_key, Py.getitem. now rewrite H.
Qed.

Lemma key_loop_at api_key index key :
  api_key !! index = Some key -> reaches api_key index ->
  key_loop api_key 0 api_key =
  if Regex.like_site_id key then Some Reason.site_id
  else if duplicate_at index key 0 api_key then Some Reason.duplicate
  else key_loop api_key (S index) (drop (S index) api_key).
Proof.
  intros Hk Hr.
  rewrite <- (take_drop_middle _ _ _ Hk) at 2.
  rewrite key_loop_skip.
  - simpl. rewrite length_take.
    apply lookup_lt_Some in Hk as Hlt.
    now replace (index `min` length api_key) with index by lia.
  - intros i k Hi. apply lookup_take_Some in Hi as [Hi Hlt].
    destruct (Hr i k Hlt Hi) as [H1 H2]. split; [exact H1|].
    now apply duplicate_at_false.
Qed.

Lemma key_loop_duplicate api_key :
  Forall (fun k => Regex.like_site_id k = false) api_key ->
  ~ NoDup api_key ->
  key_loop api_key 0 api_key = Some Reason.duplicate.
Proof.
  intros Hs Hn.
  destruct (key_loop api_key 0 api_key) as [reason|] eqn:E.
  - apply key_loop_some in E as (i & k & Hi & _ & [[Hl _]|(_ & _ & ->)]);
      [|reflexivity].
    rewrite Forall_lookup in Hs. rewrite (Hs i k Hi) in Hl. discriminate.
  - apply key_loop_none in E as [_ E]. contradiction.
Qed.

(** C3.  [validate_api_key] tests each key against the site-identifier
    pattern before it looks for a duplicate of that key.  When the loop
    reaches a key of that shape it returns the site-identifier reason,
    also when the same key stands elsewhere in the list; when it reaches
    a key of another shape that stands at another position as well,
    before or after, it returns the duplicate reason at once; and a list
    without a key of that shape that holds some key twice is rejected
    with the duplicate reason wherever the two copies stand. *)
Theorem validate_api_key_site_id_before_duplicate
    (user_input : dict) (raw : string) :
  user_input !! c.(CONF_API_KEY) = Some (VStr raw) ->
  (forall index key,
      tokens raw !! index = Some key -> reaches (tokens raw) index ->
      Regex.like_site_id key = true ->
      validate_api_key c user_input = Ok ("", 0%Z, Some Reason.site_id)) /\
  (forall index key,
      tokens raw !! index = Some key -> reaches (tokens raw) index ->
      Regex.like_site_id key = false ->
      duplicated (tokens raw) index key ->
      validate_api_key c user_input = Ok ("", 0%Z, Some Reason.duplicate)) /\
  (Forall (fun k => Regex.like_site_id k = false) (tokens raw) ->
   ~ NoDup (tokens raw) ->
   validate_api_key c user_input = Ok ("", 0%Z, Some Reason.duplicate)).
Proof.
  intros Hui. rewrite (validate_api_key_unfold _ _ Hui).
  split; [|split].
  - intros index key Hk Hr Hl.
    now rewrite (key_loop_at _ _ _ Hk Hr), Hl.
  - intros index key Hk Hr Hl Hd.
    rewrite (key_loop_at _ _ _ Hk Hr), Hl.
    destruct Hd as (i & Hne & Hi).
    assert (Hd : duplicate_at index key 0 (tokens raw) = true)
      by (apply duplicate_at_spec; exists i; now split).
    now rewrite Hd.
  - intros Hs Hn. now rewrite key_loop_duplicate.
Qed.


End KeyTheorems.

Lemma validate_api_key_site_id_before_duplicate_witness :
  validate_api_key solcast_names
    (mkdict [("api_key", VStr "ab12-cd34-ef56-gh78, ab12-cd34-ef56-gh78")])
    = Ok ("", 0, Some Reason.site_id) /\
  validate_api_key solcast_names
    (mkdict [("api_key", VStr "key0,key1,key1")])
    = Ok ("", 0, Some Reason.duplicate) /\
  validate_api_key solcast_names
    (mkdict [("api_key", VStr "key1,key2,key2")])
    = Ok ("", 0, Some Reason.duplicate).
Proof.
  split; [|split].
  - refine (proj1 (validate_api_key_site_id_before_duplicate solcast_names
              (mkdict [("api_key", VStr "ab12-cd34-ef56-gh78, ab12-cd34-ef56-gh78")])
              "ab12-cd34-ef56-gh78, ab12-cd34-ef56-gh78" eq_refl)
              0%nat "ab12-cd34-ef56-gh78" eq_refl _ eq_refl).
    intros j k Hj. lia.
  - refine (proj1 (proj2 (validate_api_key_site_id_before_duplicate
              solcast_names (mkdict [("api_key", VStr "key0,key1,key1")])
              "key0,key1,key1" eq_refl))
              1%nat "key1" eq_refl _ eq_refl _).
    + intros j k Hj Hk. destruct j as [|j]; [|lia].
      injection Hk as <-. split; [reflexivity|].
      intros i Hi. destruct i as [|[|[|i]]]; [reflexivity|..];
        discriminate Hi.
    + exists 2%nat. split; [lia | reflexivity].
  - refine (proj2 (proj2 (validate_api_key_site_id_before_duplicate
              solcast_names (mkdict [("api_key", VStr "key1,key2,key2")])
              "key1,key2,key2" eq_refl)) _ _).
    + repeat constructor.
    + intros H. apply NoDup_cons in H as [_ H].
      apply NoDup_cons in H as [H _]. apply H. constructor.
Defined.


(** ** The quota field *)

Module QuotaFacts.
Import PyStr Vocabulary.

Lemma digit_plain a :
  is_digit a = true ->
  is_space a = false /\ Ascii.eqb a "+" = false /\
  Ascii.eqb a "-" = false /\ Ascii.eqb a "_" = false /\
  Ascii.eqb a dot = false.
Proof.
  destruct a as [[] [] [] [] [] [] [] []]; intros H;
    try discriminate H; repeat split.
Qed.

Lemma lstrip_digits s : all_digits s = true -> lstrip s = s.
Proof.
  destruct s as [|a r]; simpl; [reflexivity|]. intros H.
  apply andb_true_iff in H as [H _].
  now destruct (digit_plain a H) as [-> _].
Qed.

Lemma rstrip_digits s : all_digits s = true -> rstrip s = s.
Proof.
  induction s as [|a r IH]; simpl; [reflexivity|]. intros H.
  apply andb_true_iff in H as [Ha Hr].
  rewrite (IH Hr). destruct r; [|reflexivity].
  now destruct (digit_plain a Ha) as [-> _].
Qed.

Lemma strip_digits s : all_digits s = true -> strip s = s.
Proof.
  intros H. unfold strip. rewrite lstrip_digits by assumption.
  now apply rstrip_digits.
Qed.

Lemma int_literal_digits s :
  all_digits s = true -> Py.int_literal true s = true.
Proof.
  induction s as [|a r IH]; simpl; [reflexivity|]. intros H.
  apply andb_true_iff in H as [Ha Hr]. rewrite Ha. auto.
Qed.

Lemma remove_underscore_digits s :
  all_digits s = true -> remove_char "_" s = s.
Proof.
  induction s as [|a r IH]; simpl; [reflexivity|]. intros H.
  apply andb_true_iff in H as [Ha Hr].
  destruct (digit_plain a Ha) as (_ & _ & _ & -> & _). now rewrite IH.
Qed.

(** On a numeric string [int] returns the value of its digits. *)
Lemma int_of_str_numeric q :
  isnumeric q = true ->
  Py.int_of_str q = Ok (Z.of_N (digits_value 0 q)).
Proof.
  unfold isnumeric. intros H. apply andb_true_iff in H as [Hne Hd].
  unfold Py.int_of_str. rewrite (strip_digits _ Hd).
  destruct q as [|a r]; [discriminate Hne|].
  pose proof Hd as Hd'. simpl in Hd'.
  apply andb_true_iff in Hd' as [Ha Hr].
  destruct (digit_plain a Ha) as (_ & -> & -> & _).
  unfold Py.int_of_digits.
  replace (Py.int_literal false (String a r)) with true
    by (simpl; rewrite Ha; symmetry; now apply int_literal_digits).
  now rewrite (remove_underscore_digits _ Hd).
Qed.

Lemma quota_loop_valid qs rest :
  Forall valid_quota qs -> quota_loop (qs ++ rest) = quota_loop rest.
Proof.
  induction 1 as [|q qs [Hn Hv] _ IH]; simpl; [reflexivity|].
  rewrite Hn, (int_of_str_numeric _ Hn). simpl.
  destruct (Z.ltb_spec (Z.of_N (digits_value 0 q)) 1); [lia | exact IH].
Qed.

Lemma quota_loop_head q rest :
  quota_loop (q :: rest) =
  if negb (isnumeric q) then Ok (Some Reason.quota_nan)
  else if Z.of_N (digits_value 0 q) <? 1 then Ok (Some Reason.quota_min)
  else quota_loop rest.
Proof.
  simpl. destruct (isnumeric q) eqn:E; [|reflexivity].
  now rewrite (int_of_str_numeric _ E).
Qed.

(** The loop never raises; it runs to its end exactly when every token
    is valid, and otherwise stops with the reason of an invalid token. *)
Lemma quota_loop_cases qs :
  (quota_loop qs = Ok None /\ Forall valid_quota qs) \/
  (quota_loop qs = Ok (Some Reason.quota_nan) /\
     exists q, In q qs /\ isnumeric q = false) \/
  (quota_loop qs = Ok (Some Reason.quota_min) /\
     exists q, In q qs /\ isnumeric q = true /\
               Z.of_N (digits_value 0 q) < 1).
Proof.
  induction qs as [|q qs IH]; [left; now split|].
  rewrite quota_loop_head.
  destruct (isnumeric q) eqn:E; simpl.
  - destruct (Z.ltb_spec (Z.of_N (digits_value 0 q)) 1) as [Hlt|Hge].
    + right; right. split; [reflexivity|]. exists q. simpl. auto.
    + destruct IH as [[-> Hall]|[[-> (q' & Hin & Hq')]|[-> (q' & Hin & Hq')]]].
      * left. split; [reflexivity|]. constructor; [now split | exact Hall].
      * right; left. split; [reflexivity|]. exists q'. simpl. auto.
      * right; right. split; [reflexivity|]. exists q'. simpl. auto.
  - right; left. split; [reflexivity|]. exists q. simpl. auto.
Qed.

End QuotaFacts.

Section QuotaTheorems.
Import PyStr Vocabulary QuotaFacts.

Variable c : names.

Lemma validate_api_limit_unfold user_input raw api_count :
  user_input !! c.(API_QUOTA) = Some (VStr raw) ->
  validate_api_limit c user_input api_count =
  (abort ← quota_loop (tokens raw);
   match abort with
   | Some reason => Ok ("", Some reason)
   | None =>
       if api_count <? Z.of_nat (length (tokens raw))
       then Ok ("", Some Reason.quota_many)
       else Ok (join "," (tokens raw), None)
   end).
Proof.
  intros H. unfold validate_api_limit, Py.getitem. now rewrite H.
Qed.


End QuotaTheorems.


(** ** The hard-limit field *)

Module LimitFacts.
Import PyStr Vocabulary QuotaFacts.
Local Open Scope nat_scope.

Lemma all_digits_dots r :
  all_digits r = digits_and_dots r && (count_dots r =? 0).
Proof.
  induction r as [|a r IH]; simpl; [reflexivity|].
  destruct (is_digit a) eqn:Ha; simpl.
  - destruct (digit_plain a Ha) as (_ & _ & _ & _ & ->). exact IH.
  - destruct (Ascii.eqb a dot); simpl; [|reflexivity].
    now rewrite andb_false_r.
Qed.

Lemma all_digits_remove_first r :
  all_digits (remove_first dot r) =
  digits_and_dots r && (count_dots r <=? 1).
Proof.
  induction r as [|a r IH]; simpl; [reflexivity|].
  destruct (Ascii.eqb a dot) eqn:Hd.
  - rewrite orb_true_r. simpl. rewrite all_digits_dots.
    now destruct (count_dots r).
  - rewrite orb_false_r. simpl. now rewrite IH, andb_assoc.
Qed.

Lemma nonempty_has_digit r :
  all_digits r = true -> nonempty r = has_digit r.
Proof.
  destruct r as [|a r]; simpl; [reflexivity|]. intros H.
  apply andb_true_iff in H as [-> _]. reflexivity.
Qed.

Lemma has_digit_remove_first r :
  has_digit (remove_first dot r) = has_digit r.
Proof.
  induction r as [|a r IH]; simpl; [reflexivity|].
  destruct (Ascii.eqb_spec a dot) as [->|Hne]; [reflexivity|].
  simpl. now rewrite IH.
Qed.

(** The guard of the hard-limit loop is the numeral test. *)
Lemma guard_numeral t :
  isdigit (remove_first dot t) = decimal_numeral t.
Proof.
  unfold isdigit, decimal_numeral.
  rewrite all_digits_remove_first.
  destruct (digits_and_dots t && (count_dots t <=? 1)) eqn:E.
  - rewrite nonempty_has_digit
      by (now rewrite all_digits_remove_first).
    rewrite has_digit_remove_first. apply andb_true_r.
  - apply andb_false_r.
Qed.

Lemma of_str_numeral t :
  decimal_numeral t = true -> exists val, PyFloat.of_str t = Some val.
Proof.
  intros H. unfold PyFloat.of_str. rewrite guard_numeral, H.
  destruct (PyFloat.cut_at_dot t). eauto.
Qed.

Lemma of_str_not_numeral t :
  decimal_numeral t = false -> PyFloat.of_str t = None.
Proof.
  intros H. unfold PyFloat.of_str. now rewrite guard_numeral, H.
Qed.

(** The loop never raises: it stops at the first token that is not a
    numeral, and otherwise appends the one-decimal text of each value. *)
Lemma hard_limit_loop_cases parts to_set :
  (exists t, In t parts /\ accepted_limit t = false /\
     hard_limit_loop parts to_set = Ok (inl Reason.limit_nan)) \/
  (exists vals,
     Forall2 (fun t v => limit_value t = Some v) parts vals /\
     hard_limit_loop parts to_set
       = Ok (inr (to_set ++ map PyFloat.fmt_1f vals)%list)).
Proof.
  revert to_set. induction parts as [|h parts IH]; intros to_set.
  - right. exists []. split; [constructor|]. simpl. now rewrite app_nil_r.
  - simpl. rewrite guard_numeral.
    destruct (decimal_numeral (strip h)) eqn:E; simpl.
    + destruct (of_str_numeral _ E) as [val Hval]. rewrite Hval.
      destruct (IH (to_set ++ [PyFloat.fmt_1f val])%list)
        as [(t & Hin & Ht & ->)|(vals & Hvals & ->)].
      * left. exists t. auto.
      * right. exists (val :: vals). split; [now constructor|].
        now rewrite <- app_assoc.
    + left. exists h. auto.
Qed.

Lemma accepted_all parts vals :
  Forall2 (fun t v => limit_value t = Some v) parts vals ->
  Forall (fun t => accepted_limit t = true) parts.
Proof.
  induction 1 as [|t v parts vals Ht _ IH]; constructor; [|exact IH].
  unfold accepted_limit. destruct (decimal_numeral (strip t)) eqn:E;
    [reflexivity|].
  unfold limit_value in Ht. now rewrite (of_str_not_numeral _ E) in Ht.
Qed.

(** *** The shape of the one-decimal text *)

Lemma string_of_uint_digits d :
  all_digits (NilEmpty.string_of_uint d) = true.
Proof. induction d; simpl; auto. Qed.

Lemma of_N_isdigit n : isdigit (of_N n) = true.
Proof.
  unfold of_N, NilZero.string_of_uint, isdigit.
  destruct (N.to_uint n) eqn:E; try reflexivity;
    rewrite <- E at 2; simpl; apply string_of_uint_digits.
Qed.

Lemma of_N_one_digit x :
  (0 <= x < 10)%Z ->
  isdigit (of_N (Z.to_N x)) = true /\ String.length (of_N (Z.to_N x)) = 1.
Proof.
  intros H.
  assert (x = 0 \/ x = 1 \/ x = 2 \/ x = 3 \/ x = 4 \/ x = 5 \/ x = 6 \/
          x = 7 \/ x = 8 \/ x = 9)%Z as Hx by lia.
  repeat (destruct Hx as [->|Hx]; [now split|]). subst x. now split.
Qed.

Lemma cut_at_dot_digits i f :
  all_digits i = true ->
  PyFloat.cut_at_dot (i ++ String dot f)%string = (i, f).
Proof.
  induction i as [|a i IH]; simpl; [reflexivity|]. intros H.
  apply andb_true_iff in H as [Ha Hi].
  destruct (digit_plain a Ha) as (_ & _ & _ & _ & ->).
  now rewrite (IH Hi).
Qed.



Lemma of_ratio_unsigned n d :
  match PyFloat.of_ratio n d with
  | S754_zero s | S754_finite s _ _ | S754_infinity s => s = false
  | S754_nan => False
  end.
Proof.
  unfold PyFloat.of_ratio.
  destruct (n =? 0)%Z; [reflexivity|].
  set (e := Z.max _ _). set (m := if (0 <=? e)%Z then _ else _).
  destruct (m =? 2 ^ 53)%Z.
  - destruct (971 <? e + 1)%Z; reflexivity.
  - destruct (971 <? e)%Z; [reflexivity|]. destruct m; reflexivity.
Qed.


End LimitFacts.

Section LimitTheorems.
Import PyStr Vocabulary LimitFacts.

Lemma limit_texts parts vals :
  Forall2 (fun t v => limit_value t = Some v) parts vals ->
  map PyFloat.fmt_1f vals = map limit_text parts.
Proof.
  induction 1 as [|t v parts vals Ht _ IH]; simpl; [reflexivity|].
  unfold limit_text at 1. now rewrite Ht, IH.
Qed.

Lemma validate_hard_limit_rejects hard_limit api_count t :
  In t (split comma hard_limit) -> accepted_limit t = false ->
  validate_hard_limit hard_limit api_count = Ok (inl Reason.limit_nan).
Proof.
  intros Hin Ht. unfold validate_hard_limit.
  destruct (hard_limit_loop_cases (split comma hard_limit) [])
    as [(t' & _ & _ & ->)|(vals & Hvals & _)]; [reflexivity|].
  apply accepted_all in Hvals. rewrite List.Forall_forall in Hvals.
  rewrite (Hvals t Hin) in Ht. discriminate.
Qed.

Lemma validate_hard_limit_accepts hard_limit api_count :
  Forall (fun t => accepted_limit t = true) (split comma hard_limit) ->
  validate_hard_limit hard_limit api_count =
  if api_count <? Z.of_nat (length (split comma hard_limit))
  then Ok (inl Reason.limit_many)
  else Ok (inr (join "," (map limit_text (split comma hard_limit)))).
Proof.
  intros Hall. unfold validate_hard_limit.
  destruct (hard_limit_loop_cases (split comma hard_limit) [])
    as [(t & Hin & Ht & _)|(vals & Hvals & ->)].
  - rewrite List.Forall_forall in Hall. rewrite (Hall t Hin) in Ht.
    discriminate.
  - simpl. rewrite (limit_texts _ _ Hvals), length_map. reflexivity.
Qed.


End LimitTheorems.



(** ** The stages of validation *)

Section Stages.
Import PyStr Vocabulary KeyFacts QuotaFacts LimitFacts.

Variable c : names.



Lemma hour_stage (hour : Z) :
  hour_sensor_refused (VInt hour) = Ok ((hour <? 1) || (144 <? hour)).
Proof.
  unfold hour_sensor_refused. simpl. now destruct (hour <? 1).
Qed.


End Stages.

(** ** The main options step *)

Section InitFacts.
Import PyStr Vocabulary.

Variable c : names.

Lemma bind_ok {A B} (a : A) (k : A -> res B) : (Ok a ≫= k) = k a.
Proof. reflexivity. Qed.

Lemma getitem_some (d : dict) k v : d !! k = Some v -> Py.getitem d k = Ok v.
Proof. intros H. unfold Py.getitem. now rewrite H. Qed.


End InitFacts.

Section AbortFacts.
Import PyStr Vocabulary.

Variable c : names.






End AbortFacts.


(** ** Merging, the dampening step and the set-up guard *)

Section MergeFacts.
Import PyStr Vocabulary.

Variable c : names.

Lemma bind_inv {A B} (m : res A) (k : A -> res B) b :
  m ≫= k = Ok b -> exists a, m = Ok a /\ k a = Ok b.
Proof. destruct m as [a|e]; [eauto | discriminate]. Qed.

Lemma overwrites_only_refl written (d : dict) : overwrites_only written d d.
Proof. now split. Qed.

Lemma overwrites_only_insert written (existing merged : dict) k v :
  k ∈ written -> overwrites_only written existing merged ->
  overwrites_only written existing (<[k := v]> merged).
Proof.
  intros Hk [Hframe Hkeep]. split.
  - intros k' Hk'. rewrite lookup_insert_ne; [now apply Hframe|].
    intros ->. contradiction.
  - intros k' Hsome. destruct (decide (k = k')) as [->|Hne].
    + rewrite lookup_insert_eq. eauto.
    + rewrite lookup_insert_ne by assumption. now apply Hkeep.
Qed.

Local Ltac written := unfold written_keys; repeat constructor.

Lemma overwrites_only_mono written written' (existing merged : dict) :
  written ⊆ written' -> overwrites_only written existing merged ->
  overwrites_only written' existing merged.
Proof.
  intros Hsub [Hframe Hkeep]. split; [|exact Hkeep].
  intros k Hk. apply Hframe. intros Hin. apply Hk. now apply Hsub.
Qed.

Lemma overwrites_only_trans written (d1 d2 d3 : dict) :
  overwrites_only written d1 d2 -> overwrites_only written d2 d3 ->
  overwrites_only written d1 d3.
Proof.
  intros [Hf1 Hk1] [Hf2 Hk2]. split.
  - intros k Hk. now rewrite Hf2, Hf1.
  - intros k Hk. auto.
Qed.

Local Ltac copied := unfold copied_keys; repeat constructor.

Lemma copy_fields_frame user_input start merged :
  copy_fields c user_input start = Ok merged ->
  overwrites_only (copied_keys c) start merged.
Proof.
  intros H. unfold copy_fields in H.
  apply bind_inv in H as (d & Hd & H).
  assert (Hd' : overwrites_only (copied_keys c) start d).
  { destruct (negb _).
    - apply bind_inv in Hd as (v & _ & Hd). injection Hd as <-.
      apply overwrites_only_insert; [copied | apply overwrites_only_refl].
    - injection Hd as <-. apply overwrites_only_refl. }
  clear Hd.
  repeat (apply bind_inv in H as (? & _ & H)).
  injection H as <-.
  repeat (apply overwrites_only_insert; [copied|]). exact Hd'.
Qed.

Lemma copied_written : copied_keys c ⊆ written_keys c.
Proof.
  intros k Hk. unfold copied_keys in Hk. unfold written_keys.
  repeat (apply elem_of_cons in Hk as [->|Hk]; [repeat constructor|]).
  inversion Hk.
Qed.

Lemma check_and_merge_frame options user_input merged :
  check_and_merge c options user_input = Ok (Merged merged) ->
  overwrites_only (written_keys c) options merged.
Proof.
  unfold check_and_merge. intros H.
  apply bind_inv in H as ([[api_key api_count] abort] & _ & H).
  destruct abort; [discriminate|].
  apply bind_inv in H as ([api_quota abort] & _ & H).
  destruct abort; [discriminate|].
  apply bind_inv in H as (hour & _ & H).
  apply bind_inv in H as (refused & _ & H).
  destruct refused; [discriminate|].
  apply bind_inv in H as (v & _ & H).
  apply bind_inv in H as (hard_limit & _ & H).
  apply bind_inv in H as ([reason|text] & _ & H); [discriminate|].
  apply bind_inv in H as (d & Hd & H). injection H as <-.
  eapply overwrites_only_trans;
    [|exact (overwrites_only_mono _ _ _ _ copied_written
               (copy_fields_frame _ _ _ Hd))].
  repeat (apply overwrites_only_insert; [written|]).
  apply overwrites_only_refl.
Qed.

Lemma init_done self user_input merged :
  check_and_merge c (_options self) user_input = Ok (Merged merged) ->
  Py.truthy (Py.get user_input c.(CONFIG_DAMP)) = false ->
  async_step_init c self (Some user_input)
    = (Ok (FlowCreateEntry c.(TITLE) None None), persisted c self merged).
Proof.
  intros H Hflag. unfold async_step_init, init_try. now rewrite H, Hflag.
Qed.

Lemma init_to_dampen self user_input merged :
  check_and_merge c (_options self) user_input = Ok (Merged merged) ->
  Py.truthy (Py.get user_input c.(CONFIG_DAMP)) = true ->
  async_step_init c self (Some user_input)
    = match extant_damp merged hours with
      | Ok extant =>
          (Ok (FlowForm "dampen" (dampen_form extant) None),
           drafted self merged)
      | Raise e => init_show c (drafted self merged) (Some (ErrorText e))
      end.
Proof.
  intros H Hflag. unfold async_step_init, init_try. rewrite H, Hflag.
  unfold async_step_dampen. cbn [_all_config_data].
  destruct (extant_damp merged hours); reflexivity.
Qed.



(** C2.  When a submission of the main form passes every check, the
    record the step builds is the stored record with the validated fields
    written over it: every key outside the fields the step assigns keeps
    the value it had, and every key of the stored record is still there.
    When none of those field names is the name of a dampening slot, the
    24 slots [damp00] .. [damp23] keep their values; and when the
    dampening step is not asked for, that record is the one handed to the
    entry store. *)
Theorem merge_overwrites_only_validated self user_input merged :
  check_and_merge c (_options self) user_input = Ok (Merged merged) ->
  overwrites_only (written_keys c) (_options self) merged /\
  (Forall (fun k => k ∉ damp_keys) (written_keys c) ->
   Forall (fun k => merged !! k = _options self !! k) damp_keys) /\
  (Py.truthy (Py.get user_input c.(CONFIG_DAMP)) = false ->
   async_step_init c self (Some user_input)
     = (Ok (FlowCreateEntry c.(TITLE) None None), persisted c self merged)).
Proof.
  intros H. pose proof (check_and_merge_frame _ _ _ H) as [Hframe Hkeep].
  split; [now split|]. split.
  - intros Hnames. apply Forall_forall. intros k Hk. apply Hframe.
    intros Hin. rewrite Forall_forall in Hnames. exact (Hnames k Hin Hk).
  - now apply init_done.
Qed.

(** C7.  For a submission of the main form that passes every check, the
    step goes on to the dampening form only when the submission carries a
    true per-hour flag, the boolean by which the user asks for per-hour
    configuration or for editing it; the step does not consult the state
    of site-level dampening.  Every other such submission is done at once:
    the merged record is handed to the entry store and no dampening form
    is shown.  With the flag set and the 24 slots present the dampening
    form is shown and nothing is stored yet. *)
Theorem dampening_step_only_on_request self user_input merged :
  check_and_merge c (_options self) user_input = Ok (Merged merged) ->
  (forall schema errors self',
      async_step_init c self (Some user_input)
        = (Ok (FlowForm "dampen" schema errors), self') ->
      Py.truthy (Py.get user_input c.(CONFIG_DAMP)) = true) /\
  (Py.truthy (Py.get user_input c.(CONFIG_DAMP)) = false ->
   async_step_init c self (Some user_input)
     = (Ok (FlowCreateEntry c.(TITLE) None None), persisted c self merged)) /\
  (Py.truthy (Py.get user_input c.(CONFIG_DAMP)) = true ->
   forall extant, extant_damp merged hours = Ok extant ->
   async_step_init c self (Some user_input)
     = (Ok (FlowForm "dampen" (dampen_form extant) None),
        drafted self merged)).
Proof.
  intros H. split; [|split].
  - intros schema errors self' Hstep.
    destruct (Py.truthy (Py.get user_input c.(CONFIG_DAMP))) eqn:E;
      [reflexivity|].
    rewrite (init_done _ _ _ H E) in Hstep. discriminate.
  - now apply init_done.
  - intros E extant Hext. rewrite (init_to_dampen _ _ _ H E). now rewrite Hext.
Qed.



(** C8.  For a submission whose keys and quotas are valid, the check of
    the custom hour sensor refuses the value exactly when it lies
    outside 1 .. 144, and then the step is rejected with the out-of-range
    reason; that reason is given for no other cause.  A value from 1 to
    144 passes unchanged into the merged record (when the name of the
    field is none of the names assigned after it). *)
Theorem hour_sensor_bounds options user_input api_key api_count api_quota
    (hour : Z) :
  validate_api_key c user_input = Ok (api_key, api_count, None) ->
  validate_api_limit c user_input api_count = Ok (api_quota, None) ->
  user_input !! c.(CUSTOM_HOUR_SENSOR) = Some (VInt hour) ->
  hour_sensor_refused (VInt hour) = Ok (negb ((1 <=? hour) && (hour <=? 144)))
  /\
  ((hour < 1 \/ 144 < hour) <->
   check_and_merge c options user_input = Ok (Rejected Reason.hour_range)) /\
  (forall merged,
      check_and_merge c options user_input = Ok (Merged merged) ->
      1 <= hour <= 144 /\
      (c.(CUSTOM_HOUR_SENSOR) ∉ c.(HARD_LIMIT_API) :: copied_keys c ->
       merged !! c.(CUSTOM_HOUR_SENSOR) = Some (VInt hour))).
Proof.
  intros Hk Hq Hh.
  assert (Hshape : check_and_merge c options user_input =
    if (hour <? 1) || (144 <? hour) then Ok (Rejected Reason.hour_range)
    else
      v ← Py.getitem user_input c.(HARD_LIMIT_API);
      hard_limit ← Py.as_str v;
      r ← validate_hard_limit hard_limit api_count;
      match r with
      | inl reason => Ok (Rejected reason)
      | inr hard_limit =>
          d ← copy_fields c user_input
                (<[c.(HARD_LIMIT_API) := VStr hard_limit]>
                   (<[c.(CUSTOM_HOUR_SENSOR) := VInt hour]>
                      (<[c.(API_QUOTA) := VStr api_quota]>
                         (<[c.(CONF_API_KEY) := VStr api_key]> options))));
          Ok (Merged d)
      end).
  { unfold check_and_merge.
    rewrite Hk, bind_ok, Hq, bind_ok, (getitem_some _ _ _ Hh), bind_ok.
    rewrite hour_stage, bind_ok. reflexivity. }
  split; [|split].
  - rewrite hour_stage. f_equal.
    destruct (Z.ltb_spec hour 1), (Z.ltb_spec 144 hour),
      (Z.leb_spec 1 hour), (Z.leb_spec hour 144); simpl; try reflexivity; lia.
  - rewrite Hshape. split.
    + intros Hout.
      replace ((hour <? 1) || (144 <? hour)) with true; [reflexivity|].
      symmetry. apply orb_true_iff. destruct Hout; [left|right]; lia.
    + destruct ((hour <? 1) || (144 <? hour)) eqn:E.
      * intros _. apply orb_true_iff in E as [E|E]; [left|right]; lia.
      * intros H. exfalso.
        apply bind_inv in H as (v & _ & H).
        apply bind_inv in H as (s & _ & H).
        apply bind_inv in H as (r & Hr & H).
        destruct r as [reason|text].
        -- injection H as ->. unfold validate_hard_limit in Hr.
           apply bind_inv in Hr as ([reason|to_set] & Hloop & Hr).
           ++ injection Hr as Hr.
              destruct (LimitFacts.hard_limit_loop_cases
                          (split comma s) [])
                as [(t & _ & _ & Ht)|(vals & _ & Ht)];
                rewrite Ht in Hloop; [|discriminate].
              injection Hloop as <-. discriminate Hr.
           ++ destruct (api_count <? _); discriminate Hr.
        -- apply bind_inv in H as (d & _ & H). discriminate H.
  - intros merged H. rewrite Hshape in H.
    destruct ((hour <? 1) || (144 <? hour)) eqn:E; [discriminate|].
    apply orb_false_iff in E as [E1 E2]. split; [lia|].
    intros Hnames.
    apply bind_inv in H as (v & _ & H).
    apply bind_inv in H as (s & _ & H).
    apply bind_inv in H as ([reason|text] & _ & H); [discriminate|].
    apply bind_inv in H as (d & Hd & H). injection H as <-.
    apply copy_fields_frame in Hd as [Hframe _].
    rewrite Hframe by (intros Hin; apply Hnames; now right).
    rewrite lookup_insert_ne
      by (intros Heq; apply Hnames; rewrite <- Heq; now left).
    apply lookup_insert_eq.
Qed.



Lemma assign_damp_done user_input factors (d d' : dict) :
  assign_damp user_input factors d = (d', None) ->
  (forall k, k ∈ map damp_key factors ->
     is_Some (user_input !! k) /\ d' !! k = user_input !! k) /\
  (forall k, k ∉ map damp_key factors -> d' !! k = d !! k).
Proof.
  revert d. induction factors as [|f fs IH]; intros d H; simpl in H.
  - injection H as <-. split; [|reflexivity]. intros k Hk. inversion Hk.
  - destruct (user_input !! damp_key f) as [v|] eqn:Ev; [|discriminate].
    destruct (IH _ H) as [Hin Hout]. split.
    + intros k Hk. destruct (decide (k ∈ map damp_key fs)) as [Hk'|Hk'];
        [now apply Hin|].
      simpl in Hk. apply elem_of_cons in Hk as [->|Hk]; [|contradiction].
      rewrite (Hout _ Hk'), lookup_insert_eq, Ev. eauto.
    + intros k Hk. simpl in Hk. apply not_elem_of_cons in Hk as [Hne Hk].
      rewrite (Hout _ Hk). now apply lookup_insert_ne.
Qed.

Lemma assign_damp_total user_input factors (d : dict) :
  Forall (fun k => is_Some (user_input !! k)) (map damp_key factors) ->
  exists d', assign_damp user_input factors d = (d', None).
Proof.
  revert d. induction factors as [|f fs IH]; intros d H; simpl.
  - eauto.
  - simpl in H. apply Forall_cons in H as [[v Hv] H]. rewrite Hv.
    now apply IH.
Qed.

Lemma extant_damp_total (d : dict) factors :
  Forall (fun k => is_Some (d !! k)) (map damp_key factors) ->
  exists extant, extant_damp d factors = Ok extant.
Proof.
  induction factors as [|f fs IH]; intros H; simpl.
  - eauto.
  - simpl in H. apply Forall_cons in H as [[v Hv] H].
    rewrite (getitem_some _ _ _ Hv), bind_ok.
    destruct (IH H) as [vs ->]. rewrite bind_ok. eauto.
Qed.

Lemma dampen_submitted self user_input :
  async_step_dampen c self (Some user_input) =
  match extant_damp (working_copy self) hours with
  | Raise e => (Raise e, self)
  | Ok extant =>
      match assign_damp user_input hours (working_copy self) with
      | (d, Some _) =>
          (Ok (FlowForm "dampen" (dampen_form extant) (Some ErrorUnknown)),
           write_back self d)
      | (d, None) =>
          (Ok (FlowCreateEntry c.(TITLE) None None),
           {| _entry :=
                async_update_entry c.(TITLE) (<[c.(SITE_DAMP) := VBool false]> d);
              _options := _options self;
              _all_config_data :=
                _all_config_data
                  (write_back self (<[c.(SITE_DAMP) := VBool false]> d)) |})
      end
  end.
Proof.
  unfold async_step_dampen, working_copy.
  destruct (extant_damp _ hours); [|reflexivity].
  destruct (assign_damp _ hours _) as [d [e|]]; [reflexivity|].
  unfold write_back. destruct (_all_config_data self); reflexivity.
Qed.

(** C6.  Whenever the dampening step succeeds, the record handed to the
    entry store has the site-level dampening flag set to [False], whatever
    was stored or submitted, and (the flag's name not being the name of a
    slot) each of the 24 slots [damp00] .. [damp23] holds the submitted
    factor.  The step does succeed when the working record and the
    submission both have the 24 slots; with every factor [1.0] the stored
    slots are all [1.0] and the flag is cleared. *)
Theorem dampen_step_stores_factors self user_input :
  (forall title data options self',
      async_step_dampen c self (Some user_input)
        = (Ok (FlowCreateEntry title data options), self') ->
      entry_options (_entry self') !! c.(SITE_DAMP) = Some (VBool false) /\
      (c.(SITE_DAMP) ∉ damp_keys ->
       Forall (fun k => is_Some (user_input !! k) /\
                        entry_options (_entry self') !! k = user_input !! k)
              damp_keys)) /\
  (Forall (fun k => is_Some (working_copy self !! k)) damp_keys ->
   Forall (fun k => is_Some (user_input !! k)) damp_keys ->
   exists self',
     async_step_dampen c self (Some user_input)
       = (Ok (FlowCreateEntry c.(TITLE) None None), self')) /\
  (c.(SITE_DAMP) ∉ damp_keys ->
   Forall (fun k => is_Some (working_copy self !! k)) damp_keys ->
   Forall (fun k => user_input !! k = Some (VFloat PyFloat.one)) damp_keys ->
   exists self',
     async_step_dampen c self (Some user_input)
       = (Ok (FlowCreateEntry c.(TITLE) None None), self') /\
     Forall (fun k => entry_options (_entry self') !! k
                      = Some (VFloat PyFloat.one)) damp_keys /\
     entry_options (_entry self') !! c.(SITE_DAMP) = Some (VBool false)).
Proof.
  assert (Hstored : forall title data options self',
      async_step_dampen c self (Some user_input)
        = (Ok (FlowCreateEntry title data options), self') ->
      entry_options (_entry self') !! c.(SITE_DAMP) = Some (VBool false) /\
      (c.(SITE_DAMP) ∉ damp_keys ->
       Forall (fun k => is_Some (user_input !! k) /\
                        entry_options (_entry self') !! k = user_input !! k)
              damp_keys)).
  { intros title data options self' H. rewrite dampen_submitted in H.
    destruct (extant_damp _ hours); [|discriminate].
    destruct (assign_damp _ hours _) as [d [e|]] eqn:E; [discriminate|].
    injection H as _ _ _ <-. cbn [_entry entry_options async_update_entry].
    split; [apply lookup_insert_eq|].
    intros Hname. apply Forall_forall. intros k Hk.
    destruct (assign_damp_done _ _ _ _ E) as [Hin _].
    destruct (Hin k Hk) as [Hsome Heq]. split; [exact Hsome|].
    rewrite lookup_insert_ne; [exact Heq|]. intros <-. contradiction. }
  assert (Htotal :
    Forall (fun k => is_Some (working_copy self !! k)) damp_keys ->
    Forall (fun k => is_Some (user_input !! k)) damp_keys ->
    exists self',
      async_step_dampen c self (Some user_input)
        = (Ok (FlowCreateEntry c.(TITLE) None None), self')).
  { intros Hbase Hui. rewrite dampen_submitted.
    destruct (extant_damp_total _ _ Hbase) as [extant ->].
    destruct (assign_damp_total _ _ (working_copy self) Hui) as [d ->].
    eauto. }
  split; [exact Hstored|]. split; [exact Htotal|].
  intros Hname Hbase Hones.
  destruct Htotal as [self' Hstep]; [exact Hbase| |].
  { eapply Forall_impl; [exact Hones|]. intros k ->. eauto. }
  exists self'. split; [exact Hstep|].
  destruct (Hstored _ _ _ _ Hstep) as [Hflag Hslots]. split; [|exact Hflag].
  specialize (Hslots Hname). rewrite Forall_forall in Hslots, Hones.
  apply Forall_forall. intros k Hk.
  destruct (Hslots k Hk) as [_ ->]. now apply Hones.
Qed.

End MergeFacts.

(** C10.  When a configuration entry of the integration exists already,
    the initial set-up step aborts with [single_instance_allowed] for
    every input, a missing one included: no validator runs and no entry is
    created. *)
Theorem single_instance_enforced (c : names)
    (current_entries : list config_entry) (solcast_json_exists : bool)
    (user_input : option dict) :
  current_entries <> [] ->
  async_step_user c current_entries solcast_json_exists user_input
    = Ok (FlowAbort Reason.single_instance).
Proof.
  intros H. destruct current_entries as [|e es]; [contradiction|].
  reflexivity.
Qed.

(** ** The theorems at sample inputs *)

Lemma merge_overwrites_only_validated_witness :
  Vocabulary.overwrites_only (Vocabulary.written_keys solcast_names)
    Samples.stored_options Samples.good_merged /\
  Forall (fun k => Samples.good_merged !! k = Samples.stored_options !! k)
    Vocabulary.damp_keys /\
  async_step_init solcast_names Samples.opened_flow (Some Samples.good_input)
    = (Ok (FlowCreateEntry "Solcast Solar" None None),
       Vocabulary.persisted solcast_names Samples.opened_flow
         Samples.good_merged).
Proof.
  assert (H : check_and_merge solcast_names (_options Samples.opened_flow)
                Samples.good_input = Ok (Merged Samples.good_merged))
    by (vm_compute; reflexivity).
  destruct (merge_overwrites_only_validated solcast_names _ _ _ H)
    as (H1 & H2 & H3).
  split; [exact H1|]. split.
  - apply H2. compute_done.
  - apply H3. reflexivity.
Defined.

Lemma dampening_step_only_on_request_witness :
  async_step_init solcast_names Samples.opened_flow (Some Samples.good_input)
    = (Ok (FlowCreateEntry "Solcast Solar" None None),
       Vocabulary.persisted solcast_names Samples.opened_flow
         Samples.good_merged) /\
  exists merged extant,
    async_step_init solcast_names Samples.opened_flow
      (Some Samples.wants_dampening)
      = (Ok (FlowForm "dampen" (dampen_form extant) None),
         Vocabulary.drafted Samples.opened_flow merged).
Proof.
  split.
  - refine (proj1 (proj2 (dampening_step_only_on_request solcast_names
              Samples.opened_flow Samples.good_input Samples.good_merged _))
              eq_refl).
    vm_compute. reflexivity.
  - exists Samples.good_merged.
    destruct (extant_damp Samples.good_merged hours) as [extant|e] eqn:E;
      [|vm_compute in E; discriminate E].
    exists extant.
    refine (proj2 (proj2 (dampening_step_only_on_request solcast_names
              Samples.opened_flow Samples.wants_dampening
              Samples.good_merged _)) eq_refl extant E).
    vm_compute. reflexivity.
Defined.

Lemma hour_sensor_bounds_witness :
  check_and_merge solcast_names Samples.stored_options (Samples.with_hour 0)
    = Ok (Rejected Reason.hour_range) /\
  check_and_merge solcast_names Samples.stored_options (Samples.with_hour 145)
    = Ok (Rejected Reason.hour_range) /\
  hour_sensor_refused (VInt 1) = Ok false /\
  hour_sensor_refused (VInt 144) = Ok false /\
  Samples.good_merged !! "customhoursensor" = Some (VInt 24).
Proof.
  repeat apply conj.
  - apply (proj1 (proj2 (hour_sensor_bounds solcast_names
             Samples.stored_options (Samples.with_hour 0)
             "key1,key2" 2 "10,20" 0 eq_refl eq_refl eq_refl))).
    left. lia.
  - apply (proj1 (proj2 (hour_sensor_bounds solcast_names
             Samples.stored_options (Samples.with_hour 145)
             "key1,key2" 2 "10,20" 145 eq_refl eq_refl eq_refl))).
    right. lia.
  - exact (proj1 (hour_sensor_bounds solcast_names
             Samples.stored_options (Samples.with_hour 1)
             "key1,key2" 2 "10,20" 1 eq_refl eq_refl eq_refl)).
  - exact (proj1 (hour_sensor_bounds solcast_names
             Samples.stored_options (Samples.with_hour 144)
             "key1,key2" 2 "10,20" 144 eq_refl eq_refl eq_refl)).
  - refine (proj2 (proj2 (proj2 (hour_sensor_bounds solcast_names
             Samples.stored_options Samples.good_input
             "key1,key2" 2 "10,20" 24 eq_refl eq_refl eq_refl))
             Samples.good_merged _) _).
    + vm_compute. reflexivity.
    + compute_done.
Defined.

Lemma dampen_step_stores_factors_witness :
  exists self',
    async_step_dampen solcast_names Samples.opened_flow
      (Some Samples.all_ones)
      = (Ok (FlowCreateEntry "Solcast Solar" None None), self') /\
    Forall (fun k => entry_options (_entry self') !! k
                     = Some (VFloat PyFloat.one)) Vocabulary.damp_keys /\
    entry_options (_entry self') !! "site_damp" = Some (VBool false).
Proof.
  apply (proj2 (proj2 (dampen_step_stores_factors solcast_names
           Samples.opened_flow Samples.all_ones))).
  - compute_done.
  - compute_done.
  - repeat (constructor; [reflexivity|]). constructor.
Defined.

Lemma single_instance_enforced_witness :
  async_step_user solcast_names
    [ {| entry_title := "Solcast Solar";
         entry_options := Samples.stored_options |} ]
    false (Some (Samples.setup_input "key1" "10"))
    = Ok (FlowAbort Reason.single_instance) /\
  async_step_user solcast_names
    [ {| entry_title := "Solcast Solar";
         entry_options := Samples.stored_options |} ]
    true None
    = Ok (FlowAbort Reason.single_instance).
Proof.
  split; apply single_instance_enforced; discriminate.
Defined.

(** The main form offers the per-hour flag when site-level dampening is
    stored as off, and otherwise offers the site-level switch in its
    place. *)
Lemma init_form_last_field (c : names) (options : dict) schema :
  init_form c options = Ok schema ->
  exists site_damp,
    options !! c.(SITE_DAMP) = Some site_damp /\
    List.last schema (opt_bool "" VNone) =
      if Py.truthy site_damp
      then opt_bool c.(SITE_DAMP) site_damp
      else opt_bool c.(CONFIG_DAMP) (VBool false).
Proof.
  unfold init_form. intros H.
  do 11 (apply bind_inv in H as (? & _ & H)).
  apply bind_inv in H as (site_damp & Hs & H).
  apply bind_inv in H as (field & Hf & H).
  injection H as <-. exists site_damp.
  unfold Py.getitem in Hs.
  destruct (options !! c.(SITE_DAMP)) as [v|] eqn:E; [|discriminate].
  injection Hs as ->. split; [reflexivity|].
  cbn [List.last]. unfold Py.getitem in Hf. rewrite E in Hf.
  destruct (Py.truthy site_damp); simpl in Hf; now injection Hf as <-.
Qed.

(** With the per-hour flag ticked the dampening form is shown also when
    site-level dampening is stored as off and the submission does not
    touch it. *)
Example dampening_form_with_site_damp_off :
  Py.truthy (Py.get Samples.stored_options "site_damp") = false /\
  Samples.wants_dampening !! "site_damp" = None /\
  async_step_init solcast_names Samples.opened_flow
    (Some Samples.wants_dampening)
    = (Ok (FlowForm "dampen"
             (dampen_form (List.repeat (VFloat PyFloat.one) 24)) None),
       Vocabulary.drafted Samples.opened_flow Samples.good_merged).
Proof. vm_compute. repeat split. Qed.

(** * Further properties *)

(** ** The site-identifier pattern *)

Module RegexFacts.
Import PyStr Vocabulary ExtraVocabulary Regex PyStrFacts.

Lemma class_n_spec n s r :
  class_n n s = Some r <->
  exists g, s = g ++ r /\ String.length g = n /\
            forall a, occurs a g -> lower_alnum a = true.
Proof.
  revert s. induction n as [|n IH]; intros s; simpl.
  - split.
    + intros [= ->]. exists "". repeat split. intros a [].
    + intros (g & -> & Hl & _). destruct g; [reflexivity | discriminate].
  - destruct s as [|a s].
    + split; [discriminate|]. intros (g & Hs & Hl & _).
      destruct g; discriminate.
    + destruct (lower_alnum a) eqn:Ea.
      * rewrite IH. split.
        -- intros (g & -> & Hl & Hall). exists (String a g).
           repeat split; [simpl; congruence|].
           intros b [->|Hb]; auto.
        -- intros (g & Hs & Hl & Hall). destruct g as [|b g]; [discriminate|].
           injection Hs as <- ->. exists g. repeat split; [simpl in Hl; lia|].
           intros c Hc. apply Hall. now right.
      * split; [discriminate|]. intros (g & Hs & Hl & Hall).
        destruct g as [|b g]; [discriminate|]. injection Hs as <- ->.
        rewrite Hall in Ea by now left. discriminate.
Qed.

Lemma hyphen_spec s r : hyphen s = Some r <-> s = String "-" r.
Proof.
  unfold hyphen. destruct s as [|a s]; [split; discriminate|].
  destruct (Ascii.eqb_spec a "-") as [->|Hne].
  - split; [now intros [= ->] | now intros [= ->]].
  - split; [discriminate | intros [= -> _]; contradiction].
Qed.

Lemma group_then_hyphen_spec s r :
  group_then_hyphen s = Some r <->
  exists g, s = g ++ "-" ++ r /\ group4 g.
Proof.
  unfold group_then_hyphen. split.
  - intros H. destruct (class_n 4 s) as [r1|] eqn:E; [|discriminate].
    simpl in H. apply hyphen_spec in H as ->.
    apply class_n_spec in E as (g & -> & Hl & Hall).
    exists g. split; [reflexivity | now split].
  - intros (g & -> & Hl & Hall).
    assert (E : class_n 4 (g ++ "-" ++ r) = Some (String "-" r)).
    { apply class_n_spec. exists g. now repeat split. }
    rewrite E. reflexivity.
Qed.

Lemma at_end_spec s :
  at_end s = true <-> s = "" \/ s = String newline "".
Proof.
  destruct s as [|a [|b s]]; simpl.
  - split; auto.
  - destruct (Ascii.eqb_spec a newline) as [->|Hne].
    + split; auto.
    + split; [discriminate|]. intros [|[= ->]]; [discriminate|contradiction].
  - split; [discriminate|]. intros [|]; discriminate.
Qed.

Lemma occurs_group4 g a : group4 g -> occurs a g -> lower_alnum a = true.
Proof. intros [_ H]. apply H. Qed.

End RegexFacts.

Section RegexTheorems.
Import PyStr Vocabulary ExtraVocabulary Regex PyStrFacts RegexFacts.

(** X1 ([LIKE_SITE_ID]).  The site-identifier pattern matches exactly the
    texts made of four groups of four lowercase letters or digits joined
    by hyphens, optionally followed by one newline; a matched text holds
    no other character, so no uppercase letter. *)
Theorem like_site_id_shape (key : string) :
  (like_site_id key = true <-> site_id_text key) /\
  (like_site_id key = true ->
   forall a, occurs a key ->
     lower_alnum a = true \/ a = "-"%char \/ a = newline).
Proof.
  assert (Hiff : like_site_id key = true <-> site_id_text key).
  { unfold like_site_id, site_id_text. split.
    - intros H.
      destruct (group_then_hyphen key) as [r1|] eqn:E1; [|discriminate].
      cbn [mbind option_bind] in H.
      destruct (group_then_hyphen r1) as [r2|] eqn:E2; [|discriminate].
      cbn [mbind option_bind] in H.
      destruct (group_then_hyphen r2) as [r3|] eqn:E3; [|discriminate].
      cbn [mbind option_bind] in H.
      destruct (class_n 4 r3) as [tail|] eqn:E4; [|discriminate H].
      apply group_then_hyphen_spec in E1 as (g1 & -> & H1).
      apply group_then_hyphen_spec in E2 as (g2 & -> & H2).
      apply group_then_hyphen_spec in E3 as (g3 & -> & H3).
      apply class_n_spec in E4 as (g4 & -> & Hl & Hall).
      apply at_end_spec in H.
      exists g1, g2, g3, g4, tail.
      split; [reflexivity|]. repeat (split; [assumption|]).
      split; [now split | exact H].
    - intros (g1 & g2 & g3 & g4 & tail & -> & H1 & H2 & H3 & [Hl Hall] & Ht).
      assert (E1 : group_then_hyphen
                (g1 ++ "-" ++ g2 ++ "-" ++ g3 ++ "-" ++ g4 ++ tail)
              = Some (g2 ++ "-" ++ g3 ++ "-" ++ g4 ++ tail))
        by (apply group_then_hyphen_spec; eauto).
      assert (E2 : group_then_hyphen (g2 ++ "-" ++ g3 ++ "-" ++ g4 ++ tail)
              = Some (g3 ++ "-" ++ g4 ++ tail))
        by (apply group_then_hyphen_spec; eauto).
      assert (E3 : group_then_hyphen (g3 ++ "-" ++ g4 ++ tail)
              = Some (g4 ++ tail))
        by (apply group_then_hyphen_spec; eauto).
      assert (E4 : class_n 4 (g4 ++ tail) = Some tail)
        by (apply class_n_spec; eauto).
      rewrite E1. cbn [mbind option_bind]. rewrite E2.
      cbn [mbind option_bind]. rewrite E3. cbn [mbind option_bind].
      rewrite E4.
      now apply at_end_spec. }
  split; [exact Hiff|].
  intros H a Ha. apply Hiff in H
    as (g1 & g2 & g3 & g4 & tail & -> & H1 & H2 & H3 & H4 & Ht).
  repeat (apply occurs_app in Ha as [Ha|Ha];
          [left; eauto using occurs_group4|];
          try (destruct Ha as [->|Ha]; [right; now left|])).
  destruct Ht as [-> | ->]; [destruct Ha|].
  destruct Ha as [-> | Ha]; [right; now right | destruct Ha].
Qed.

End RegexTheorems.

Lemma like_site_id_shape_witness :
  Regex.like_site_id "ab12-cd34-ef56-gh78" = true /\
  (Regex.lower_alnum "A" = true \/ "A"%char = "-"%char \/
   "A"%char = PyStr.newline -> False) /\
  Regex.like_site_id "AB12-cd34-ef56-gh78" = false.
Proof.
  split; [|split].
  - apply (proj1 (like_site_id_shape "ab12-cd34-ef56-gh78")).
    exists "ab12", "cd34", "ef56", "gh78", "".
    split; [reflexivity|].
    assert (G : forall g, String.length g = 4%nat ->
                (forall a, Vocabulary.occurs a g -> Regex.lower_alnum a = true)
                -> ExtraVocabulary.group4 g) by (intros; now split).
    repeat (split; [apply G; [reflexivity|];
      intros a Ha; simpl in Ha;
      repeat (destruct Ha as [->|Ha]; [reflexivity|]); destruct Ha|]).
    now left.
  - intros [H|[H|H]]; discriminate H.
  - destruct (Regex.like_site_id "AB12-cd34-ef56-gh78") eqn:E; [|reflexivity].
    destruct (proj2 (like_site_id_shape "AB12-cd34-ef56-gh78") E "A"%char
                (or_introl eq_refl)) as [H|[H|H]]; discriminate H.
Defined.


(** ** What the validators return *)

Section ValidatorExtras.
Import PyStr Vocabulary ExtraVocabulary PyStrFacts KeyFacts QuotaFacts.

Variable c : names.

Lemma validate_api_key_ok_inv user_input k n abort :
  validate_api_key c user_input = Ok (k, n, abort) ->
  exists raw, user_input !! c.(CONF_API_KEY) = Some (VStr raw).
Proof.
  unfold validate_api_key, Py.getitem.
  destruct (user_input !! c.(CONF_API_KEY)) as [[| | | |raw]|];
    try discriminate. eauto.
Qed.

(** X2 ([validate_api_key]).  When key validation succeeds the string it
    returns is normalised: its keys are pairwise distinct, none has the
    shape of a site identifier, the count is their number, the string is
    their comma join and holds no space, and validating that string again
    returns the same result. *)
Theorem validate_api_key_success_invariant (user_input : dict)
    (api_key : string) (api_count : Z) :
  validate_api_key c user_input = Ok (api_key, api_count, None) ->
  NoDup (tokens api_key) /\
  Forall (fun k => Regex.like_site_id k = false) (tokens api_key) /\
  api_count = Z.of_nat (length (tokens api_key)) /\
  api_key = join "," (tokens api_key) /\
  ~ occurs space api_key /\
  forall again : dict,
    again !! c.(CONF_API_KEY) = Some (VStr api_key) ->
    validate_api_key c again = Ok (api_key, api_count, None).
Proof.
  intros H. destruct (validate_api_key_ok_inv _ _ _ _ H) as [raw Hraw].
  rewrite (validate_api_key_unfold c _ _ Hraw) in H.
  destruct (key_loop (tokens raw) 0 (tokens raw)) eqn:E; [discriminate|].
  injection H as <- <-.
  pose proof (tokens_join _ (tokens_clean raw)) as Htok.
  apply key_loop_none in E as [Hs Hn].
  rewrite Htok. repeat split; try assumption.
  - intros Hocc. apply occurs_join in Hocc as [Hocc|(t & Hin & Hocc)].
    + destruct Hocc as [Hocc|[]]. discriminate Hocc.
    + pose proof (tokens_clean raw) as Hc. rewrite List.Forall_forall in Hc.
      destruct (Hc t Hin) as (_ & _ & Hsp). auto.
  - intros again Hag. rewrite (validate_api_key_unfold c _ _ Hag), Htok.
    now rewrite (proj2 (key_loop_none _) (conj Hs Hn)).
Qed.



Lemma validate_api_limit_ok_inv user_input n q abort :
  validate_api_limit c user_input n = Ok (q, abort) ->
  exists raw, user_input !! c.(API_QUOTA) = Some (VStr raw).
Proof.
  unfold validate_api_limit, Py.getitem.
  destruct (user_input !! c.(API_QUOTA)) as [[| | | |raw]|];
    try discriminate. eauto.
Qed.

(** X4 ([validate_api_limit]).  When quota validation succeeds every
    returned quota is a numeral of at least one, there are no more quotas
    than keys, the string is the comma join of its quotas, and it
    validates to itself against the same or any larger key count. *)
Theorem validate_api_limit_success_invariant (user_input : dict)
    (api_count : Z) (api_quota : string) :
  validate_api_limit c user_input api_count = Ok (api_quota, None) ->
  Forall valid_quota (tokens api_quota) /\
  Z.of_nat (length (tokens api_quota)) <= api_count /\
  api_quota = join "," (tokens api_quota) /\
  forall (again : dict) (more : Z),
    again !! c.(API_QUOTA) = Some (VStr api_quota) ->
    api_count <= more ->
    validate_api_limit c again more = Ok (api_quota, None).
Proof.
  intros H. destruct (validate_api_limit_ok_inv _ _ _ _ H) as [raw Hraw].
  rewrite (validate_api_limit_unfold c _ _ _ Hraw) in H.
  pose proof (tokens_join _ (tokens_clean raw)) as Htok.
  destruct (quota_loop_cases (tokens raw))
    as [[Hl Hall]|[[Hl _]|[Hl _]]]; rewrite Hl in H; simpl in H;
    try discriminate.
  destruct (Z.ltb_spec api_count (Z.of_nat (length (tokens raw))));
    [discriminate|].
  injection H as <-. rewrite Htok. repeat split; try assumption.
  intros again more Hag Hmore.
  rewrite (validate_api_limit_unfold c _ _ _ Hag), Htok, Hl. simpl.
  destruct (Z.ltb_spec more (Z.of_nat (length (tokens raw))));
    [lia | reflexivity].
Qed.


End ValidatorExtras.

(** ** Dict displays *)

Module DictFacts.

Lemma fold_insert_other (l : list (string * value)) (m : dict) k :
  k ∉ l.*1 ->
  fold_left (fun d kv => <[kv.1 := kv.2]> d) l m !! k = m !! k.
Proof.
  revert m. induction l as [|[k0 v0] l IH]; intros m Hk; simpl;
    [reflexivity|].
  simpl in Hk. apply not_elem_of_cons in Hk as [Hne Hk].
  rewrite IH by assumption. now apply lookup_insert_ne.
Qed.

(** A key of the display holds the value written with it, when every
    entry for that key carries the same value. *)
Lemma fold_insert_same (l : list (string * value)) (m : dict) k v :
  (forall v', (k, v') ∈ l -> v' = v) -> k ∈ l.*1 ->
  fold_left (fun d kv => <[kv.1 := kv.2]> d) l m !! k = Some v.
Proof.
  revert m. induction l as [|[k0 v0] l IH]; intros m Hsame Hk; simpl.
  - inversion Hk.
  - destruct (decide (k ∈ l.*1)) as [Hin|Hout].
    + apply IH; [|exact Hin]. intros v' Hv'. apply Hsame. now right.
    + simpl in Hk. apply elem_of_cons in Hk as [->|Hk]; [|contradiction].
      rewrite fold_insert_other by assumption. simpl.
      rewrite lookup_insert_eq. f_equal. apply Hsame. now left.
Qed.

Lemma mkdict_other l k : k ∉ l.*1 -> mkdict l !! k = None.
Proof. intros H. unfold mkdict. now rewrite fold_insert_other. Qed.

Lemma mkdict_same l k v :
  (forall v', (k, v') ∈ l -> v' = v) -> k ∈ l.*1 -> mkdict l !! k = Some v.
Proof. apply fold_insert_same. Qed.

Lemma nodup_fst_unique (l : list (string * value)) k v v' :
  NoDup l.*1 -> (k, v) ∈ l -> (k, v') ∈ l -> v' = v.
Proof.
  induction l as [|[k0 v0] l IH]; intros Hnd Hv Hv'; [inversion Hv|].
  simpl in Hnd. apply NoDup_cons in Hnd as [Hout Hnd].
  apply elem_of_cons in Hv as [Hv|Hv], Hv' as [Hv'|Hv'].
  - congruence.
  - injection Hv as -> ->. destruct Hout.
    apply list_elem_of_fmap. now exists (k0, v').
  - injection Hv' as -> ->. destruct Hout.
    apply list_elem_of_fmap. now exists (k0, v).
  - now apply IH.
Qed.

(** With distinct keys, each entry of the display holds its value. *)
Lemma mkdict_nodup l k v :
  NoDup l.*1 -> (k, v) ∈ l -> mkdict l !! k = Some v.
Proof.
  intros Hnd Hin. apply mkdict_same.
  - intros v' Hv'. exact (nodup_fst_unique _ _ _ _ Hnd Hin Hv').
  - apply list_elem_of_fmap. now exists (k, v).
Qed.

Lemma mkdict_present l k : k ∈ l.*1 -> is_Some (mkdict l !! k).
Proof.
  unfold mkdict. generalize (∅ : dict).
  induction l as [|[k0 v0] l IH]; intros m Hk; simpl; [inversion Hk|].
  destruct (decide (k ∈ l.*1)) as [Hin|Hout]; [now apply IH|].
  simpl in Hk. apply elem_of_cons in Hk as [->|Hk]; [|contradiction].
  rewrite fold_insert_other by assumption. simpl.
  rewrite lookup_insert_eq. eauto.
Qed.


Lemma default_damp_other k :
  k ∉ Vocabulary.damp_keys -> default_damp !! k = None.
Proof.
  intros Hk. unfold default_damp. apply mkdict_other.
  now rewrite <- list_fmap_compose.
Qed.

End DictFacts.

Section SetupExtras.
Import PyStr Vocabulary ExtraVocabulary DictFacts.

Variable c : names.




Lemma setup_created_inv current_entries solcast_json_exists user_input
    title data options :
  async_step_user c current_entries solcast_json_exists user_input
    = Ok (FlowCreateEntry title data (Some options)) ->
  exists api_key api_quota n,
    options = default_damp ∪ initial_options c api_key api_quota n.
Proof.
  unfold async_step_user. destruct current_entries; [|discriminate].
  destruct user_input as [user_input|]; [|discriminate]. intros H.
  apply bind_inv in H as ([[api_key api_count] abort] & _ & H).
  destruct abort; [discriminate|].
  apply bind_inv in H as ([api_quota abort] & _ & H).
  destruct abort; [discriminate|].
  apply bind_inv in H as (v & _ & H).
  apply bind_inv in H as (n & _ & H).
  injection H as _ _ <-. eauto.
Qed.

Lemma getitem_present (d : dict) k :
  is_Some (d !! k) -> exists v, Py.getitem d k = Ok v.
Proof. intros [v Hv]. exists v. now apply getitem_some. Qed.

Lemma getitem_ok (d : dict) k v : Py.getitem d k = Ok v -> d !! k = Some v.
Proof. unfold Py.getitem. destruct (d !! k); now intros [= ->]. Qed.

(** X7 ([async_step_user], [async_step_init]).  The record that set-up
    creates has no site-dampening flag, and the main options form cannot
    be built from such a record: the first display of the options flow
    on it raises [KeyError] for that flag and leaves the handler as it
    was. *)
Theorem options_form_needs_site_damp (solcast_json_exists : bool)
    (user_input : dict) (title : string) (data : option dict)
    (options : dict) (self : options_flow) :
  async_step_user c [] solcast_json_exists (Some user_input)
    = Ok (FlowCreateEntry title data (Some options)) ->
  _options self = options ->
  NoDup (c.(SITE_DAMP) :: setup_keys c ++ damp_keys) ->
  options !! c.(SITE_DAMP) = None /\
  async_step_init c self None = (Raise (KeyError c.(SITE_DAMP)), self).
Proof.
  intros Hsetup Hself Hnd.
  apply setup_created_inv in Hsetup as (api_key & api_quota & n & ->).
  apply NoDup_cons in Hnd as [Hsite Hnd].
  apply not_elem_of_app in Hsite as [Hsite1 Hsite2].
  pose proof Hnd as Hnd'. apply NoDup_app in Hnd' as (Hnd1 & Hdisj & _).
  set (io := initial_options c api_key api_quota n) in *.
  assert (Hnone : (default_damp ∪ io) !! c.(SITE_DAMP) = None).
  { apply lookup_union_None. split; [now apply default_damp_other|].
    apply mkdict_other. exact Hsite1. }
  split; [exact Hnone|].
  assert (Hpresent : forall k, k ∈ setup_keys c ->
            exists v, Py.getitem (default_damp ∪ io) k = Ok v).
  { intros k Hk. apply getitem_present, lookup_union_is_Some. right.
    apply mkdict_present. exact Hk. }
  assert (Hauto : Py.getitem (default_damp ∪ io) c.(AUTO_UPDATE)
                  = Ok (VInt n)).
  { apply getitem_some. rewrite lookup_union_r.
    - apply mkdict_nodup; [exact Hnd1 | repeat constructor].
    - apply default_damp_other, Hdisj. unfold setup_keys.
      repeat constructor. }
  unfold async_step_init, init_show, init_form. rewrite Hself.
  destruct (Hpresent c.(API_QUOTA)) as [v1 ->];
    [unfold setup_keys; repeat constructor|].
  rewrite bind_ok, Hauto, bind_ok. cbn [Py.int]. rewrite bind_ok.
  destruct (Hpresent c.(CUSTOM_HOUR_SENSOR)) as [v2 ->];
    [unfold setup_keys; repeat constructor|]. rewrite bind_ok.
  destruct (Hpresent c.(BRK_ESTIMATE10)) as [v3 ->];
    [unfold setup_keys; repeat constructor|]. rewrite bind_ok.
  destruct (Hpresent c.(BRK_ESTIMATE)) as [v4 ->];
    [unfold setup_keys; repeat constructor|]. rewrite bind_ok.
  destruct (Hpresent c.(BRK_ESTIMATE90)) as [v5 ->];
    [unfold setup_keys; repeat constructor|]. rewrite bind_ok.
  destruct (Hpresent c.(BRK_SITE)) as [v6 ->];
    [unfold setup_keys; repeat constructor|]. rewrite bind_ok.
  destruct (Hpresent c.(BRK_HALFHOURLY)) as [v7 ->];
    [unfold setup_keys; repeat constructor|]. rewrite bind_ok.
  destruct (Hpresent c.(BRK_HOURLY)) as [v8 ->];
    [unfold setup_keys; repeat constructor|]. rewrite bind_ok.
  destruct (Hpresent c.(BRK_SITE_DETAILED)) as [v9 ->];
    [unfold setup_keys; repeat constructor|]. rewrite bind_ok.
  assert (Hg : Py.getitem (default_damp ∪ io) c.(SITE_DAMP)
               = Raise (KeyError c.(SITE_DAMP)))
    by (unfold Py.getitem; now rewrite Hnone).
  rewrite Hg. reflexivity.
Qed.

End SetupExtras.

(** ** More on the hard-limit field *)

Module LimitExtraFacts.
Import PyStr Vocabulary PyStrFacts LimitFacts.



Lemma all_digits_chars s a :
  all_digits s = true -> occurs a s -> is_digit a = true.
Proof.
  induction s as [|b s IH]; simpl; [intros _ []|].
  intros H [->|Ha]; apply andb_true_iff in H as [H1 H2]; auto.
Qed.

Lemma of_N_chars n a : occurs a (of_N n) -> is_digit a = true.
Proof.
  pose proof (of_N_isdigit n) as H. unfold isdigit in H.
  apply andb_true_iff in H as [_ H]. now apply all_digits_chars.
Qed.

(** The one-decimal text of any float holds no comma. *)
Lemma fmt_1f_no_comma val : ~ occurs comma (PyFloat.fmt_1f val).
Proof.
  assert (Hsign : forall s, ~ occurs comma (PyFloat.sign_text s)).
  { intros [|]; simpl; [intros [H|[]]; discriminate H | intros []]. }
  destruct val as [s|s| |s m e]; simpl.
  - intros H. apply occurs_app in H as [H|H]; [now apply (Hsign s)|].
    simpl in H. repeat (destruct H as [H|H]; [discriminate H|]). exact H.
  - intros H. apply occurs_app in H as [H|H]; [now apply (Hsign s)|].
    simpl in H. repeat (destruct H as [H|H]; [discriminate H|]). exact H.
  - intros H. repeat (destruct H as [H|H]; [discriminate H|]). exact H.
  - intros H. apply occurs_app in H as [H|H]; [now apply (Hsign s)|].
    apply occurs_app in H as [H|H];
      [apply of_N_chars in H; discriminate H|].
    destruct H as [H|H]; [discriminate H|].
    apply of_N_chars in H. discriminate H.
Qed.

Lemma limit_text_no_comma t : ~ occurs comma (limit_text t).
Proof.
  unfold limit_text. destruct (limit_value t); [apply fmt_1f_no_comma|].
  intros [].
Qed.

End LimitExtraFacts.

Section LimitExtras.
Import PyStr Vocabulary PyStrFacts LimitFacts LimitExtraFacts.

(** What a successful hard-limit validation returns. *)
Lemma limit_success hard_limit n out :
  validate_hard_limit hard_limit n = Ok (inr out) ->
  out = join "," (map limit_text (split comma hard_limit)) /\
  split comma out = map limit_text (split comma hard_limit) /\
  Forall (fun t => accepted_limit t = true) (split comma hard_limit) /\
  Z.of_nat (length (split comma hard_limit)) <= n.
Proof.
  intros H.
  destruct (Forall_Exists_dec (fun t => accepted_limit t = true)
              (fun t => accepted_limit t = false)
              (fun t => sumbool_of_bool (accepted_limit t))
              (split comma hard_limit)) as [Hall|Hex].
  - rewrite (validate_hard_limit_accepts _ _ Hall) in H.
    destruct (Z.ltb_spec n (Z.of_nat (length (split comma hard_limit))));
      [discriminate|].
    injection H as <-. repeat split; try assumption.
    pose proof (split_not_nil comma hard_limit) as Hne.
    destruct (split comma hard_limit) as [|t ts]; [contradiction|].
    change "," with (String comma ""). simpl map. apply split_join.
    apply List.Forall_forall. intros x Hx.
    change (limit_text t :: map limit_text ts)
      with (map limit_text (t :: ts)) in Hx.
    apply List.in_map_iff in Hx as (y & <- & _).
    apply limit_text_no_comma.
  - apply List.Exists_exists in Hex as (t & Hin & Ht).
    rewrite (validate_hard_limit_rejects _ _ t Hin Ht) in H. discriminate.
Qed.


(** X9 ([async_step_init], hard-limit block).  An accepted hard-limit
    field comes back with as many comma-separated pieces as were entered,
    each the one-decimal text of the piece at the same position; every
    entered piece was a decimal numeral, there are no more pieces than
    keys, and there is at least one key. *)
Theorem hard_limit_output_structure (hard_limit : string) (api_count : Z)
    (out : string) :
  validate_hard_limit hard_limit api_count = Ok (inr out) ->
  split comma out = map limit_text (split comma hard_limit) /\
  Forall (fun t => accepted_limit t = true) (split comma hard_limit) /\
  Z.of_nat (length (split comma out)) <= api_count /\
  1 <= api_count.
Proof.
  intros H. destruct (limit_success _ _ _ H) as (_ & Hsplit & Hall & Hlen).
  rewrite Hsplit, length_map. repeat split; [exact Hall | exact Hlen |].
  pose proof (split_not_nil comma hard_limit).
  destruct (split comma hard_limit); [contradiction | simpl in *; lia].
Qed.

End LimitExtras.

(** ** More on the two steps of the options flow *)

Section FlowExtras.
Import PyStr Vocabulary ExtraVocabulary.

Variable c : names.

Lemma extant_damp_spec (d : dict) factors vs :
  extant_damp d factors = Ok vs <->
  Forall2 (fun f v => d !! damp_key f = Some v) factors vs.
Proof.
  revert vs. induction factors as [|f fs IH]; intros vs; simpl.
  - split; [intros [= <-]; constructor | intros H; now inversion H].
  - unfold Py.getitem at 1. destruct (d !! damp_key f) as [v|] eqn:E.
    + rewrite bind_ok. destruct (extant_damp d fs) as [vs'|e] eqn:E'.
      * rewrite bind_ok. split.
        -- intros [= <-]. constructor; [exact E | now apply IH].
        -- intros H. inversion H as [|? v0 ? vs0 Hv Hvs]; subst.
           apply IH in Hvs. congruence.
      * split; [discriminate|]. intros H.
        inversion H as [|? v0 ? vs0 Hv Hvs]; subst.
        apply IH in Hvs. discriminate.
    + split; [discriminate|]. intros H. inversion H; congruence.
Qed.

(** The first missing slot is the one the display raises for. *)
Lemma extant_damp_missing (d : dict) pre f post :
  Forall (fun f' => is_Some (d !! damp_key f')) pre ->
  d !! damp_key f = None ->
  extant_damp d (pre ++ f :: post)%list = Raise (KeyError (damp_key f)).
Proof.
  induction 1 as [|f' pre [v Hv] _ IH]; intros Hf; simpl.
  - unfold Py.getitem. now rewrite Hf.
  - rewrite (getitem_some _ _ _ Hv), bind_ok, (IH Hf). reflexivity.
Qed.

Lemma dampen_form_spec factors vs :
  length factors = length vs ->
  map f_key (map (fun '(factor, v) =>
                    {| f_key := damp_key factor; f_required := true;
                       f_default := None; f_suggested := Some v;
                       f_type := TUnitFloat |})
                 (combine factors vs))
  = map damp_key factors.
Proof.
  revert vs. induction factors as [|f fs IH]; intros [|v vs] Hl;
    try discriminate; simpl; [reflexivity|].
  f_equal. apply IH. simpl in Hl. lia.
Qed.

Lemma dampen_form_suggested (d : dict) factors vs :
  Forall2 (fun f v => d !! damp_key f = Some v) factors vs ->
  Forall (fun fld => f_suggested fld = d !! f_key fld /\
                     f_required fld = true /\ f_default fld = None /\
                     f_type fld = TUnitFloat)
         (map (fun '(factor, v) =>
                 {| f_key := damp_key factor; f_required := true;
                    f_default := None; f_suggested := Some v;
                    f_type := TUnitFloat |})
              (combine factors vs)).
Proof.
  induction 1 as [|f v fs vs Hv _ IH]; simpl; constructor; [|exact IH].
  simpl. now rewrite Hv.
Qed.

Lemma dampen_none_state self r self' :
  async_step_dampen c self None = (r, self') -> self' = self.
Proof.
  unfold async_step_dampen. destruct (extant_damp _ hours);
    now intros [= _ <-].
Qed.

Lemma init_show_state self errors r self' :
  init_show c self errors = (r, self') -> self' = self.
Proof. unfold init_show. now intros [= _ <-]. Qed.

Lemma write_back_fields self d :
  _entry (write_back self d) = _entry self /\
  _options (write_back self d) = _options self.
Proof. unfold write_back. now destruct (_all_config_data self). Qed.

(** X10 ([async_step_init], [async_step_dampen]).  Neither step of the
    options flow ever changes the stored options the handler was opened
    with, and the configuration entry is written only by a call that ends
    the flow: any other outcome leaves the entry as it was, and the
    ending outcome carries the integration's title, no data, and an entry
    retitled with it. *)
Theorem entry_written_only_on_done (self : options_flow)
    (user_input : option dict) (r : res flow_result)
    (self' : options_flow) :
  async_step_init c self user_input = (r, self') \/
  async_step_dampen c self user_input = (r, self') ->
  _options self' = _options self /\
  ((forall title data options,
       r <> Ok (FlowCreateEntry title data options)) ->
   _entry self' = _entry self) /\
  (forall title data options,
      r = Ok (FlowCreateEntry title data options) ->
      title = c.(TITLE) /\ data = None /\ options = None /\
      entry_title (_entry self') = c.(TITLE)).
Proof.
  assert (Hshow : forall st errors r0 st0,
            init_show c st errors = (r0, st0) ->
            st0 = st /\
            forall t d o, r0 <> Ok (FlowCreateEntry t d o)).
  { intros st errors r0 st0 H. unfold init_show in H. injection H as <- <-.
    split; [reflexivity|]. intros t d o.
    destruct (init_form c (_options st)); discriminate. }
  assert (Hnone : forall st r0 st0,
            async_step_dampen c st None = (r0, st0) ->
            st0 = st /\
            forall t d o, r0 <> Ok (FlowCreateEntry t d o)).
  { intros st r0 st0 H. unfold async_step_dampen in H.
    destruct (extant_damp _ hours); injection H as <- <-;
      (split; [reflexivity | discriminate]). }
  assert (Hkeep : forall st,
            _options st = _options self -> _entry st = _entry self ->
            (forall t d o, r <> Ok (FlowCreateEntry t d o)) ->
            self' = st ->
            _options self' = _options self /\
            ((forall title data options,
                 r <> Ok (FlowCreateEntry title data options)) ->
             _entry self' = _entry self) /\
            (forall title data options,
                r = Ok (FlowCreateEntry title data options) ->
                title = c.(TITLE) /\ data = None /\ options = None /\
                entry_title (_entry self') = c.(TITLE))).
  { intros st Ho He Hr ->. split; [exact Ho|]. split; [intros _; exact He|].
    intros t d o Hc. now destruct (Hr t d o). }
  assert (Hdone : forall m st,
            r = Ok (FlowCreateEntry c.(TITLE) None None) ->
            self' = {| _entry := async_update_entry c.(TITLE) m;
                       _options := _options self;
                       _all_config_data := st |} ->
            _options self' = _options self /\
            ((forall title data options,
                 r <> Ok (FlowCreateEntry title data options)) ->
             _entry self' = _entry self) /\
            (forall title data options,
                r = Ok (FlowCreateEntry title data options) ->
                title = c.(TITLE) /\ data = None /\ options = None /\
                entry_title (_entry self') = c.(TITLE))).
  { intros m st -> ->. split; [reflexivity|]. split.
    - intros Hr. now destruct (Hr c.(TITLE) None None).
    - intros t d o [= <- <- <-]. now repeat split. }
  intros [H|H].
  - unfold async_step_init in H. destruct user_input as [ui|].
    2:{ destruct (Hshow _ _ _ _ H) as [-> Hr]. now apply (Hkeep self). }
    unfold init_try in H.
    destruct (check_and_merge c (_options self) ui) as [[reason|m]|e].
    + injection H as <- <-. now apply (Hkeep self).
    + destruct (Py.truthy _).
      * destruct (async_step_dampen c _ None) as [r0 st] eqn:E.
        destruct (Hnone _ _ _ E) as [-> Hr0].
        destruct r0 as [r0|e].
        -- injection H as <- <-. now apply (Hkeep (drafted self m)).
        -- destruct (Hshow _ _ _ _ H) as [-> Hr].
           now apply (Hkeep (drafted self m)).
      * injection H as <- <-. now eapply Hdone.
    + destruct (Hshow _ _ _ _ H) as [-> Hr]. now apply (Hkeep self).
  - destruct user_input as [ui|].
    2:{ destruct (Hnone _ _ _ H) as [-> Hr]. now apply (Hkeep self). }
    rewrite dampen_submitted in H.
    destruct (extant_damp _ hours) as [extant|e].
    + destruct (assign_damp ui hours _) as [d [e|]].
      * injection H as <- <-.
        destruct (write_back_fields self d) as [He Ho].
        apply (Hkeep (write_back self d)); try assumption;
          [discriminate | reflexivity].
      * injection H as <- <-. now eapply Hdone.
    + injection H as <- <-. now apply (Hkeep self).
Qed.

Lemma assign_damp_frame user_input factors (d d' : dict) :
  assign_damp user_input factors d = (d', None) ->
  overwrites_only (map damp_key factors) d d'.
Proof.
  intros H. destruct (assign_damp_done _ _ _ _ H) as [Hin Hout].
  split; [exact Hout|]. intros k Hk.
  destruct (decide (k ∈ map damp_key factors)) as [Hk'|Hk'].
  - destruct (Hin k Hk') as [Hs ->]. exact Hs.
  - now rewrite (Hout k Hk').
Qed.

(** X11 ([async_step_dampen]).  A dampening step that ends the flow
    persists a record that differs from the dict it worked on (the draft
    of the main step, or the stored options) at most on the
    site-dampening flag and the 24 slots, and keeps every key of it; the
    draft, if there was one, is that persisted record afterwards. *)
Theorem dampen_step_frame (self : options_flow) (user_input : dict)
    (title : string) (data options : option dict) (self' : options_flow) :
  async_step_dampen c self (Some user_input)
    = (Ok (FlowCreateEntry title data options), self') ->
  overwrites_only (c.(SITE_DAMP) :: damp_keys) (working_copy self)
    (entry_options (_entry self')) /\
  _all_config_data self' =
    match _all_config_data self with
    | Some _ => Some (entry_options (_entry self'))
    | None => None
    end.
Proof.
  intros H. rewrite dampen_submitted in H.
  destruct (extant_damp _ hours); [|discriminate].
  destruct (assign_damp _ hours _) as [d [e|]] eqn:E; [discriminate|].
  injection H as _ _ _ <-. cbn [_entry _all_config_data entry_options
                                  async_update_entry].
  split.
  - apply overwrites_only_insert; [constructor|].
    eapply overwrites_only_mono; [|exact (assign_damp_frame _ _ _ _ E)].
    intros k Hk. apply elem_of_cons. right. exact Hk.
  - unfold write_back.
    destruct (_all_config_data self) eqn:Ed; [reflexivity | exact Ed].
Qed.

(** The loop stops at the first slot the submission lacks, with the
    earlier slots written. *)
Lemma assign_damp_stops user_input pre f post (d : dict) :
  Forall (fun f' => is_Some (user_input !! damp_key f')) pre ->
  user_input !! damp_key f = None ->
  exists d',
    assign_damp user_input (pre ++ f :: post)%list d
      = (d', Some (KeyError (damp_key f))) /\
    assign_damp user_input pre d = (d', None).
Proof.
  intros Hpre Hf. revert d.
  induction Hpre as [|f' pre [v Hv] _ IH]; intros d; simpl.
  - rewrite Hf. eauto.
  - rewrite Hv. apply IH.
Qed.

(** X12 ([async_step_dampen]).  When the submitted dampening form lacks
    the factor of some hour, the step shows the form again with the error
    [unknown] and writes nothing to the entry; without a draft the
    handler is unchanged, while a draft keeps the factors of the earlier
    hours, already written to it, and is otherwise as before. *)
Theorem dampen_failure_keeps_entry (self : options_flow)
    (user_input : dict) (pre : list nat) (f : nat) (post : list nat) :
  hours = (pre ++ f :: post)%list ->
  Forall (fun k => is_Some (working_copy self !! k)) damp_keys ->
  Forall (fun f' => is_Some (user_input !! damp_key f')) pre ->
  user_input !! damp_key f = None ->
  exists schema self',
    async_step_dampen c self (Some user_input)
      = (Ok (FlowForm "dampen" schema (Some ErrorUnknown)), self') /\
    _entry self' = _entry self /\
    _options self' = _options self /\
    (_all_config_data self = None -> self' = self) /\
    (forall draft, _all_config_data self = Some draft ->
       exists draft',
         _all_config_data self' = Some draft' /\
         overwrites_only (map damp_key pre) draft draft' /\
         Forall (fun f' => draft' !! damp_key f' = user_input !! damp_key f')
                pre).
Proof.
  intros Hhours Hbase Hpre Hf. rewrite dampen_submitted.
  destruct (extant_damp_total _ _ Hbase) as [extant ->].
  destruct (assign_damp_stops _ _ _ post (working_copy self) Hpre Hf)
    as (d' & Hstop & Hdone).
  rewrite Hhours, Hstop. eexists _, _. split; [reflexivity|].
  destruct (write_back_fields self d') as [He Ho].
  split; [exact He|]. split; [exact Ho|]. split.
  - intros Hnone. unfold write_back. now rewrite Hnone.
  - intros draft Hdraft. exists d'. split.
    + unfold write_back. now rewrite Hdraft.
    + unfold working_copy in Hdone. rewrite Hdraft in Hdone. split.
      * exact (assign_damp_frame _ _ _ _ Hdone).
      * apply Forall_forall. intros f' Hin.
        destruct (assign_damp_done _ _ _ _ Hdone) as [Hin' _].
        apply Hin'. apply list_elem_of_fmap. now exists f'.
Qed.

(** X13 ([async_step_dampen]).  When the working dict holds all 24
    slots, the first display is a form of 24 required fields, one per
    hour in order, each suggesting the current factor and none carrying a
    default, and the handler is unchanged; when a slot is missing the
    step raises [KeyError] for the first missing one, submission or
    not. *)
Theorem dampen_display (self : options_flow) :
  (Forall (fun k => is_Some (working_copy self !! k)) damp_keys ->
   exists schema,
     async_step_dampen c self None
       = (Ok (FlowForm "dampen" schema None), self) /\
     map f_key schema = damp_keys /\
     Forall (fun fld => f_suggested fld = working_copy self !! f_key fld /\
                        f_required fld = true /\ f_default fld = None /\
                        f_type fld = TUnitFloat) schema) /\
  (forall pre f post user_input,
      hours = (pre ++ f :: post)%list ->
      Forall (fun f' => is_Some (working_copy self !! damp_key f')) pre ->
      working_copy self !! damp_key f = None ->
      async_step_dampen c self user_input
        = (Raise (KeyError (damp_key f)), self)).
Proof.
  split.
  - intros Hbase. destruct (extant_damp_total _ _ Hbase) as [extant Hext].
    exists (dampen_form extant). split.
    + unfold async_step_dampen. fold (working_copy self). now rewrite Hext.
    + apply extant_damp_spec in Hext. split.
      * apply dampen_form_spec. exact (Forall2_length _ _ _ Hext).
      * now apply dampen_form_suggested.
  - intros pre f post user_input Hhours Hpre Hf.
    unfold async_step_dampen. fold (working_copy self).
    now rewrite Hhours, (extant_damp_missing _ _ _ post Hpre Hf).
Qed.

(** X14 ([async_step_init], [async_step_dampen]).  The two steps in
    sequence: a main form that passes every check with the per-hour flag
    ticked shows the dampening form and leaves the entry untouched; the
    submitted factors are then persisted on top of the record merged by
    the main step, with the site-dampening flag off, and the persisted
    record differs from the stored options only on names one of the two
    steps assigns. *)
Theorem two_step_flow (self : options_flow) (first second merged : dict) :
  check_and_merge c (_options self) first = Ok (Merged merged) ->
  Py.truthy (Py.get first c.(CONFIG_DAMP)) = true ->
  Forall (fun k => is_Some (merged !! k)) damp_keys ->
  Forall (fun k => is_Some (second !! k)) damp_keys ->
  exists schema self1 self2,
    async_step_init c self (Some first)
      = (Ok (FlowForm "dampen" schema None), self1) /\
    _entry self1 = _entry self /\
    async_step_dampen c self1 (Some second)
      = (Ok (FlowCreateEntry c.(TITLE) None None), self2) /\
    overwrites_only (c.(SITE_DAMP) :: damp_keys) merged
      (entry_options (_entry self2)) /\
    overwrites_only (c.(SITE_DAMP) :: damp_keys ++ written_keys c)
      (_options self) (entry_options (_entry self2)) /\
    entry_options (_entry self2) !! c.(SITE_DAMP) = Some (VBool false) /\
    (c.(SITE_DAMP) ∉ damp_keys ->
     Forall (fun k => entry_options (_entry self2) !! k = second !! k)
            damp_keys).
Proof.
  intros Hm Hflag Hslots Hsecond.
  destruct (extant_damp_total _ _ Hslots) as [extant Hext].
  exists (dampen_form extant), (drafted self merged).
  assert (H1 : async_step_init c self (Some first)
               = (Ok (FlowForm "dampen" (dampen_form extant) None),
                  drafted self merged))
    by (rewrite (init_to_dampen c _ _ _ Hm Hflag); now rewrite Hext).
  assert (Hw : working_copy (drafted self merged) = merged) by reflexivity.
  pose proof (dampen_submitted c (drafted self merged) second) as H2.
  rewrite Hw, Hext in H2.
  destruct (assign_damp_total second hours merged Hsecond) as [d Hd].
  rewrite Hd in H2. eexists. split; [exact H1|]. split; [reflexivity|].
  split; [exact H2|]. cbn [_entry entry_options async_update_entry].
  assert (Hframe : overwrites_only (c.(SITE_DAMP) :: damp_keys) merged
                     (<[c.(SITE_DAMP) := VBool false]> d)).
  { apply overwrites_only_insert; [constructor|].
    eapply overwrites_only_mono; [|exact (assign_damp_frame _ _ _ _ Hd)].
    intros k Hk. apply elem_of_cons. right. exact Hk. }
  split; [exact Hframe|]. split; [|split].
  - eapply overwrites_only_trans.
    + eapply overwrites_only_mono;
        [|exact (check_and_merge_frame c _ _ _ Hm)].
      intros k Hk. apply elem_of_cons. right. apply elem_of_app.
      right. exact Hk.
    + eapply overwrites_only_mono; [|exact Hframe].
      intros k Hk. apply elem_of_cons in Hk as [->|Hk];
        [apply elem_of_cons; now left|].
      apply elem_of_cons. right. apply elem_of_app. left. exact Hk.
  - apply lookup_insert_eq.
  - intros Hname. apply Forall_forall. intros k Hk.
    rewrite lookup_insert_ne by (intros <-; contradiction).
    destruct (assign_damp_done _ _ _ _ Hd) as [Hin _].
    now destruct (Hin k Hk).
Qed.

End FlowExtras.

(** ** The merged record *)

Section MergedExtras.
Import PyStr Vocabulary ExtraVocabulary PyStrFacts KeyFacts QuotaFacts
       LimitFacts LimitExtraFacts.

Variable c : names.

(** What a successful key validation returns. *)
Lemma key_success user_input k n :
  validate_api_key c user_input = Ok (k, n, None) ->
  exists raw,
    user_input !! c.(CONF_API_KEY) = Some (VStr raw) /\
    k = join "," (tokens raw) /\ n = Z.of_nat (length (tokens raw)) /\
    tokens k = tokens raw /\ NoDup (tokens raw) /\
    Forall (fun t => Regex.like_site_id t = false) (tokens raw).
Proof.
  intros H. destruct (validate_api_key_ok_inv c _ _ _ _ H) as [raw Hraw].
  exists raw. split; [exact Hraw|].
  rewrite (validate_api_key_unfold c _ _ Hraw) in H.
  destruct (key_loop (tokens raw) 0 (tokens raw)) eqn:E; [discriminate|].
  injection H as <- <-. apply key_loop_none in E as [Hs Hn].
  repeat split; try assumption. apply tokens_join, tokens_clean.
Qed.

(** What a successful quota validation returns. *)
Lemma quota_success user_input n q :
  validate_api_limit c user_input n = Ok (q, None) ->
  exists raw,
    user_input !! c.(API_QUOTA) = Some (VStr raw) /\
    q = join "," (tokens raw) /\ tokens q = tokens raw /\
    Forall valid_quota (tokens raw) /\
    Z.of_nat (length (tokens raw)) <= n.
Proof.
  intros H. destruct (validate_api_limit_ok_inv c _ _ _ _ H) as [raw Hraw].
  exists raw. split; [exact Hraw|].
  rewrite (validate_api_limit_unfold c _ _ _ Hraw) in H.
  destruct (quota_loop_cases (tokens raw))
    as [[Hl Hall]|[[Hl _]|[Hl _]]]; rewrite Hl in H; simpl in H;
    try discriminate.
  destruct (Z.ltb_spec n (Z.of_nat (length (tokens raw))));
    [discriminate|].
  injection H as <-. repeat split; try assumption.
  apply tokens_join, tokens_clean.
Qed.

Lemma hour_refused_inv hour :
  hour_sensor_refused hour = Ok false ->
  forall z, hour = VInt z -> 1 <= z <= 144.
Proof.
  intros H z ->. rewrite hour_stage in H. injection H as H.
  apply orb_false_iff in H as [H1 H2]. lia.
Qed.

(** The fields of a record the main step has merged, and the checks
    that the submission passed on the way. *)
Lemma merged_fields options user_input merged :
  check_and_merge c options user_input = Ok (Merged merged) ->
  NoDup (written_keys c) ->
  exists api_key api_count api_quota raw_limit hard_limit hour n,
    validate_api_key c user_input = Ok (api_key, api_count, None) /\
    validate_api_limit c user_input api_count = Ok (api_quota, None) /\
    hour_sensor_refused hour = Ok false /\
    user_input !! c.(HARD_LIMIT_API) = Some (VStr raw_limit) /\
    validate_hard_limit raw_limit api_count = Ok (inr hard_limit) /\
    merged !! c.(CONF_API_KEY) = Some (VStr api_key) /\
    merged !! c.(API_QUOTA) = Some (VStr api_quota) /\
    merged !! c.(CUSTOM_HOUR_SENSOR) = Some hour /\
    merged !! c.(HARD_LIMIT_API) = Some (VStr hard_limit) /\
    merged !! c.(AUTO_UPDATE) = Some (VInt n) /\
    Forall (fun k => is_Some (merged !! k))
      [ c.(KEY_ESTIMATE); c.(BRK_ESTIMATE); c.(BRK_ESTIMATE10);
        c.(BRK_ESTIMATE90); c.(BRK_HALFHOURLY); c.(BRK_HOURLY);
        c.(BRK_SITE); c.(BRK_SITE_DETAILED) ].
Proof.
  unfold check_and_merge. intros H Hnd.
  apply bind_inv in H as ([[api_key api_count] abort] & Hkey & H).
  destruct abort; [discriminate|].
  apply bind_inv in H as ([api_quota abort] & Hquota & H).
  destruct abort; [discriminate|].
  apply bind_inv in H as (hour & _ & H).
  apply bind_inv in H as (refused & Hhour & H).
  destruct refused; [discriminate|].
  apply bind_inv in H as (v & Hv & H).
  apply bind_inv in H as (raw_limit & Hraw & H).
  apply bind_inv in H as ([reason|hard_limit] & Hlimit & H); [discriminate|].
  apply bind_inv in H as (d & Hd & H). injection H as <-.
  destruct v; try discriminate Hraw. injection Hraw as ->.
  apply getitem_ok in Hv.
  exists api_key, api_count, api_quota, raw_limit, hard_limit, hour.
  change (written_keys c)
    with (c.(CONF_API_KEY) :: c.(API_QUOTA) :: c.(CUSTOM_HOUR_SENSOR)
            :: c.(HARD_LIMIT_API) :: copied_keys c) in Hnd.
  apply NoDup_cons in Hnd as [Hk Hnd]. apply NoDup_cons in Hnd as [Hq Hnd].
  apply NoDup_cons in Hnd as [Hh Hnd]. apply NoDup_cons in Hnd as [Hl Hnd].
  pose proof (copy_fields_frame c _ _ _ Hd) as [Hframe _].
  assert (Hkc : c.(CONF_API_KEY) ∉ copied_keys c)
    by (intros Hin; apply Hk; now do 3 right).
  assert (Hqc : c.(API_QUOTA) ∉ copied_keys c)
    by (intros Hin; apply Hq; now do 2 right).
  assert (Hhc : c.(CUSTOM_HOUR_SENSOR) ∉ copied_keys c)
    by (intros Hin; apply Hh; now right).
  unfold copy_fields in Hd.
  apply bind_inv in Hd as (d0 & _ & Hd).
  apply bind_inv in Hd as (v0 & _ & Hd).
  apply bind_inv in Hd as (n & _ & Hd).
  do 8 (apply bind_inv in Hd as (? & _ & Hd)).
  injection Hd as Hd. exists n.
  split; [exact Hkey|]. split; [exact Hquota|]. split; [exact Hhour|].
  split; [exact Hv|]. split; [exact Hlimit|].
  split; [|split; [|split; [|split; [|split]]]].
  - rewrite (Hframe _ Hkc).
    repeat (rewrite lookup_insert_ne
              by (intros Heq; apply Hk; rewrite <- Heq; repeat constructor)).
    apply lookup_insert_eq.
  - rewrite (Hframe _ Hqc).
    repeat (rewrite lookup_insert_ne
              by (intros Heq; apply Hq; rewrite <- Heq; repeat constructor)).
    apply lookup_insert_eq.
  - rewrite (Hframe _ Hhc).
    repeat (rewrite lookup_insert_ne
              by (intros Heq; apply Hh; rewrite <- Heq; repeat constructor)).
    apply lookup_insert_eq.
  - rewrite (Hframe _ Hl). apply lookup_insert_eq.
  - rewrite <- Hd. unfold copied_keys in Hnd.
    apply NoDup_cons in Hnd as [_ Hnd]. apply NoDup_cons in Hnd as [Ha _].
    repeat (rewrite lookup_insert_ne
              by (intros Heq; apply Ha; rewrite <- Heq; repeat constructor)).
    apply lookup_insert_eq.
  - rewrite <- Hd.
    repeat (apply Forall_cons; split;
            [repeat (apply lookup_insert_is_Some';
                     first [left; reflexivity | right])|]).
    apply Forall_nil_2.
Qed.

(** X15 ([async_step_init], merge).  Every record the main step merges
    satisfies the invariant of the options record: distinct keys, none
    shaped like a site identifier, every quota a numeral of at least one,
    no more quotas than keys, between one and key-count many hard limits,
    an hour sensor that passed the range check (between 1 and 144 when an
    integer), and an integer auto-update mode. *)
Theorem merged_record_invariant (options user_input merged : dict) :
  check_and_merge c options user_input = Ok (Merged merged) ->
  NoDup (written_keys c) ->
  exists api_key api_quota hard_limit hour n,
    merged !! c.(CONF_API_KEY) = Some (VStr api_key) /\
    merged !! c.(API_QUOTA) = Some (VStr api_quota) /\
    merged !! c.(HARD_LIMIT_API) = Some (VStr hard_limit) /\
    merged !! c.(CUSTOM_HOUR_SENSOR) = Some hour /\
    merged !! c.(AUTO_UPDATE) = Some (VInt n) /\
    NoDup (tokens api_key) /\
    Forall (fun k => Regex.like_site_id k = false) (tokens api_key) /\
    Forall valid_quota (tokens api_quota) /\
    (length (tokens api_quota) <= length (tokens api_key))%nat /\
    (1 <= length (split comma hard_limit) <= length (tokens api_key))%nat /\
    hour_sensor_refused hour = Ok false /\
    (forall z, hour = VInt z -> 1 <= z <= 144).
Proof.
  intros H Hnd.
  destruct (merged_fields _ _ _ H Hnd)
    as (api_key & api_count & api_quota & raw_limit & hard_limit & hour & n
        & Hvk & Hvq & Hvh & _ & Hvl & Hk & Hq & Hh & Hl & Ha & _).
  destruct (key_success _ _ _ Hvk) as (raw_keys & _ & _ & Hn & Htk & Hndk & Hs).
  destruct (quota_success _ _ _ Hvq) as (raw_quota & _ & _ & Htq & Hq' & Hlq).
  destruct (limit_success _ _ _ Hvl) as (_ & Hsplit & _ & Hll).
  exists api_key, api_quota, hard_limit, hour, n.
  repeat (split; [assumption|]).
  rewrite Htk, Htq, Hsplit, length_map.
  split; [exact Hndk|]. split; [exact Hs|]. split; [exact Hq'|].
  split; [lia|]. split; [|split; [exact Hvh|]].
  - pose proof (split_not_nil comma raw_limit).
    destruct (split comma raw_limit); [contradiction | simpl in *; lia].
  - now apply hour_refused_inv.
Qed.

End MergedExtras.

(** ** Exceptions in the main step *)

Section ExceptionExtras.
Import PyStr Vocabulary ExtraVocabulary.

Variable c : names.

(** X16 ([async_step_init], [except] clause).  An exception inside the
    validation block of the main step does not leave the step: the main
    form is shown again with the exception as its error and the handler
    unchanged.  After key and quota validation passed, a submission
    without the hour sensor, with a string for it, or without the
    hard-limit field raises such an exception. *)
Theorem init_exception_reshows_form (self : options_flow)
    (user_input : dict) (schema : list field) :
  init_form c (_options self) = Ok schema ->
  (forall e,
      check_and_merge c (_options self) user_input = Raise e ->
      async_step_init c self (Some user_input)
        = (Ok (FlowForm "init" schema (Some (ErrorText e))), self)) /\
  (forall api_key api_count api_quota,
      validate_api_key c user_input = Ok (api_key, api_count, None) ->
      validate_api_limit c user_input api_count = Ok (api_quota, None) ->
      (user_input !! c.(CUSTOM_HOUR_SENSOR) = None ->
       check_and_merge c (_options self) user_input
         = Raise (KeyError c.(CUSTOM_HOUR_SENSOR))) /\
      (forall s, user_input !! c.(CUSTOM_HOUR_SENSOR) = Some (VStr s) ->
       check_and_merge c (_options self) user_input = Raise TypeError) /\
      (forall hour, user_input !! c.(CUSTOM_HOUR_SENSOR) = Some (VInt hour) ->
       1 <= hour <= 144 ->
       user_input !! c.(HARD_LIMIT_API) = None ->
       check_and_merge c (_options self) user_input
         = Raise (KeyError c.(HARD_LIMIT_API)))).
Proof.
  intros Hform. split.
  - intros e He. unfold async_step_init, init_try, init_show.
    now rewrite He, Hform.
  - intros api_key api_count api_quota Hk Hq.
    assert (Hstart : forall k : checked -> res checked,
      check_and_merge c (_options self) user_input =
      (custom_hour_sensor ← Py.getitem user_input c.(CUSTOM_HOUR_SENSOR);
       refused ← hour_sensor_refused custom_hour_sensor;
       if (refused : bool) then Ok (Rejected Reason.hour_range)
       else
         v ← Py.getitem user_input c.(HARD_LIMIT_API);
         hard_limit ← Py.as_str v;
         r ← validate_hard_limit hard_limit api_count;
         match r with
         | inl reason => Ok (Rejected reason)
         | inr hard_limit =>
             d ← copy_fields c user_input
                   (<[c.(HARD_LIMIT_API) := VStr hard_limit]>
                      (<[c.(CUSTOM_HOUR_SENSOR) := custom_hour_sensor]>
                         (<[c.(API_QUOTA) := VStr api_quota]>
                            (<[c.(CONF_API_KEY) := VStr api_key]>
                               (_options self)))));
             Ok (Merged d)
         end)).
    { intros _. unfold check_and_merge. now rewrite Hk, bind_ok, Hq, bind_ok. }
    specialize (Hstart (fun x => Ok x)). rewrite Hstart.
    split; [|split].
    + intros Hnone. unfold Py.getitem. now rewrite Hnone.
    + intros s Hs. now rewrite (getitem_some _ _ _ Hs).
    + intros hour Hh Hrange Hnone.
      rewrite (getitem_some _ _ _ Hh), bind_ok, hour_stage, bind_ok.
      replace ((hour <? 1) || (144 <? hour)) with false
        by (symmetry; apply orb_false_iff; split; lia).
      unfold Py.getitem. now rewrite Hnone.
Qed.

End ExceptionExtras.


(** ** Integers printed and read back *)

Module IntTextFacts.
Import PyStr PyStrFacts QuotaFacts LimitFacts.

Lemma digits_value_uint_acc d acc :
  digits_value (Npos acc) (NilEmpty.string_of_uint d)
  = Npos (Pos.of_uint_acc d acc).
Proof.
  revert acc. induction d; intros acc; simpl; [reflexivity|..];
    match goal with
    | |- digits_value ?a _ = N.pos (Pos.of_uint_acc _ ?p) =>
        replace a with (N.pos p) by lia
    end; apply IHd.
Qed.

Lemma digits_value_uint d :
  digits_value 0 (NilEmpty.string_of_uint d) = Pos.of_uint d.
Proof.
  induction d; simpl; try exact IHd; try reflexivity;
    apply digits_value_uint_acc.
Qed.

Lemma digits_value_of_N n : digits_value 0 (of_N n) = n.
Proof.
  unfold of_N, NilZero.string_of_uint.
  rewrite <- (DecimalN.Unsigned.of_to n) at 2. unfold N.of_uint.
  destruct (N.to_uint n) eqn:E; try reflexivity;
    rewrite <- E; rewrite E; apply digits_value_uint.
Qed.

(** [int(str(n)) == n]. *)
Lemma int_str (n : Z) : Py.int (VStr (str_of_int n)) = Ok n.
Proof.
  assert (Hnat : forall m : N, Py.int_of_str (of_N m) = Ok (Z.of_N m)).
  { intros m. rewrite int_of_str_numeric by apply of_N_isdigit.
    now rewrite digits_value_of_N. }
  destruct n as [|p|p].
  - reflexivity.
  - simpl. rewrite Hnat. f_equal.
  - change (str_of_int (Z.neg p)) with (String "-" (of_N (N.pos p))).
    cbn [Py.int]. pose proof (of_N_isdigit (N.pos p)) as Hd. unfold isdigit in Hd.
    apply andb_true_iff in Hd as [_ Hd].
    unfold Py.int_of_str.
    replace (strip (String "-" (of_N (N.pos p))))
      with (String "-" (of_N (N.pos p))).
    2:{ unfold strip. cbn [lstrip]. change (is_space "-") with false.
        cbn [rstrip]. rewrite (rstrip_digits _ Hd).
        now destruct (of_N (N.pos p)). }
    change (Ascii.eqb "-" "+") with false.
    change (Ascii.eqb "-" "-") with true. cbv iota.
    specialize (Hnat (N.pos p)). unfold Py.int_of_str in Hnat.
    rewrite (strip_digits _ Hd) in Hnat.
    destruct (of_N (N.pos p)) as [|a r] eqn:E.
    + pose proof (of_N_isdigit (N.pos p)) as Hx. rewrite E in Hx.
      discriminate Hx.
    + pose proof Hd as Hd'. simpl in Hd'.
      apply andb_true_iff in Hd' as [Ha _].
      destruct (digit_plain a Ha) as (_ & Hp & Hm & _).
      rewrite Hp, Hm in Hnat. rewrite Hnat. reflexivity.
Qed.

End IntTextFacts.

(** ** Rounding to binary64 *)

Module RoundingFacts.
Import PyFloat ExtraVocabulary.

(** The rounded quotient is within half a unit of the exact one. *)
Lemma div_half_even_bound n d :
  0 <= n -> 0 < d ->
  0 <= div_half_even n d /\
  2 * (div_half_even n d * d) <= 2 * n + d /\
  2 * n <= 2 * (div_half_even n d * d) + d.
Proof.
  intros Hn Hd. unfold div_half_even.
  pose proof (Z.div_mod n d ltac:(lia)) as Hdm.
  pose proof (Z.mod_pos_bound n d Hd) as Hm.
  assert (0 <= n / d) by (apply Z.div_pos; lia).
  destruct (Z.compare_spec (2 * (n mod d)) d) as [He|Hl|Hg];
    [destruct (Z.even (n / d))|..]; nia.
Qed.

(** An integer strictly within half a unit of the exact quotient is the
    rounded quotient. *)
Lemma div_half_even_unique n d q :
  0 <= n -> 0 < d ->
  2 * (q * d) < 2 * n + d -> 2 * n < 2 * (q * d) + d ->
  div_half_even n d = q.
Proof.
  intros Hn Hd H1 H2. unfold div_half_even.
  pose proof (Z.div_mod n d ltac:(lia)) as Hdm.
  pose proof (Z.mod_pos_bound n d Hd) as Hm.
  destruct (Z.compare_spec (2 * (n mod d)) d) as [He|Hl|Hg];
    [destruct (Z.even (n / d))|..]; nia.
Qed.

(** [ilog2_ratio n d] is the binade of [n / d]: with [l] its value,
    [2^l <= n / d < 2^(l+1)], written without fractions. *)
Lemma ilog2_ratio_spec n d :
  0 < n -> 0 < d ->
  let l := ilog2_ratio n d in
  d * 2 ^ Z.max l 0 <= n * 2 ^ Z.max (- l) 0 /\
  n * 2 ^ Z.max (- l) 0 < 2 * (d * 2 ^ Z.max l 0).
Proof.
  intros Hn Hd. unfold ilog2_ratio.
  destruct (Z.log2_spec n Hn) as [Ha1 Ha2].
  destruct (Z.log2_spec d Hd) as [Hb1 Hb2].
  pose proof (Z.log2_nonneg n) as Ha0. pose proof (Z.log2_nonneg d) as Hb0.
  set (a := Z.log2 n) in *. set (b := Z.log2 d) in *.
  rewrite Z.pow_succ_r in Ha2, Hb2 by assumption.
  destruct (Z.leb_spec 0 (a - b)) as [Hl|Hl].
  - assert (Hab : 2 ^ a = 2 ^ b * 2 ^ (a - b))
      by (rewrite <- Z.pow_add_r by lia; f_equal; lia).
    assert (Hp : 0 < 2 ^ (a - b)) by (apply Z.pow_pos_nonneg; lia).
    destruct (Z.ltb_spec n (d * 2 ^ (a - b))) as [Hlt|Hge]; cbv zeta.
    + destruct (Z.eq_dec (a - b) 0) as [E0|E0].
      * rewrite E0 in *. change (Z.max (0 - 1) 0) with 0.
        change (Z.max (- (0 - 1)) 0) with 1. change (2 ^ 0) with 1 in *.
        change (2 ^ 1) with 2. lia.
      * rewrite (Z.max_l (a - b - 1) 0), (Z.max_r (- (a - b - 1)) 0) by lia.
        change (2 ^ 0) with 1.
        assert (Hs : 2 ^ (a - b) = 2 * 2 ^ (a - b - 1))
          by (rewrite <- Z.pow_succ_r by lia; f_equal; lia).
        assert (0 < 2 ^ (a - b - 1)) by (apply Z.pow_pos_nonneg; lia).
        nia.
    + rewrite (Z.max_l (a - b) 0), (Z.max_r (- (a - b)) 0) by lia.
      change (2 ^ 0) with 1. nia.
  - assert (Hab : 2 ^ b = 2 ^ a * 2 ^ (- (a - b)))
      by (rewrite <- Z.pow_add_r by lia; f_equal; lia).
    assert (Hp : 0 < 2 ^ (- (a - b))) by (apply Z.pow_pos_nonneg; lia).
    destruct (Z.ltb_spec (n * 2 ^ (- (a - b))) d) as [Hlt|Hge]; cbv zeta.
    + rewrite (Z.max_r (a - b - 1) 0), (Z.max_l (- (a - b - 1)) 0) by lia.
      change (2 ^ 0) with 1.
      assert (Hs : 2 ^ (- (a - b - 1)) = 2 * 2 ^ (- (a - b)))
        by (rewrite <- Z.pow_succ_r by lia; f_equal; lia).
      nia.
    + rewrite (Z.max_r (a - b) 0), (Z.max_l (- (a - b)) 0) by lia.
      change (2 ^ 0) with 1. nia.
Qed.

(** Conversely a non-negative binade is found. *)
Lemma ilog2_ratio_complete n d k :
  0 < n -> 0 < d -> 0 <= k ->
  d * 2 ^ k <= n -> n < d * 2 ^ (k + 1) ->
  ilog2_ratio n d = k.
Proof.
  intros Hn Hd Hk Hlo Hhi. unfold ilog2_ratio.
  destruct (Z.log2_spec n Hn) as [Ha1 Ha2].
  destruct (Z.log2_spec d Hd) as [Hb1 Hb2].
  pose proof (Z.log2_nonneg n) as Ha0. pose proof (Z.log2_nonneg d) as Hb0.
  set (a := Z.log2 n) in *. set (b := Z.log2 d) in *.
  assert (Hpk : 0 < 2 ^ k) by (apply Z.pow_pos_nonneg; lia).
  assert (Hge : k <= a - b).
  { assert (2 ^ (b + k) < 2 ^ Z.succ a).
    { rewrite Z.pow_add_r by lia. nia. }
    apply Z.pow_lt_mono_r_iff in H; lia. }
  assert (Hle : a - b <= k + 1).
  { assert (2 ^ a < 2 ^ (Z.succ b + (k + 1))).
    { rewrite Z.pow_add_r by lia.
      assert (0 < 2 ^ (k + 1)) by (apply Z.pow_pos_nonneg; lia). nia. }
    apply Z.pow_lt_mono_r_iff in H; lia. }
  destruct (Z.leb_spec 0 (a - b)) as [_|]; [|lia].
  destruct (Z.eq_dec (a - b) k) as [E|E].
  - rewrite E. destruct (Z.ltb_spec n (d * 2 ^ k)); lia.
  - assert (E' : a - b = k + 1) by lia. rewrite E'.
    destruct (Z.ltb_spec n (d * 2 ^ (k + 1))); lia.
Qed.

(** What [of_ratio] returns for a positive ratio is a binary64 number
    in canonical form. *)
Lemma of_ratio_canonical n d s m e :
  0 < n -> 0 < d ->
  of_ratio n d = S754_finite s m e ->
  Z.pos m < 2 ^ 53 /\ (2 ^ 52 <= Z.pos m \/ e = -1074) /\
  -1074 <= e <= 971.
Proof.
  intros Hn Hd. unfold of_ratio.
  destruct (Z.eqb_spec n 0) as [|_]; [lia|].
  pose proof (ilog2_ratio_spec n d Hn Hd) as Hspec. cbv zeta in Hspec.
  set (l := ilog2_ratio n d) in *.
  set (e0 := Z.max (l - 52) (-1074)).
  set (m0 := if 0 <=? e0 then div_half_even n (d * 2 ^ e0)
             else div_half_even (n * 2 ^ (- e0)) d).
  assert (Hm0 : 0 <= m0 <= 2 ^ 53 /\ (e0 = l - 52 -> 2 ^ 52 <= m0)).
  { subst m0. destruct (Z.leb_spec 0 e0) as [He|He].
    - assert (El : e0 = l - 52) by lia.
      rewrite (Z.max_l l 0), (Z.max_r (- l) 0) in Hspec by lia.
      change (2 ^ 0) with 1 in Hspec.
      assert (Hp : 2 ^ l = 2 ^ 52 * 2 ^ e0)
        by (rewrite <- Z.pow_add_r by lia; f_equal; lia).
      assert (Hpe : 0 < 2 ^ e0) by (apply Z.pow_pos_nonneg; lia).
      assert (HD : 0 < d * 2 ^ e0) by nia.
      destruct (div_half_even_bound n (d * 2 ^ e0) ltac:(lia) HD)
        as (Hq0 & Hq1 & Hq2).
      set (q := div_half_even n (d * 2 ^ e0)) in *.
      set (D := d * 2 ^ e0) in *.
      assert (Hn1 : 2 ^ 52 * D <= n) by (subst D; nia).
      assert (Hn2 : n < 2 ^ 53 * D) by (subst D; nia).
      change (2 ^ 52) with 4503599627370496 in *.
      change (2 ^ 53) with 9007199254740992 in *.
      split; [split; [exact Hq0 | nia] | intros _; nia].
    - assert (Hpe : 0 < 2 ^ (- e0)) by (apply Z.pow_pos_nonneg; lia).
      destruct (div_half_even_bound (n * 2 ^ (- e0)) d ltac:(nia) Hd)
        as (Hq0 & Hq1 & Hq2).
      set (q := div_half_even (n * 2 ^ (- e0)) d) in *.
      set (N := n * 2 ^ (- e0)) in *.
      assert (Hup : N < 2 ^ 53 * d).
      { subst N. destruct (Z.le_gt_cases 0 l) as [Hl|Hl].
        - rewrite (Z.max_l l 0), (Z.max_r (- l) 0) in Hspec by lia.
          change (2 ^ 0) with 1 in Hspec.
          assert (El : e0 = l - 52) by lia.
          assert (Hp : 2 ^ 52 = 2 ^ l * 2 ^ (- e0))
            by (rewrite <- Z.pow_add_r by lia; f_equal; lia).
          change (2 ^ 53) with (2 * 2 ^ 52). rewrite Hp.
          assert (0 < 2 ^ l) by (apply Z.pow_pos_nonneg; lia). nia.
        - rewrite (Z.max_r l 0), (Z.max_l (- l) 0) in Hspec by lia.
          change (2 ^ 0) with 1 in Hspec.
          destruct (Z.le_gt_cases (- l) (- e0)) as [Hc|Hc].
          + assert (Hp : 2 ^ (- e0) = 2 ^ (- l) * 2 ^ (- e0 + l))
              by (rewrite <- Z.pow_add_r by lia; f_equal; lia).
            assert (Hs : 2 ^ (- e0 + l) <= 2 ^ 52)
              by (apply Z.pow_le_mono_r; lia).
            assert (0 < 2 ^ (- e0 + l)) by (apply Z.pow_pos_nonneg; lia).
            assert (0 < 2 ^ (- l)) by (apply Z.pow_pos_nonneg; lia).
            rewrite Hp. change (2 ^ 53) with (2 * 2 ^ 52). nia.
          + assert (Hs : 2 ^ (- e0) <= 2 ^ (- l))
              by (apply Z.pow_le_mono_r; lia).
            change (2 ^ 53) with 9007199254740992. nia. }
      change (2 ^ 53) with 9007199254740992 in *.
      split; [split; [exact Hq0 | nia]|]. intros El.
      assert (Hlo : 2 ^ 52 * d <= N).
      { subst N. destruct (Z.le_gt_cases 0 l) as [Hl|Hl].
        - rewrite (Z.max_l l 0), (Z.max_r (- l) 0) in Hspec by lia.
          change (2 ^ 0) with 1 in Hspec.
          assert (Hp : 2 ^ 52 = 2 ^ l * 2 ^ (- e0))
            by (rewrite <- Z.pow_add_r by lia; f_equal; lia).
          rewrite Hp.
          assert (0 < 2 ^ l) by (apply Z.pow_pos_nonneg; lia). nia.
        - rewrite (Z.max_r l 0), (Z.max_l (- l) 0) in Hspec by lia.
          change (2 ^ 0) with 1 in Hspec.
          assert (Hp : 2 ^ (- e0) = 2 ^ (- l) * 2 ^ 52)
            by (rewrite <- Z.pow_add_r by lia; f_equal; lia).
          rewrite Hp. nia. }
      change (2 ^ 52) with 4503599627370496 in *. nia. }
  destruct Hm0 as [[Hm00 Hm01] Hm02].
  assert (He0 : -1074 <= e0) by lia.
  destruct (Z.eqb_spec m0 (2 ^ 53)) as [E|E].
  - destruct (Z.ltb_spec 971 (e0 + 1)); [discriminate|].
    change (2 ^ 52) with 4503599627370496.
    intros [= _ <- <-]. change (2 ^ 53) with 9007199254740992. lia.
  - destruct (Z.ltb_spec 971 e0); [discriminate|].
    destruct m0 as [|p|p]; try discriminate.
    intros [= _ <- <-]. split; [lia|]. split; [|lia].
    destruct (Z.eq_dec e0 (l - 52)) as [El|El]; [left; auto | right; lia].
Qed.

(** With at most three binary fraction digits, the text read back is
    the number itself. *)
Lemma reread_exact m e T :
  -3 <= e < 0 -> 2 ^ 52 <= Z.pos m -> Z.pos m < 2 ^ 53 ->
  2 * (T * 2 ^ (- e)) <= 2 * (Z.pos m * 10) + 2 ^ (- e) ->
  2 * (Z.pos m * 10) <= 2 * (T * 2 ^ (- e)) + 2 ^ (- e) ->
  of_ratio T 10 = S754_finite false m e.
Proof.
  intros He Hm1 Hm2 HT1 HT2.
  change (2 ^ 52) with 4503599627370496 in Hm1.
  change (2 ^ 53) with 9007199254740992 in Hm2.
  assert (HK : 2 ^ (52 + e) * 2 ^ (- e) = 4503599627370496).
  { rewrite <- Z.pow_add_r by lia. replace (52 + e + - e) with 52 by lia.
    reflexivity. }
  assert (HK1 : 2 ^ (52 + e + 1) = 2 * 2 ^ (52 + e)).
  { replace (52 + e + 1) with (Z.succ (52 + e)) by lia.
    apply Z.pow_succ_r. lia. }
  assert (HD : 2 ^ (- e) = 2 \/ 2 ^ (- e) = 4 \/ 2 ^ (- e) = 8).
  { assert (Ecase : e = -1 \/ e = -2 \/ e = -3) by lia.
    destruct Ecase as [-> | [-> | ->]]; auto. }
  remember (2 ^ (- e)) as D eqn:ED.
  remember (2 ^ (52 + e)) as K eqn:EK.
  unfold of_ratio.
  destruct (Z.eqb_spec T 0) as [E0|_].
  { exfalso. destruct HD as [-> | [-> | ->]]; lia. }
  assert (Hl : ilog2_ratio T 10 = 52 + e).
  { apply ilog2_ratio_complete; try lia; rewrite <- ?EK, ?HK1, <- ?EK;
      destruct HD as [-> | [-> | ->]]; lia. }
  rewrite Hl. replace (Z.max (52 + e - 52) (-1074)) with e by lia.
  destruct (Z.leb_spec 0 e) as [|_]; [lia|].
  rewrite <- ED.
  rewrite (div_half_even_unique (T * D) 10 (Z.pos m))
    by (destruct HD as [-> | [-> | ->]]; lia).
  destruct (Z.eqb_spec (Z.pos m) (2 ^ 53)) as [E|_];
    [change (2 ^ 53) with 9007199254740992 in E; lia|].
  destruct (Z.ltb_spec 971 e); [lia | reflexivity].
Qed.

(** Reading back the printed tenths of a canonical number gives a
    finite number that prints the same tenths. *)
Lemma tenths_reread m e :
  Z.pos m < 2 ^ 53 -> 2 ^ 52 <= Z.pos m \/ e = -1074 ->
  -1074 <= e <= 971 ->
  let T := tenths (S754_finite false m e) in
  0 <= T /\
  is_finite (of_ratio T 10) = true /\
  tenths (of_ratio T 10) = T.
Proof.
  intros Hm1 Hm2 He. cbv zeta.
  change (2 ^ 53) with 9007199254740992 in Hm1.
  change (2 ^ 52) with 4503599627370496 in Hm2.
  destruct (Z.le_gt_cases 0 e) as [Hpos|Hneg].
  - (* an integer: the text is exact *)
    assert (HT : tenths (S754_finite false m e) = Z.pos m * 2 ^ e * 10).
    { unfold tenths. destruct (Z.leb_spec 0 e); [reflexivity | lia]. }
    rewrite HT. set (T := Z.pos m * 2 ^ e * 10).
    assert (Hpe : 0 < 2 ^ e) by (apply Z.pow_pos_nonneg; lia).
    assert (Hm52 : 4503599627370496 <= Z.pos m) by lia.
    assert (Hme : 0 < Z.pos m * 2 ^ e) by (apply Z.mul_pos_pos; lia).
    assert (Hme1 : 4503599627370496 * 2 ^ e <= Z.pos m * 2 ^ e)
      by (apply Z.mul_le_mono_nonneg_r; lia).
    assert (Hme2 : Z.pos m * 2 ^ e < 9007199254740992 * 2 ^ e)
      by (apply Z.mul_lt_mono_pos_r; lia).
    assert (HTpos : 0 < T) by (subst T; lia).
    assert (Hback : of_ratio T 10 = S754_finite false m e).
    { unfold of_ratio. destruct (Z.eqb_spec T 0) as [E|_]; [lia|].
      assert (Hl : ilog2_ratio T 10 = 52 + e).
      { apply ilog2_ratio_complete; try lia.
        - rewrite Z.pow_add_r by lia.
          change (2 ^ 52) with 4503599627370496. subst T. lia.
        - replace (52 + e + 1) with (53 + e) by lia.
          rewrite Z.pow_add_r by lia.
          change (2 ^ 53) with 9007199254740992. subst T. lia. }
      rewrite Hl. replace (Z.max (52 + e - 52) (-1074)) with e by lia.
      destruct (Z.leb_spec 0 e) as [_|]; [|lia].
      rewrite (div_half_even_unique T (10 * 2 ^ e) (Z.pos m))
        by (subst T; lia).
      destruct (Z.eqb_spec (Z.pos m) (2 ^ 53)) as [E|_];
        [change (2 ^ 53) with 9007199254740992 in E; lia|].
      destruct (Z.ltb_spec 971 e); [lia | reflexivity]. }
    rewrite Hback. split; [lia|]. split; [reflexivity | exact HT].
  - assert (HT : tenths (S754_finite false m e)
                 = div_half_even (Z.pos m * 10) (2 ^ (- e))).
    { unfold tenths. destruct (Z.leb_spec 0 e); [lia | reflexivity]. }
    rewrite HT.
    assert (HD : 0 < 2 ^ (- e)) by (apply Z.pow_pos_nonneg; lia).
    destruct (div_half_even_bound (Z.pos m * 10) (2 ^ (- e)) ltac:(lia) HD)
      as (HT0 & HT1 & HT2).
    set (T := div_half_even (Z.pos m * 10) (2 ^ (- e))) in *.
    split; [exact HT0|].
    destruct (Z.eq_dec T 0) as [E0|E0]; [rewrite E0; split; reflexivity|].
    destruct (Z.le_gt_cases (-3) e) as [Hhi|Hlo].
    + (* few binary fraction digits: the same number comes back *)
      assert (Hback : of_ratio T 10 = S754_finite false m e).
        by (apply reread_exact; lia).
      rewrite Hback. split; [reflexivity | exact HT].
    + (* at least four binary fraction digits: the error of reading the
         text back is below half a tenth *)
      assert (HP16 : 16 <= 2 ^ (- e)).
      { change 16 with (2 ^ 4). apply Z.pow_le_mono_r; lia. }
      assert (HTlt : T < 10 * 2 ^ 49).
      { change (2 ^ 49) with 562949953421312.
        assert ((2 * T - 1) * 16 <= (2 * T - 1) * 2 ^ (- e))
          by (apply Z.mul_le_mono_nonneg_l; lia).
        nia. }
      assert (Hn : 0 < T) by lia.
      pose proof (ilog2_ratio_spec T 10 Hn ltac:(lia)) as Hspec.
      cbv zeta in Hspec. unfold of_ratio.
      destruct (Z.eqb_spec T 0) as [|_]; [lia|].
      set (l := ilog2_ratio T 10) in *.
      assert (Hl : l <= 48).
      { destruct (Z.le_gt_cases l 48) as [|Hbig]; [assumption|].
        rewrite (Z.max_l l 0), (Z.max_r (- l) 0) in Hspec by lia.
        change (2 ^ 0) with 1 in Hspec.
        assert (2 ^ 49 <= 2 ^ l) by (apply Z.pow_le_mono_r; lia). lia. }
      set (e0 := Z.max (l - 52) (-1074)).
      assert (He0 : -1074 <= e0 <= -4) by lia.
      destruct (Z.leb_spec 0 e0) as [|_]; [lia|].
      assert (HQ16 : 16 <= 2 ^ (- e0)).
      { change 16 with (2 ^ 4). apply Z.pow_le_mono_r; lia. }
      destruct (div_half_even_bound (T * 2 ^ (- e0)) 10 ltac:(nia)
                  ltac:(lia)) as (Hq0 & Hq1 & Hq2).
      set (m0 := div_half_even (T * 2 ^ (- e0)) 10) in *.
      assert (Hm0 : 0 < m0) by nia.
      destruct (Z.eqb_spec m0 (2 ^ 53)) as [E|E].
      * destruct (Z.ltb_spec 971 (e0 + 1)); [lia|].
        change (2 ^ 52) with 4503599627370496.
        split; [reflexivity|]. unfold tenths.
        destruct (Z.leb_spec 0 (e0 + 1)); [lia|].
        assert (Hhalf : 2 ^ (- e0) = 2 * 2 ^ (- (e0 + 1))).
        { rewrite <- Z.pow_succ_r by lia. f_equal. lia. }
        change (2 ^ 53) with 9007199254740992 in E.
        apply div_half_even_unique; try lia; nia.
      * destruct (Z.ltb_spec 971 e0); [lia|].
        destruct m0 as [|p|p] eqn:Ep; try lia.
        split; [reflexivity|]. unfold tenths.
        destruct (Z.leb_spec 0 e0); [lia|].
        apply div_half_even_unique; try lia; nia.
Qed.

End RoundingFacts.

(** ** The one-decimal text read back *)

Module TenthsFacts.
Import PyStr PyFloat Vocabulary ExtraVocabulary PyStrFacts QuotaFacts LimitFacts
       RoundingFacts.

Lemma digits_value_app acc s1 s2 :
  digits_value acc (s1 ++ s2) = digits_value (digits_value acc s1) s2.
Proof. revert acc. induction s1 as [|a s1 IH]; intros acc; simpl; auto. Qed.

Lemma digits_value_acc acc s :
  all_digits s = true ->
  digits_value acc s
  = (acc * 10 ^ N.of_nat (String.length s) + digits_value 0 s)%N.
Proof.
  revert acc. induction s as [|a s IH]; intros acc H.
  - simpl. lia.
  - simpl in H. apply andb_true_iff in H as [_ H].
    cbn [digits_value String.length].
    rewrite (IH (10 * acc + (N_of_ascii a - 48))%N H),
      (IH (10 * 0 + (N_of_ascii a - 48))%N H).
    rewrite Nat2N.inj_succ, N.pow_succ_r'. lia.
Qed.

Lemma all_digits_app s1 s2 :
  all_digits (s1 ++ s2) = all_digits s1 && all_digits s2.
Proof.
  induction s1 as [|a s1 IH]; simpl; [reflexivity|].
  now rewrite IH, andb_assoc.
Qed.

Lemma remove_first_digits i f :
  all_digits i = true ->
  remove_first dot (i ++ String dot f) = i ++ f.
Proof.
  induction i as [|a i IH]; simpl.
  - reflexivity.
  - intros H. apply andb_true_iff in H as [Ha Hi].
    destruct (digit_plain a Ha) as (_ & _ & _ & _ & ->).
    now rewrite (IH Hi).
Qed.

Lemma rstrip_app s1 s2 :
  s2 <> "" -> rstrip s2 = s2 -> rstrip (s1 ++ s2) = s1 ++ s2.
Proof.
  intros Hne Hs. induction s1 as [|a s1 IH]; [exact Hs|].
  change (String a s1 ++ s2) with (String a (s1 ++ s2)).
  cbn [rstrip]. rewrite IH. destruct (s1 ++ s2) eqn:E; [|reflexivity].
  destruct s1; simpl in E; [contradiction | discriminate].
Qed.

Lemma fmt_1f_tenths val :
  is_finite val = true ->
  match val with
  | S754_zero s | S754_finite s _ _ => s = false
  | _ => True
  end ->
  fmt_1f val = one_decimal (tenths val).
Proof.
  destruct val as [s|s| |s m e]; try discriminate; intros _ ->; reflexivity.
Qed.

Lemma one_decimal_parts T :
  0 <= T ->
  all_digits (of_N (Z.to_N (T / 10))) = true /\
  all_digits (of_N (Z.to_N (T mod 10))) = true /\
  of_N (Z.to_N (T / 10)) <> "" /\ of_N (Z.to_N (T mod 10)) <> "" /\
  String.length (of_N (Z.to_N (T mod 10))) = 1%nat.
Proof.
  intros HT.
  pose proof (of_N_isdigit (Z.to_N (T / 10))) as Hi.
  destruct (of_N_one_digit (T mod 10)) as [Hf Hl];
    [apply Z.mod_pos_bound; lia|].
  unfold isdigit in Hi, Hf.
  apply andb_true_iff in Hi as [Hi1 Hi2], Hf as [Hf1 Hf2].
  repeat split; try assumption.
  - intros E. now rewrite E in Hi1.
  - intros E. now rewrite E in Hf1.
Qed.

Lemma one_decimal_strip T : 0 <= T -> strip (one_decimal T) = one_decimal T.
Proof.
  intros HT. destruct (one_decimal_parts T HT) as (Hi & Hf & Hin & Hfn & _).
  unfold strip, one_decimal.
  assert (Hl : lstrip (of_N (Z.to_N (T / 10))
                         ++ String dot (of_N (Z.to_N (T mod 10))))
               = of_N (Z.to_N (T / 10))
                   ++ String dot (of_N (Z.to_N (T mod 10)))).
  { destruct (of_N (Z.to_N (T / 10))) as [|a r]; [contradiction|].
    simpl in Hi. apply andb_true_iff in Hi as [Ha _].
    simpl. now destruct (digit_plain a Ha) as [-> _]. }
  rewrite Hl. apply rstrip_app; [discriminate|].
  cbn [rstrip]. rewrite (rstrip_digits _ Hf).
  destruct (of_N (Z.to_N (T mod 10))); [contradiction | reflexivity].
Qed.

Lemma one_decimal_value T :
  0 <= T -> of_str (one_decimal T) = Some (of_ratio T 10).
Proof.
  intros HT. destruct (one_decimal_parts T HT) as (Hi & Hf & Hin & Hfn & Hl).
  unfold of_str, one_decimal.
  rewrite (remove_first_digits _ _ Hi), (cut_at_dot_digits _ _ Hi).
  assert (Hg : isdigit (of_N (Z.to_N (T / 10)) ++ of_N (Z.to_N (T mod 10)))
               = true).
  { unfold isdigit. rewrite all_digits_app, Hi, Hf.
    destruct (of_N (Z.to_N (T / 10))); [contradiction | reflexivity]. }
  rewrite Hg, Hl, digits_value_app, (digits_value_acc _ _ Hf), Hl.
  rewrite !IntTextFacts.digits_value_of_N.
  pose proof (Z.div_mod T 10 ltac:(lia)) as Hdm.
  pose proof (Z.mod_pos_bound T 10 ltac:(lia)) as Hm.
  assert (0 <= T / 10) by (apply Z.div_pos; lia).
  do 2 f_equal. change (10 ^ N.of_nat 1)%N with 10%N. lia.
Qed.

(** The value of an accepted token, when finite, is zero or a canonical
    positive number. *)
Lemma limit_value_canonical t val :
  limit_value t = Some val -> is_finite val = true ->
  val = S754_zero false \/
  exists m e,
    val = S754_finite false m e /\ Z.pos m < 2 ^ 53 /\
    (2 ^ 52 <= Z.pos m \/ e = -1074) /\ -1074 <= e <= 971.
Proof.
  unfold limit_value, of_str. intros H Hfin.
  destruct (isdigit _); [|discriminate].
  destruct (cut_at_dot (strip t)) as [i f]. injection H as H.
  set (n := Z.of_N (digits_value 0 (i ++ f))) in *.
  set (d := 10 ^ Z.of_nat (String.length f)) in *.
  assert (Hd : 0 < d) by (apply Z.pow_pos_nonneg; lia).
  assert (Hn : 0 <= n) by (subst n; lia).
  pose proof (of_ratio_unsigned n d) as Hs. rewrite H in Hs.
  destruct val as [s|s| |s m e]; try discriminate.
  - left. now subst s.
  - right. subst s. exists m, e. split; [reflexivity|].
    assert (Hn0 : n <> 0).
    { intros E. rewrite E in H. discriminate H. }
    apply (of_ratio_canonical n d false m e); [lia | exact Hd | exact H].
Qed.

(** The one-decimal text of a finite value is itself an accepted token,
    and it reads back as a finite value with the same text. *)
Lemma limit_text_fixed t val :
  limit_value t = Some val -> is_finite val = true ->
  accepted_limit (fmt_1f val) = true /\
  (exists val', limit_value (fmt_1f val) = Some val' /\
                is_finite val' = true) /\
  limit_text (fmt_1f val) = fmt_1f val.
Proof.
  intros Hval Hfin.
  assert (HT : 0 <= tenths val /\
               is_finite (of_ratio (tenths val) 10) = true /\
               tenths (of_ratio (tenths val) 10) = tenths val /\
               fmt_1f val = one_decimal (tenths val)).
  { destruct (limit_value_canonical _ _ Hval Hfin)
      as [->|(m & e & -> & Hm1 & Hm2 & He)].
    - repeat split; reflexivity || lia.
    - destruct (tenths_reread m e Hm1 Hm2 He) as (H0 & H1 & H2).
      repeat split; assumption. }
  destruct HT as (H0 & H1 & H2 & Htext). rewrite Htext.
  assert (Hv : limit_value (one_decimal (tenths val))
               = Some (of_ratio (tenths val) 10)).
  { unfold limit_value. rewrite (one_decimal_strip _ H0).
    now apply one_decimal_value. }
  split; [|split].
  - unfold accepted_limit.
    destruct (decimal_numeral (strip (one_decimal (tenths val)))) eqn:E;
      [reflexivity|].
    unfold limit_value in Hv. rewrite (of_str_not_numeral _ E) in Hv.
    discriminate Hv.
  - eauto.
  - unfold limit_text. rewrite Hv.
    rewrite fmt_1f_tenths; [now rewrite H2 | exact H1 |].
    pose proof (of_ratio_unsigned (tenths val) 10) as Hs.
    destruct (of_ratio (tenths val) 10); auto.
Qed.

End TenthsFacts.

Section ReadBack.
Import PyStr PyFloat Vocabulary ExtraVocabulary PyStrFacts LimitFacts
       LimitExtraFacts TenthsFacts.

Lemma accepted_value t :
  accepted_limit t = true -> exists val, limit_value t = Some val.
Proof. intros H. now apply of_str_numeral. Qed.

(** What the one-decimal text of an accepted token reads back as. *)
Lemma reads_back (t : string) :
  accepted_limit t = true ->
  if finite_limit t
  then accepted_limit (limit_text t) = true /\
       finite_limit (limit_text t) = true /\
       limit_text (limit_text t) = limit_text t
  else limit_text t = "inf" /\ accepted_limit (limit_text t) = false.
Proof.
  intros Hacc. destruct (accepted_value t Hacc) as [val Hval].
  unfold finite_limit at 1. rewrite Hval.
  destruct (is_finite val) eqn:Hfin.
  - destruct (limit_text_fixed t val Hval Hfin)
      as (H1 & (val' & Hv' & Hf') & H3).
    assert (Ht : limit_text t = fmt_1f val)
      by (unfold limit_text; now rewrite Hval).
    rewrite Ht. split; [exact H1|]. split; [|exact H3].
    unfold finite_limit. now rewrite Hv'.
  - assert (Hinf : val = S754_infinity false).
    { unfold limit_value, of_str in Hval.
      destruct (isdigit _); [|discriminate].
      destruct (cut_at_dot (strip t)) as [i f]. injection Hval as Hval.
      match type of Hval with of_ratio ?n ?d = _ =>
        pose proof (of_ratio_unsigned n d) as Hs end.
      rewrite Hval in Hs.
      destruct val as [s|s| |s m e]; try discriminate; [now subst s|].
      destruct Hs. }
    unfold limit_text. rewrite Hval, Hinf. split; reflexivity.
Qed.

(** X19 ([async_step_init], hard-limit block).  The one-decimal text
    stored for an accepted token whose binary64 value is finite is itself
    an accepted token with a finite value, and it is stored as itself:
    formatting, parsing and formatting again changes nothing.  When the
    value is infinite the stored text is [inf], which the check does not
    accept. *)
Theorem limit_text_reads_back (t : string) :
  accepted_limit t = true ->
  if finite_limit t
  then accepted_limit (limit_text t) = true /\
       finite_limit (limit_text t) = true /\
       limit_text (limit_text t) = limit_text t
  else limit_text t = "inf" /\ accepted_limit (limit_text t) = false.
Proof. apply reads_back. Qed.

(** A stored hard-limit string of finite values passes the check again
    unchanged. *)
Lemma limit_revalidates hard_limit api_count out :
  validate_hard_limit hard_limit api_count = Ok (inr out) ->
  Forall (fun t => finite_limit t = true) (split comma hard_limit) ->
  validate_hard_limit out api_count = Ok (inr out).
Proof.
  intros H Hfin.
  destruct (limit_success _ _ _ H) as (Hout & Hsplit & Hacc & Hlen).
  assert (Hboth : Forall (fun t => accepted_limit (limit_text t) = true /\
                                   limit_text (limit_text t) = limit_text t)
                    (split comma hard_limit)).
  { apply List.Forall_forall. intros t Hin.
    rewrite List.Forall_forall in Hacc, Hfin.
    pose proof (reads_back t (Hacc t Hin)) as Ht.
    rewrite (Hfin t Hin) in Ht. tauto. }
  rewrite validate_hard_limit_accepts.
  - rewrite Hsplit, length_map.
    destruct (Z.ltb_spec api_count
                (Z.of_nat (length (split comma hard_limit)))); [lia|].
    rewrite Hout. do 3 f_equal.
    rewrite List.map_map. apply List.map_ext_in. intros t Hin.
    rewrite List.Forall_forall in Hboth. now destruct (Hboth t Hin).
  - rewrite Hsplit. apply List.Forall_forall. intros x Hx.
    apply List.in_map_iff in Hx as (t & <- & Hin).
    rewrite List.Forall_forall in Hboth. now destruct (Hboth t Hin).
Qed.

(** X20 ([async_step_init], hard-limit block).  A hard-limit string that
    the main step returned passes the same check again unchanged when
    every entered value was finite, and is rejected as not a positive
    number when one of them was infinite. *)
Theorem hard_limit_revalidates (hard_limit : string) (api_count : Z)
    (out : string) :
  validate_hard_limit hard_limit api_count = Ok (inr out) ->
  (Forall (fun t => finite_limit t = true) (split comma hard_limit) ->
   validate_hard_limit out api_count = Ok (inr out)) /\
  (Exists (fun t => finite_limit t = false) (split comma hard_limit) ->
   validate_hard_limit out api_count = Ok (inl Reason.limit_nan)).
Proof.
  intros H. split; [now apply limit_revalidates|].
  destruct (limit_success _ _ _ H) as (Hout & Hsplit & Hacc & Hlen).
  intros Hex. apply List.Exists_exists in Hex as (t & Hin & Ht).
  apply (validate_hard_limit_rejects _ _ (limit_text t)).
  - rewrite Hsplit. now apply List.in_map.
  - rewrite List.Forall_forall in Hacc.
    pose proof (reads_back t (Hacc t Hin)) as Hrb.
    rewrite Ht in Hrb. now destruct Hrb.
Qed.

End ReadBack.

(** ** Submitting the main form unchanged *)

Section RoundTrip.
Import PyStr Vocabulary ExtraVocabulary PyStrFacts KeyFacts QuotaFacts
       LimitFacts DictFacts IntTextFacts.

Variable c : names.

(** The defaults of the main form, sent back, merge to the stored
    record. *)
Lemma resubmit_defaults (self : options_flow) (schema : list field)
    (api_key api_quota hard_limit : string) (api_count auto_update : Z)
    (hour : value) :
  NoDup (form_keys c) ->
  init_form c (_options self) = Ok schema ->
  _options self !! c.(CONF_API_KEY) = Some (VStr api_key) ->
  validate_api_key c (_options self) = Ok (api_key, api_count, None) ->
  _options self !! c.(API_QUOTA) = Some (VStr api_quota) ->
  validate_api_limit c (_options self) api_count = Ok (api_quota, None) ->
  _options self !! c.(CUSTOM_HOUR_SENSOR) = Some hour ->
  hour_sensor_refused hour = Ok false ->
  _options self !! c.(HARD_LIMIT_API) = Some (VStr hard_limit) ->
  validate_hard_limit hard_limit api_count = Ok (inr hard_limit) ->
  _options self !! c.(AUTO_UPDATE) = Some (VInt auto_update) ->
  is_Some (_options self !! c.(KEY_ESTIMATE)) ->
  async_step_init c self (Some (submit_defaults schema))
    = (Ok (FlowCreateEntry c.(TITLE) None None),
       persisted c self (_options self)).
Proof.
  intros Hnd Hform Hk Hvk Hq Hvq Hh Hvh Hl Hvl Ha [ke Hke].
  set (options := _options self) in *.
  unfold init_form in Hform.
  rewrite (getitem_some _ _ _ Hq), bind_ok, (getitem_some _ _ _ Ha), bind_ok
    in Hform.
  cbn [Py.int] in Hform. rewrite bind_ok, Hke in Hform.
  rewrite (getitem_some _ _ _ Hh), bind_ok in Hform.
  unfold Py.get in Hform. rewrite Hk, Hl in Hform.
  apply bind_inv in Hform as (b10 & H10%getitem_ok & Hform).
  apply bind_inv in Hform as (be & Hbe%getitem_ok & Hform).
  apply bind_inv in Hform as (b90 & H90%getitem_ok & Hform).
  apply bind_inv in Hform as (bs & Hbs%getitem_ok & Hform).
  apply bind_inv in Hform as (bhh & Hbhh%getitem_ok & Hform).
  apply bind_inv in Hform as (bh & Hbh%getitem_ok & Hform).
  apply bind_inv in Hform as (bd & Hbd%getitem_ok & Hform).
  apply bind_inv in Hform as (sd & Hsd & Hform).
  apply bind_inv in Hform as (last & Hlast & Hform).
  injection Hform as <-.
  apply getitem_ok in Hsd.
  assert (Hcase : exists lk lv,
            last = opt_bool lk lv /\
            (lk = c.(CONFIG_DAMP) /\ lv = VBool false \/
             lk = c.(SITE_DAMP) /\ lv = sd /\ Py.truthy sd = true)).
  { destruct (Py.truthy sd); cbn [negb] in Hlast.
    - rewrite (getitem_some _ _ _ Hsd), bind_ok in Hlast.
      injection Hlast as <-. eauto 7.
    - injection Hlast as <-. eauto 6. }
  destruct Hcase as (lk & lv & -> & Hcase). clear Hlast.
  remember (submit_defaults _) as ui eqn:Hui.
  unfold submit_defaults, opt_bool in Hui. cbn -[mkdict] in Hui.
  assert (Hnd' : NoDup [ c.(CONF_API_KEY); c.(API_QUOTA); c.(AUTO_UPDATE);
                         c.(KEY_ESTIMATE); c.(CUSTOM_HOUR_SENSOR);
                         c.(HARD_LIMIT_API); c.(BRK_ESTIMATE10);
                         c.(BRK_ESTIMATE); c.(BRK_ESTIMATE90); c.(BRK_SITE);
                         c.(BRK_HALFHOURLY); c.(BRK_HOURLY);
                         c.(BRK_SITE_DETAILED); lk ]).
  { apply (sublist_NoDup _ _ Hnd). unfold form_keys.
    do 13 apply sublist_skip.
    destruct Hcase as [[-> _]|[-> _]].
    - apply sublist_skip, sublist_cons, sublist_nil.
    - apply sublist_cons, sublist_skip, sublist_nil. }
  assert (Hget : forall k v,
            (k, v) ∈ [ (c.(CONF_API_KEY), VStr api_key);
                       (c.(API_QUOTA), VStr api_quota);
                       (c.(AUTO_UPDATE), VStr (str_of_int auto_update));
                       (c.(KEY_ESTIMATE), ke); (c.(CUSTOM_HOUR_SENSOR), hour);
                       (c.(HARD_LIMIT_API), VStr hard_limit);
                       (c.(BRK_ESTIMATE10), b10); (c.(BRK_ESTIMATE), be);
                       (c.(BRK_ESTIMATE90), b90); (c.(BRK_SITE), bs);
                       (c.(BRK_HALFHOURLY), bhh); (c.(BRK_HOURLY), bh);
                       (c.(BRK_SITE_DETAILED), bd); (lk, lv) ] ->
            ui !! k = Some v).
  { intros k v Hin. rewrite Hui. apply mkdict_nodup; [exact Hnd' | exact Hin]. }
  assert (Hsite : Py.get ui c.(SITE_DAMP) = VNone /\
                  Py.get ui c.(CONFIG_DAMP) = VBool false \/
                  ui !! c.(SITE_DAMP) = Some sd /\ Py.truthy sd = true /\
                  Py.get ui c.(CONFIG_DAMP) = VNone).
  { unfold Py.get.
    destruct Hcase as [[-> ->]|(-> & -> & Ht)]; [left|right].
    - split.
      + rewrite Hui, mkdict_other; [reflexivity|]. cbn [fmap list_fmap fst].
        intros Hin.
        change (form_keys c)
          with ([ c.(CONF_API_KEY); c.(API_QUOTA); c.(AUTO_UPDATE);
                  c.(KEY_ESTIMATE); c.(CUSTOM_HOUR_SENSOR);
                  c.(HARD_LIMIT_API); c.(BRK_ESTIMATE10);
                  c.(BRK_ESTIMATE); c.(BRK_ESTIMATE90); c.(BRK_SITE);
                  c.(BRK_HALFHOURLY); c.(BRK_HOURLY);
                  c.(BRK_SITE_DETAILED); c.(CONFIG_DAMP) ]
                ++ [ c.(SITE_DAMP) ])%list in Hnd.
        apply NoDup_app in Hnd as (_ & Hdis & _).
        apply (Hdis _ Hin). now left.
      + rewrite (Hget c.(CONFIG_DAMP) (VBool false)); [reflexivity|].
        repeat constructor.
    - split; [apply Hget; repeat constructor|]. split; [exact Ht|].
      rewrite Hui, mkdict_other; [reflexivity|]. cbn [fmap list_fmap fst].
      intros Hin.
      change (form_keys c)
        with ([ c.(CONF_API_KEY); c.(API_QUOTA); c.(AUTO_UPDATE);
                c.(KEY_ESTIMATE); c.(CUSTOM_HOUR_SENSOR);
                c.(HARD_LIMIT_API); c.(BRK_ESTIMATE10);
                c.(BRK_ESTIMATE); c.(BRK_ESTIMATE90); c.(BRK_SITE);
                c.(BRK_HALFHOURLY); c.(BRK_HOURLY);
                c.(BRK_SITE_DETAILED) ]
              ++ [ c.(CONFIG_DAMP); c.(SITE_DAMP) ])%list in Hnd.
      apply NoDup_app in Hnd as (_ & Hdis & Hnd2).
      apply NoDup_cons in Hnd2 as [Hne _].
      do 13 (apply elem_of_cons in Hin as [Heq|Hin];
             [apply (Hdis c.(CONFIG_DAMP));
                [rewrite Heq; repeat constructor | now left]|]).
      apply elem_of_cons in Hin as [Heq|Hin]; [|inversion Hin].
      apply Hne. rewrite Heq. now left. }
  assert (Hmerge : check_and_merge c options ui = Ok (Merged options)).
  { unfold check_and_merge.
    assert (Huk : ui !! c.(CONF_API_KEY) = Some (VStr api_key))
      by (apply Hget; repeat constructor).
    rewrite (validate_api_key_unfold c _ _ Huk),
      <- (validate_api_key_unfold c _ _ Hk), Hvk, bind_ok.
    assert (Huq : ui !! c.(API_QUOTA) = Some (VStr api_quota))
      by (apply Hget; repeat constructor).
    rewrite (validate_api_limit_unfold c _ _ _ Huq),
      <- (validate_api_limit_unfold c _ _ _ Hq), Hvq, bind_ok.
    rewrite (getitem_some ui c.(CUSTOM_HOUR_SENSOR) hour)
      by (apply Hget; repeat constructor).
    rewrite bind_ok, Hvh, bind_ok.
    rewrite (getitem_some ui c.(HARD_LIMIT_API) (VStr hard_limit))
      by (apply Hget; repeat constructor).
    rewrite bind_ok. cbn [Py.as_str]. rewrite bind_ok, Hvl, bind_ok.
    rewrite (insert_id options _ _ Hk), (insert_id options _ _ Hq),
      (insert_id options _ _ Hh), (insert_id options _ _ Hl).
    unfold copy_fields.
    replace (if negb (Py.is_none (Py.get ui c.(SITE_DAMP)))
             then v ← Py.getitem ui c.(SITE_DAMP);
                  Ok (<[c.(SITE_DAMP) := v]> options)
             else Ok options : res dict) with (Ok options : res dict).
    2:{ destruct Hsite as [[-> _]|(Hs & Ht & _)]; [reflexivity|].
        unfold Py.get. rewrite Hs, (getitem_some _ _ _ Hs), bind_ok.
        rewrite (insert_id options _ _ Hsd).
        now destruct sd. }
    rewrite bind_ok.
    rewrite (getitem_some ui c.(AUTO_UPDATE) (VStr (str_of_int auto_update)))
      by (apply Hget; repeat constructor).
    rewrite bind_ok, int_str, bind_ok, (insert_id options _ _ Ha).
    rewrite (getitem_some ui c.(KEY_ESTIMATE) ke)
      by (apply Hget; repeat constructor).
    rewrite bind_ok, (insert_id options _ _ Hke).
    rewrite (getitem_some ui c.(BRK_ESTIMATE) be)
      by (apply Hget; repeat constructor).
    rewrite bind_ok, (insert_id options _ _ Hbe).
    rewrite (getitem_some ui c.(BRK_ESTIMATE10) b10)
      by (apply Hget; repeat constructor).
    rewrite bind_ok, (insert_id options _ _ H10).
    rewrite (getitem_some ui c.(BRK_ESTIMATE90) b90)
      by (apply Hget; repeat constructor).
    rewrite bind_ok, (insert_id options _ _ H90).
    rewrite (getitem_some ui c.(BRK_HALFHOURLY) bhh)
      by (apply Hget; repeat constructor).
    rewrite bind_ok, (insert_id options _ _ Hbhh).
    rewrite (getitem_some ui c.(BRK_HOURLY) bh)
      by (apply Hget; repeat constructor).
    rewrite bind_ok, (insert_id options _ _ Hbh).
    rewrite (getitem_some ui c.(BRK_SITE) bs)
      by (apply Hget; repeat constructor).
    rewrite bind_ok, (insert_id options _ _ Hbs).
    rewrite (getitem_some ui c.(BRK_SITE_DETAILED) bd)
      by (apply Hget; repeat constructor).
    rewrite bind_ok, (insert_id options _ _ Hbd). reflexivity. }
  rewrite (init_done c self ui options Hmerge); [reflexivity|].
  destruct Hsite as [[_ ->]|(_ & _ & ->)]; reflexivity.
Qed.

(** X18 ([async_step_init]).  Submitting the main form with every
    field left at the default it was shown with persists the stored
    record unchanged, provided that record passes the validators as it
    stands, holds an integer auto-update mode and names a forecast
    choice; in particular the auto-update default, printed as text,
    reads back as the same integer. *)
Theorem defaults_resubmitted (self : options_flow) (schema : list field)
    (api_key api_quota hard_limit : string) (api_count auto_update : Z)
    (hour : value) :
  NoDup (form_keys c) ->
  init_form c (_options self) = Ok schema ->
  _options self !! c.(CONF_API_KEY) = Some (VStr api_key) ->
  validate_api_key c (_options self) = Ok (api_key, api_count, None) ->
  _options self !! c.(API_QUOTA) = Some (VStr api_quota) ->
  validate_api_limit c (_options self) api_count = Ok (api_quota, None) ->
  _options self !! c.(CUSTOM_HOUR_SENSOR) = Some hour ->
  hour_sensor_refused hour = Ok false ->
  _options self !! c.(HARD_LIMIT_API) = Some (VStr hard_limit) ->
  validate_hard_limit hard_limit api_count = Ok (inr hard_limit) ->
  _options self !! c.(AUTO_UPDATE) = Some (VInt auto_update) ->
  is_Some (_options self !! c.(KEY_ESTIMATE)) ->
  async_step_init c self (Some (submit_defaults schema))
    = (Ok (FlowCreateEntry c.(TITLE) None None),
       persisted c self (_options self)).
Proof.
  intros Hnd Hform Hk Hvk Hq Hvq Hh Hvh Hl Hvl Ha Hke.
  exact (resubmit_defaults self schema api_key api_quota hard_limit
           api_count auto_update hour Hnd Hform Hk Hvk Hq Hvq Hh Hvh Hl Hvl
           Ha Hke).
Qed.

(** Distinct form names make the assigned names distinct. *)
Lemma written_keys_nodup :
  NoDup (form_keys c) -> NoDup (written_keys c).
Proof.
  intros Hnd.
  assert (Hp : form_keys c ≡ₚ c.(CONFIG_DAMP) :: written_keys c).
  { apply submseteq_length_Permutation; [|reflexivity].
    apply NoDup_submseteq; [exact Hnd|].
    intros x Hx. unfold form_keys in Hx. unfold written_keys.
    repeat (apply elem_of_cons in Hx as [-> | Hx]; [repeat constructor|]).
    inversion Hx. }
  rewrite Hp in Hnd. now apply NoDup_cons in Hnd as [_ Hnd].
Qed.

(** A key string that passed validation passes it again unchanged. *)
Lemma key_revalidates user_input again k n :
  validate_api_key c user_input = Ok (k, n, None) ->
  again !! c.(CONF_API_KEY) = Some (VStr k) ->
  validate_api_key c again = Ok (k, n, None).
Proof.
  intros H Hag.
  destruct (key_success c _ _ _ H) as (raw & _ & Hk & Hn & Htok & Hnd & Hs).
  rewrite (validate_api_key_unfold c _ _ Hag), Htok.
  rewrite (proj2 (key_loop_none _) (conj Hs Hnd)). now rewrite <- Hk, <- Hn.
Qed.

(** A quota string that passed validation passes it again unchanged. *)
Lemma quota_revalidates user_input again n q :
  validate_api_limit c user_input n = Ok (q, None) ->
  again !! c.(API_QUOTA) = Some (VStr q) ->
  validate_api_limit c again n = Ok (q, None).
Proof.
  intros H Hag.
  destruct (quota_success c _ _ _ H) as (raw & _ & Hq & Htok & Hv & Hlen).
  rewrite (validate_api_limit_unfold c _ _ _ Hag), Htok.
  rewrite <- (app_nil_r (tokens raw)) at 1.
  rewrite (quota_loop_valid _ _ Hv). cbn [quota_loop mbind res_bind].
  destruct (Z.ltb_spec n (Z.of_nat (length (tokens raw)))); [lia|].
  now rewrite <- Hq.
Qed.

(** X21 ([async_step_init]).  A record that the main step merged can be
    edited again: on a handler opened with it, provided it holds the
    site-dampening flag and its hard limits were finite, the first
    display shows the main form, and submitting that form with every
    default unchanged persists exactly the same record. *)
Theorem merged_record_round_trip (self : options_flow)
    (base first : dict) :
  check_and_merge c base first = Ok (Merged (_options self)) ->
  NoDup (form_keys c) ->
  is_Some (_options self !! c.(SITE_DAMP)) ->
  (forall raw, first !! c.(HARD_LIMIT_API) = Some (VStr raw) ->
     Forall (fun t => finite_limit t = true) (split comma raw)) ->
  exists schema,
    async_step_init c self None = (Ok (FlowForm "init" schema None), self) /\
    async_step_init c self (Some (submit_defaults schema))
      = (Ok (FlowCreateEntry c.(TITLE) None None),
         persisted c self (_options self)).
Proof.
  intros Hm Hnd [sd Hsd] Hfin.
  destruct (merged_fields c _ _ _ Hm (written_keys_nodup Hnd))
    as (api_key & api_count & api_quota & raw_limit & hard_limit & hour & n
        & Hvk & Hvq & Hvh & Hraw & Hvl & Hk & Hq & Hh & Hl & Ha & Hrest).
  set (options := _options self) in *.
  apply Forall_cons in Hrest as [[ke Hke] Hrest].
  apply Forall_cons in Hrest as [[be Hbe] Hrest].
  apply Forall_cons in Hrest as [[b10 Hb10] Hrest].
  apply Forall_cons in Hrest as [[b90 Hb90] Hrest].
  apply Forall_cons in Hrest as [[bhh Hbhh] Hrest].
  apply Forall_cons in Hrest as [[bh Hbh] Hrest].
  apply Forall_cons in Hrest as [[bs Hbs] Hrest].
  apply Forall_cons in Hrest as [[bd Hbd] _].
  assert (Hform : exists schema, init_form c options = Ok schema).
  { unfold init_form.
    rewrite (getitem_some _ _ _ Hq), bind_ok, (getitem_some _ _ _ Ha),
      bind_ok.
    cbn [Py.int]. rewrite bind_ok, (getitem_some _ _ _ Hh), bind_ok.
    rewrite (getitem_some _ _ _ Hb10), bind_ok,
      (getitem_some _ _ _ Hbe), bind_ok, (getitem_some _ _ _ Hb90), bind_ok,
      (getitem_some _ _ _ Hbs), bind_ok, (getitem_some _ _ _ Hbhh), bind_ok,
      (getitem_some _ _ _ Hbh), bind_ok, (getitem_some _ _ _ Hbd), bind_ok,
      (getitem_some _ _ _ Hsd), bind_ok.
    destruct (negb (Py.truthy sd)); rewrite bind_ok; eauto. }
  destruct Hform as [schema Hform]. exists schema. split.
  - unfold async_step_init, init_show. fold options. now rewrite Hform.
  - apply (resubmit_defaults self schema api_key api_quota hard_limit
             api_count n hour); try assumption.
    + exact (key_revalidates _ _ _ _ Hvk Hk).
    + exact (quota_revalidates _ _ _ _ Hvq Hq).
    + exact (limit_revalidates _ _ _ Hvl (Hfin _ Hraw)).
    + eauto.
Qed.

End RoundTrip.

(** ** An exception from the dampening step *)

Section NestedException.
Import PyStr Vocabulary ExtraVocabulary.

Variable c : names.

(** X17 ([async_step_init], [async_step_dampen]).  When the per-hour
    flag is ticked but the merged record lacks a dampening slot, the
    [KeyError] raised by the dampening step is caught by the main step:
    the main form is shown again with that error, nothing is persisted,
    and the merged record stays behind as the handler's draft. *)
Theorem init_catches_dampen_exception (self : options_flow)
    (user_input merged : dict) (schema : list field)
    (pre : list nat) (f : nat) (post : list nat) :
  check_and_merge c (_options self) user_input = Ok (Merged merged) ->
  Py.truthy (Py.get user_input c.(CONFIG_DAMP)) = true ->
  hours = (pre ++ f :: post)%list ->
  Forall (fun f' => is_Some (merged !! damp_key f')) pre ->
  merged !! damp_key f = None ->
  (init_form c (_options self) = Ok schema ->
   async_step_init c self (Some user_input)
     = (Ok (FlowForm "init" schema (Some (ErrorText (KeyError (damp_key f))))),
        drafted self merged)) /\
  (forall e, init_form c (_options self) = Raise e ->
   async_step_init c self (Some user_input) = (Raise e, drafted self merged)).
Proof.
  intros Hm Hflag Hhours Hpre Hf.
  rewrite (init_to_dampen c _ _ _ Hm Hflag), Hhours,
    (extant_damp_missing _ _ _ post Hpre Hf).
  unfold init_show. cbn [_options drafted].
  split; [intros -> | intros e ->]; reflexivity.
Qed.

End NestedException.

(** ** The further properties at sample inputs *)

Lemma validate_api_key_success_invariant_witness :
  validate_api_key solcast_names (Samples.setup_input "key1, key2" "10")
    = Ok ("key1,key2", 2, None) /\
  NoDup (tokens "key1,key2") /\
  validate_api_key solcast_names Samples.good_merged
    = Ok ("key1,key2", 2, None).
Proof.
  assert (H : validate_api_key solcast_names
                (Samples.setup_input "key1, key2" "10")
              = Ok ("key1,key2", 2, None)) by (vm_compute; reflexivity).
  destruct (validate_api_key_success_invariant solcast_names _ _ _ H)
    as (H1 & _ & _ & _ & _ & H6).
  split; [exact H|]. split; [exact H1|]. apply H6. vm_compute; reflexivity.
Defined.


Lemma validate_api_limit_success_invariant_witness :
  validate_api_limit solcast_names (Samples.setup_input "key1" "10, 20") 2
    = Ok ("10,20", None) /\
  validate_api_limit solcast_names Samples.good_merged 3
    = Ok ("10,20", None).
Proof.
  assert (H : validate_api_limit solcast_names
                (Samples.setup_input "key1" "10, 20") 2
              = Ok ("10,20", None)) by (vm_compute; reflexivity).
  destruct (validate_api_limit_success_invariant solcast_names _ _ _ H)
    as (_ & _ & _ & H4).
  split; [exact H|]. apply H4; [vm_compute; reflexivity | lia].
Defined.



Lemma options_form_needs_site_damp_witness :
  ExtraSamples.fresh_options !! "site_damp" = None /\
  async_step_init solcast_names ExtraSamples.fresh_flow None
    = (Raise (KeyError "site_damp"), ExtraSamples.fresh_flow).
Proof.
  apply (options_form_needs_site_damp solcast_names false
           (Samples.setup_input "key1" "10") "Solcast Solar" (Some ∅)
           ExtraSamples.fresh_options ExtraSamples.fresh_flow).
  - vm_compute; reflexivity.
  - reflexivity.
  - vm_compute. compute_done.
Defined.


Lemma hard_limit_output_structure_witness :
  validate_hard_limit "5,7.25" 2 = Ok (inr "5.0,7.2") /\
  PyStr.split PyStr.comma "5.0,7.2"
    = map Vocabulary.limit_text (PyStr.split PyStr.comma "5,7.25").
Proof.
  assert (H : validate_hard_limit "5,7.25" 2 = Ok (inr "5.0,7.2"))
    by (vm_compute; reflexivity).
  split; [exact H|].
  exact (proj1 (hard_limit_output_structure "5,7.25" 2 "5.0,7.2" H)).
Defined.

Lemma entry_written_only_on_done_witness :
  _entry (snd (async_step_init solcast_names Samples.opened_flow
                 (Some Samples.too_many_limits)))
    = _entry Samples.opened_flow /\
  entry_title (_entry (snd (async_step_dampen solcast_names
                              Samples.opened_flow (Some Samples.all_ones))))
    = "Solcast Solar".
Proof.
  split.
  - refine (proj1 (proj2 (entry_written_only_on_done solcast_names
                            Samples.opened_flow (Some Samples.too_many_limits)
                            _ _ (or_introl (surjective_pairing _)))) _).
    intros t d o. vm_compute. discriminate.
  - destruct (entry_written_only_on_done solcast_names Samples.opened_flow
                (Some Samples.all_ones) _ _
                (or_intror (surjective_pairing _))) as (_ & _ & H).
    destruct (H "Solcast Solar" None None) as (_ & _ & _ & Ht);
      [vm_compute; reflexivity | exact Ht].
Defined.

Lemma dampen_step_frame_witness :
  Vocabulary.overwrites_only ("site_damp" :: Vocabulary.damp_keys)
    Samples.good_merged
    (entry_options (_entry (snd (async_step_dampen solcast_names
                                   ExtraSamples.drafted_flow
                                   (Some Samples.all_ones))))).
Proof.
  refine (proj1 (dampen_step_frame solcast_names ExtraSamples.drafted_flow
                   Samples.all_ones "Solcast Solar" None None _ _)).
  vm_compute; reflexivity.
Defined.

Lemma dampen_failure_keeps_entry_witness :
  exists schema self',
    async_step_dampen solcast_names ExtraSamples.drafted_flow
      (Some ExtraSamples.partial_factors)
      = (Ok (FlowForm "dampen" schema (Some ErrorUnknown)), self') /\
    _entry self' = _entry ExtraSamples.drafted_flow.
Proof.
  destruct (dampen_failure_keeps_entry solcast_names
              ExtraSamples.drafted_flow ExtraSamples.partial_factors
              (seq 0 5) 5%nat (seq 6 18))
    as (schema & self' & H1 & H2 & _).
  - reflexivity.
  - vm_compute. compute_done.
  - vm_compute. compute_done.
  - vm_compute; reflexivity.
  - exists schema, self'. split; [exact H1 | exact H2].
Defined.

Lemma dampen_display_witness :
  (exists schema,
     async_step_dampen solcast_names Samples.opened_flow None
       = (Ok (FlowForm "dampen" schema None), Samples.opened_flow) /\
     map f_key schema = Vocabulary.damp_keys) /\
  async_step_dampen solcast_names ExtraSamples.gapped_flow
    (Some Samples.all_ones)
    = (Raise (KeyError "damp05"), ExtraSamples.gapped_flow).
Proof.
  split.
  - destruct (proj1 (dampen_display solcast_names Samples.opened_flow))
      as (schema & H1 & H2 & _).
    + vm_compute. compute_done.
    + exists schema. split; [exact H1 | exact H2].
  - apply (proj2 (dampen_display solcast_names ExtraSamples.gapped_flow)
             (seq 0 5) 5%nat (seq 6 18) (Some Samples.all_ones)).
    + reflexivity.
    + vm_compute. compute_done.
    + vm_compute; reflexivity.
Defined.

Lemma two_step_flow_witness :
  exists schema self1 self2,
    async_step_init solcast_names Samples.opened_flow
      (Some Samples.wants_dampening)
      = (Ok (FlowForm "dampen" schema None), self1) /\
    async_step_dampen solcast_names self1 (Some Samples.all_ones)
      = (Ok (FlowCreateEntry "Solcast Solar" None None), self2) /\
    entry_options (_entry self2) !! "site_damp" = Some (VBool false).
Proof.
  destruct (two_step_flow solcast_names Samples.opened_flow
              Samples.wants_dampening Samples.all_ones Samples.good_merged)
    as (schema & self1 & self2 & H1 & _ & H2 & _ & _ & H3 & _).
  - vm_compute; reflexivity.
  - vm_compute; reflexivity.
  - vm_compute. compute_done.
  - vm_compute. compute_done.
  - exists schema, self1, self2.
    split; [exact H1|]. split; [exact H2 | exact H3].
Defined.

Lemma merged_record_invariant_witness :
  exists api_key api_quota hard_limit hour n,
    Samples.good_merged !! "api_key" = Some (VStr api_key) /\
    Samples.good_merged !! "api_quota" = Some (VStr api_quota) /\
    Samples.good_merged !! "hard_limit_api" = Some (VStr hard_limit) /\
    Samples.good_merged !! "customhoursensor" = Some hour /\
    Samples.good_merged !! "auto_update" = Some (VInt n) /\
    NoDup (tokens api_key) /\
    (length (tokens api_quota) <= length (tokens api_key))%nat.
Proof.
  destruct (merged_record_invariant solcast_names Samples.stored_options
              Samples.good_input Samples.good_merged)
    as (k & q & hl & hour & n & H1 & H2 & H3 & H4 & H5 & H6 & _ & _ & H7 & _).
  - vm_compute; reflexivity.
  - vm_compute. compute_done.
  - exists k, q, hl, hour, n. repeat (split; [assumption|]). exact H7.
Defined.

Lemma init_exception_reshows_form_witness :
  async_step_init solcast_names Samples.opened_flow
    (Some ExtraSamples.no_hour)
    = (Ok (FlowForm "init" ExtraSamples.stored_form
             (Some (ErrorText (KeyError "customhoursensor")))),
       Samples.opened_flow).
Proof.
  destruct (init_exception_reshows_form solcast_names Samples.opened_flow
              ExtraSamples.no_hour ExtraSamples.stored_form)
    as [H1 H2]; [vm_compute; reflexivity|].
  apply H1.
  apply (proj1 (H2 "key1,key2" 2 "10,20"
                  ltac:(vm_compute; reflexivity)
                  ltac:(vm_compute; reflexivity))).
  vm_compute; reflexivity.
Defined.

Lemma init_catches_dampen_exception_witness :
  async_step_init solcast_names ExtraSamples.gapped_flow
    (Some Samples.wants_dampening)
    = (Ok (FlowForm "init"
             (match init_form solcast_names ExtraSamples.gapped_options with
              | Ok schema => schema
              | Raise _ => []
              end)
             (Some (ErrorText (KeyError "damp05")))),
       Vocabulary.drafted ExtraSamples.gapped_flow
         ExtraSamples.gapped_merged).
Proof.
  apply (proj1 (init_catches_dampen_exception solcast_names
                  ExtraSamples.gapped_flow Samples.wants_dampening
                  ExtraSamples.gapped_merged _ (seq 0 5) 5%nat (seq 6 18)
                  ltac:(vm_compute; reflexivity)
                  ltac:(vm_compute; reflexivity)
                  ltac:(reflexivity)
                  ltac:(vm_compute; compute_done)
                  ltac:(vm_compute; reflexivity))).
  vm_compute; reflexivity.
Defined.

Lemma defaults_resubmitted_witness :
  async_step_init solcast_names Samples.opened_flow
    (Some (ExtraVocabulary.submit_defaults ExtraSamples.stored_form))
    = (Ok (FlowCreateEntry "Solcast Solar" None None),
       Vocabulary.persisted solcast_names Samples.opened_flow
         Samples.stored_options).
Proof.
  apply (defaults_resubmitted solcast_names Samples.opened_flow
           ExtraSamples.stored_form "key1" "10" "100.0" 1 1 (VInt 1));
    try (vm_compute; reflexivity).
  - vm_compute. compute_done.
  - vm_compute. eauto.
Defined.

Lemma limit_text_reads_back_witness :
  Vocabulary.limit_text (Vocabulary.limit_text "7.25")
    = Vocabulary.limit_text "7.25" /\
  Vocabulary.accepted_limit (Vocabulary.limit_text Samples.huge_limit)
    = false.
Proof.
  split.
  - pose proof (limit_text_reads_back "7.25" eq_refl) as H.
    replace (ExtraVocabulary.finite_limit "7.25") with true in H
      by (vm_compute; reflexivity).
    apply H.
  - pose proof (limit_text_reads_back Samples.huge_limit
                  ltac:(vm_compute; reflexivity)) as H.
    replace (ExtraVocabulary.finite_limit Samples.huge_limit) with false in H
      by (vm_compute; reflexivity).
    apply H.
Defined.

Lemma hard_limit_revalidates_witness :
  validate_hard_limit "5,7.25" 2 = Ok (inr "5.0,7.2") /\
  validate_hard_limit "5.0,7.2" 2 = Ok (inr "5.0,7.2").
Proof.
  assert (H : validate_hard_limit "5,7.25" 2 = Ok (inr "5.0,7.2"))
    by (vm_compute; reflexivity).
  split; [exact H|].
  apply (proj1 (hard_limit_revalidates "5,7.25" 2 "5.0,7.2" H)).
  change (PyStr.split PyStr.comma "5,7.25") with ["5"; "7.25"].
  repeat (constructor; [vm_compute; reflexivity|]). constructor.
Defined.

Lemma merged_record_round_trip_witness :
  exists schema,
    async_step_init solcast_names ExtraSamples.merged_flow None
      = (Ok (FlowForm "init" schema None), ExtraSamples.merged_flow) /\
    async_step_init solcast_names ExtraSamples.merged_flow
      (Some (ExtraVocabulary.submit_defaults schema))
      = (Ok (FlowCreateEntry "Solcast Solar" None None),
         Vocabulary.persisted solcast_names ExtraSamples.merged_flow
           Samples.good_merged).
Proof.
  apply (merged_record_round_trip solcast_names ExtraSamples.merged_flow
           Samples.stored_options Samples.good_input).
  - vm_compute; reflexivity.
  - vm_compute. compute_done.
  - vm_compute. eauto.
  - intros raw Hraw. vm_compute in Hraw. injection Hraw as <-.
    change (PyStr.split PyStr.comma "5,7.25") with ["5"; "7.25"].
    repeat (constructor; [vm_compute; reflexivity|]). constructor.
Defined.
